(** * Sensay Replica Manager: the remote client and the training loop

    A shallow embedding of [app.py]: the request helper
    [make_sensay_request] and the "Train Replicas" button handler with its
    per-row loop.  The two external collaborators (the remote service and
    the message store) answer through oracles that see the whole history of
    events so far, so every pattern of successes and failures is covered.
    Every call that leaves the process, every pause and every message shown
    to the operator is recorded, in order, in a trace. *)

From Stdlib Require Import List String Ascii ZArith QArith Bool Lia Permutation Arith.
Import ListNotations.
Set Warnings "-register-all".
Local Open Scope string_scope.
Local Open Scope list_scope.
Local Open Scope Z_scope.

(** ** Python values *)

(** What [response.json()] can return.  [JNull] is Python's [None]; an
    object is a [dict], kept as an association list in insertion order. *)
Inductive JSON : Type :=
| JNull
| JBool (b : bool)
| JNum (n : Z)
| JStr (s : string)
| JArr (items : list JSON)
| JObj (fields : list (string * JSON)).

(** Python truth value: [None], [False], [0], [""], [[]] and [{}] are
    false, everything else is true. *)
Definition truthy (v : JSON) : bool :=
  match v with
  | JNull => false
  | JBool b => b
  | JNum n => negb (n =? 0)
  | JStr s => negb (s =? "")%string
  | JArr l => match l with [] => false | _ => true end
  | JObj l => match l with [] => false | _ => true end
  end.

Fixpoint assoc_get (k : string) (l : list (string * JSON)) : JSON :=
  match l with
  | [] => JNull
  | (k', v) :: l' => if (k =? k')%string then v else assoc_get k l'
  end.

(** [v.get(k)]: the field of a dict ([None] when absent); on any other
    value Python raises AttributeError, rendered here as [None]. *)
Definition py_get (v : JSON) (k : string) : option JSON :=
  match v with
  | JObj l => Some (assoc_get k l)
  | _ => None
  end.

(** A Python [str] is kept as the bytes of its UTF-8 encoding: a character
    is one byte below 128, or a leading byte followed by continuation
    bytes (128 to 191). *)

(** The capital of an ASCII letter. *)
Definition upper_ascii (c : ascii) : ascii :=
  let n := nat_of_ascii c in
  if ((97 <=? n) && (n <=? 122))%nat then ascii_of_nat (n - 32) else c.

(** The characters outside ASCII whose upper case is made of ASCII letters
    only, by their UTF-8 bytes: the sharp s (SS), the dotless i (I) and
    the long s (S) on two bytes, the ligatures U+FB00 to U+FB06 (FF, FI,
    FL, FFI, FFL, ST, ST) on three. *)
Definition upper_two (a b : nat) : option string :=
  if ((a =? 195) && (b =? 159))%nat then Some "SS"
  else if ((a =? 196) && (b =? 177))%nat then Some "I"
  else if ((a =? 197) && (b =? 191))%nat then Some "S"
  else None.

Definition upper_three (a b c : nat) : option string :=
  if ((a =? 239) && (b =? 172))%nat then
    if (c =? 128)%nat then Some "FF"
    else if (c =? 129)%nat then Some "FI"
    else if (c =? 130)%nat then Some "FL"
    else if (c =? 131)%nat then Some "FFI"
    else if (c =? 132)%nat then Some "FFL"
    else if (c =? 133)%nat then Some "ST"
    else if (c =? 134)%nat then Some "ST"
    else None
  else None.

(** [str.upper()], as far as the comparison with an ASCII word goes: ASCII
    letters and the characters above become ASCII capitals.  Any other
    character outside ASCII is left as it is; its upper case is not made
    of ASCII letters either, so a text that holds one is no ASCII word
    before or after. *)
Fixpoint upper (s : string) : string :=
  match s with
  | EmptyString => EmptyString
  | String a s1 =>
      let plain := String (upper_ascii a) (upper s1) in
      match s1 with
      | EmptyString => plain
      | String b s2 =>
          match upper_two (nat_of_ascii a) (nat_of_ascii b) with
          | Some u => String.append u (upper s2)
          | None =>
              match s2 with
              | EmptyString => plain
              | String c s3 =>
                  match upper_three (nat_of_ascii a) (nat_of_ascii b) (nat_of_ascii c) with
                  | Some u => String.append u (upper s3)
                  | None => plain
                  end
              end
          end
      end
  end.

(** A byte that continues a character. *)
Definition continuation (c : ascii) : bool :=
  let n := nat_of_ascii c in ((128 <=? n) && (n <? 192))%nat.

(** [s[:n]]: the first [n] characters, each with the bytes that continue
    it. *)
Fixpoint take_str (n : nat) (s : string) : string :=
  match s with
  | EmptyString => EmptyString
  | String c s' =>
      if continuation c then String c (take_str n s')
      else match n with
           | O => EmptyString
           | S n' => String c (take_str n' s')
           end
  end.

(** [len(s)]: the number of characters. *)
Fixpoint char_count (s : string) : nat :=
  match s with
  | EmptyString => O
  | String c s' => if continuation c then char_count s' else S (char_count s')
  end.

(** [s.replace(chr(10), ' ')]; the byte 10 occurs in UTF-8 only as the
    newline itself. *)
Fixpoint replace_newlines (s : string) : string :=
  match s with
  | EmptyString => EmptyString
  | String c s' =>
      String (if Ascii.eqb c (ascii_of_nat 10) then " "%char else c)
             (replace_newlines s')
  end.

(** ** HTTP *)

Inductive Verb : Type := GET | POST | PUT | DELETE.

Record Response : Type := mkResponse {
  status_code : Z;
  (** [response.text] *)
  resp_text : string;
  (** [response.json()]: the parsed body, [None] when the body is not
      JSON (the call raises a ValueError). *)
  resp_json : option JSON
}.

Inductive Exn : Type :=
| HTTPError (r : Response)          (* raised by [raise_for_status] *)
| RequestException (msg : string)   (* network errors, timeouts, bad JSON *)
| AttributeError (msg : string)
| DuplicateElementKey (key : string) (* Streamlit: a widget key used twice in one script run *)
| OtherException (msg : string).

(** What the network does with a call. *)
Inductive NetOutcome : Type :=
| NetFail (msg : string)        (* a [RequestException]: timeout, connection error *)
| NetUnexpected (msg : string)  (* any other exception *)
| NetResponse (r : Response).

(** The [error] text of an error result; one constructor per message of
    [make_sensay_request]. *)
Inductive ErrorText : Type :=
| UnsupportedMethod                 (* "Unsupported HTTP method" *)
| HttpErrorOccurred (e : Exn)       (* f"HTTP error occurred: {http_err}" *)
| RequestErrorOccurred (e : Exn)    (* f"Request error occurred: {req_err}" *)
| UnexpectedErrorOccurred (e : Exn) (* f"An unexpected error occurred: {err}" *).

Inductive Details : Type :=
| DJson (v : JSON)
| DText (s : string).

(** The error dict.  A key that the dict does not have is [None] here. *)
Record ErrorContent : Type := mkError {
  error : ErrorText;
  err_status_code : option Z;
  details : option Details
}.

(** The pieces of an f-string, literal text and interpolated values, in
    order. *)
Inductive frag : Type :=
| Lit (s : string)
| FStr (s : string)
| FOpt (s : option string)      (* a value that may be [None] *)
| FNat (n : nat)
| FInt (n : Z)
| FJson (v : JSON)
| FErr (e : ErrorContent)
| FExn (e : Exn).

Definition fstring : Type := list frag.

Definition SENSAY_API_BASE_URL : string := "https://api.sensay.io/v1".

(** One call of [requests.get/post/put/delete]. *)
Record HttpCall : Type := mkCall {
  call_verb : Verb;
  call_url : fstring;
  call_headers : list (string * string);
  call_params : option (list (string * string));
  call_json : option JSON;
  call_timeout : Z
}.

(** ** The message store *)

(** A row of the messages table. *)
Record StoreRow : Type := mkRow {
  row_id : Z;                       (* column [id], the primary key *)
  slack_user_id : string;
  message_content : string;
  slack_message_ts : string;
  created_at : Z;
  processed_for_sensay : bool
}.

Definition Table : Type := list StoreRow.

(** What the select hands to the loop: the three selected columns, typed
    as the table has them.  The content is text; a row whose content is
    NULL, on which the slice of line 290 would raise, is not modelled. *)
Record Msg : Type := mkMsg {
  msg_content : string;
  msg_ts : string;
  msg_id : Z
}.

Definition to_msg (r : StoreRow) : Msg :=
  mkMsg (message_content r) (slack_message_ts r) (row_id r).

(** ** What the operator sees *)

Inductive UiEvent : Type :=
| UiError (text : fstring)
| UiInfo (text : fstring)
| UiSuccess (text : fstring)
| UiNewLogArea                                          (* [st.empty()] *)
| UiProgress (num den : nat) (text : fstring)           (* fraction [num/den] *)
| UiSpinner (text : fstring)
| UiEmptyProgress
| UiEmptyLogArea
| UiTextArea (label : string) (lines : list fstring).   (* the lines are joined by newlines *)

(** ** Events, in the order the program causes them *)

Inductive Event : Type :=
| EvHttp (c : HttpCall)
| EvStoreSelect (table : string) (owner : string)
| EvStoreUpdate (table : string) (row : Z)
| EvSleep (seconds : Q)
| EvUi (u : UiEvent).

Definition History : Type := list Event.

(** The environment of one session: the configuration and the answers of
    the two external systems, each a function of the history so far. *)
Record Env : Type := mkEnv {
  sensay_org_secret : string;
  sensay_api_version : string;
  supabase_table_name : string;
  send : History -> HttpCall -> NetOutcome;
  select_raises : History -> option Exn;
  update_raises : History -> Z -> option Exn
}.

(** Result of a Python call: a value or an exception in flight. *)
Inductive PyResult (A : Type) : Type :=
| Returned (a : A)
| Raised (e : Exn).
Arguments Returned {A} a.
Arguments Raised {A} e.

Module Client.

Definition verb_of (m : string) : option Verb :=
  if (m =? "GET")%string then Some GET
  else if (m =? "POST")%string then Some POST
  else if (m =? "PUT")%string then Some PUT
  else if (m =? "DELETE")%string then Some DELETE
  else None.

Definition make_headers (secret version : string) (user_id : option string)
  : list (string * string) :=
  [("X-ORGANIZATION-SECRET", secret);
   ("X-API-Version", version);
   ("Content-Type", "application/json")]
  ++ match user_id with
     | Some u => if (u =? "")%string then [] else [("X-USER-ID", u)]
     | None => []
     end.

(** The call that each branch of the verb test issues. *)
Definition build_call (v : Verb) (url : fstring) (headers : list (string * string))
           (json_data : option JSON) (params : option (list (string * string)))
  : HttpCall :=
  match v with
  | GET => mkCall GET url headers params None 30
  | POST => mkCall POST url headers None json_data 30
  | PUT => mkCall PUT url headers None json_data 30
  | DELETE => mkCall DELETE url headers None None 30
  end.

(** [response.raise_for_status()]: raises for 4XX and 5XX. *)
Definition raises_for_status (r : Response) : bool :=
  (400 <=? status_code r) && (status_code r <? 600).

Definition Reply : Type := (JSON * option ErrorContent)%type.

Section WithEnv.
Variable E : Env.

(** The body of the [try]: the result, and the calls it made.  A body
    that is not JSON makes [response.json()] raise; with current versions
    of the HTTP library that exception is a [RequestException]. *)
Definition try_block (h : History) (method : string) (endpoint : fstring)
           (json_data : option JSON) (params : option (list (string * string)))
           (user_id : option string) : PyResult Reply * list Event :=
  let headers := make_headers (sensay_org_secret E) (sensay_api_version E) user_id in
  let url := Lit SENSAY_API_BASE_URL :: endpoint in
  match verb_of (upper method) with
  | None => (Returned (JNull, Some (mkError UnsupportedMethod None None)), [])
  | Some v =>
      let c := build_call v url headers json_data params in
      match send E h c with
      | NetFail msg => (Raised (RequestException msg), [EvHttp c])
      | NetUnexpected msg => (Raised (OtherException msg), [EvHttp c])
      | NetResponse r =>
          if raises_for_status r then (Raised (HTTPError r), [EvHttp c])
          else match resp_json r with
               | Some j => (Returned (j, None), [EvHttp c])
               | None => (Raised (RequestException "JSONDecodeError"), [EvHttp c])
               end
      end
  end.

(** The three [except] clauses. *)
Definition handle (e : Exn) : PyResult Reply :=
  match e with
  | HTTPError r =>
      Returned (JNull,
                Some (mkError (HttpErrorOccurred e) (Some (status_code r))
                              (Some (match resp_json r with
                                     | Some j => DJson j
                                     | None => DText (resp_text r)
                                     end))))
  | RequestException _ =>
      Returned (JNull, Some (mkError (RequestErrorOccurred e) None None))
  | _ =>
      Returned (JNull, Some (mkError (UnexpectedErrorOccurred e) None None))
  end.

Definition make_sensay_request (h : History) (method : string) (endpoint : fstring)
           (json_data : option JSON) (params : option (list (string * string)))
           (user_id : option string) : PyResult Reply * list Event :=
  let '(r, evs) := try_block h method endpoint json_data params user_id in
  match r with
  | Returned x => (Returned x, evs)
  | Raised e => (handle e, evs)
  end.

End WithEnv.
End Client.

(** ** The row store

    The store is an external service: the handler sends it one select,
    and one update for each row it has trained.  A table stands for the
    rows the service holds, and the functions below for what the service
    answers to the select and does with the update, as the handler writes
    the two requests. *)

Module Store.

(** [.eq("slack_user_id", owner).eq("processed_for_sensay", False)] *)
Definition in_backlog (owner : string) (r : StoreRow) : bool :=
  (slack_user_id r =? owner)%string && negb (processed_for_sensay r).

(** [.order("created_at", desc=False)]: oldest first; rows of equal age
    keep their table order. *)
Fixpoint insert_by_created_at (r : StoreRow) (l : list StoreRow) : list StoreRow :=
  match l with
  | [] => [r]
  | x :: l' =>
      if created_at r <=? created_at x then r :: l
      else x :: insert_by_created_at r l'
  end.

Definition order_by_created_at (l : list StoreRow) : list StoreRow :=
  fold_right insert_by_created_at [] l.

(** [response.data] of the select. *)
Definition fetch_unprocessed (owner : string) (t : Table) : list Msg :=
  map to_msg (order_by_created_at (filter (in_backlog owner) t)).

Definition set_processed (r : StoreRow) : StoreRow :=
  mkRow (row_id r) (slack_user_id r) (message_content r)
        (slack_message_ts r) (created_at r) true.

(** [.update({"processed_for_sensay": True}).eq("id", rid)] *)
Definition mark_processed (rid : Z) (t : Table) : Table :=
  map (fun r => if row_id r =? rid then set_processed r else r) t.

(** The flag of the row with this identifier, if the table has one. *)
Definition processed_flag (t : Table) (rid : Z) : option bool :=
  option_map processed_for_sensay (find (fun r => row_id r =? rid) t).

End Store.

(** ** The training button and its loop *)

Module Training.

(** The selected entry of the replica list; [None] is a missing key. *)
Record Replica : Type := mkReplica {
  name : option string;
  uuid : option string;
  ownerID : option string
}.

(** The Training Run.  Streamlit keeps the widget keys used so far in the
    script run and refuses a key that comes a second time;
    [live_log_shown] records that the key of the live log area,
    [training_log_display_{uuid}], is taken.  It is the one key that the
    run uses inside the loop; the key of the final log area is used once,
    after the loop. *)
Record TrainState : Type := mkState {
  processed_count : nat;
  error_count : nat;
  training_logs : list fstring;
  table : Table;
  history : History;
  live_log_shown : bool
}.

Definition emit (evs : list Event) (s : TrainState) : TrainState :=
  mkState (processed_count s) (error_count s) (training_logs s) (table s)
          (history s ++ evs) (live_log_shown s).

(** [training_logs.append(log_line); error_count += 1] *)
Definition log_error (line : fstring) (s : TrainState) : TrainState :=
  mkState (processed_count s) (S (error_count s)) (training_logs s ++ [line])
          (table s) (history s) (live_log_shown s).

(** [processed_count += 1; training_logs.append(log_line)] *)
Definition log_success (line : fstring) (s : TrainState) : TrainState :=
  mkState (S (processed_count s)) (error_count s) (training_logs s ++ [line])
          (table s) (history s) (live_log_shown s).

(** [l[-n:]] *)
Definition last_n {A : Type} (n : nat) (l : list A) : list A :=
  skipn (List.length l - n) l.

Definition politeness_delay : Q := (2 # 10)%Q.

(** How an iteration ends: it falls through to the next row, or an
    exception leaves the loop. *)
Inductive StepResult : Type :=
| Next (s : TrainState)
| Uncaught (e : Exn) (s : TrainState).

(** [f"training_log_display_{replica_uuid_to_train}"] *)
Definition live_log_key (replica_uuid : option string) : string :=
  String.append "training_log_display_"
                (match replica_uuid with Some u => u | None => "None" end).

(** The two statements that end an iteration that did not [continue]: the
    live log area and the delay.  The text area is created with the same
    key in every iteration, so it is shown by the first iteration that
    gets here; in any later one Streamlit raises on the key, before the
    delay, and the exception leaves the loop. *)
Definition end_of_row (replica_uuid : option string) (s : TrainState) : StepResult :=
  if live_log_shown s
  then Uncaught (DuplicateElementKey (live_log_key replica_uuid)) s
  else Next (mkState (processed_count s) (error_count s) (training_logs s) (table s)
                     (history s
                      ++ [EvUi (UiTextArea "Training Log" (last_n 10 (training_logs s)));
                          EvSleep politeness_delay])
                     true).

(** [error or data] in a log line. *)
Definition err_or_data (r : Client.Reply) : frag :=
  match snd r with
  | Some e => FErr e
  | None => FJson (fst r)
  end.

(** [error or not data or not data.get("success")] *)
Definition call_failed (r : Client.Reply) : PyResult bool :=
  match snd r with
  | Some _ => Returned true
  | None =>
      if negb (truthy (fst r)) then Returned true
      else match py_get (fst r) "success" with
           | Some v => Returned (negb (truthy v))
           | None => Raised (AttributeError "get")
           end
  end.

Definition progress_text (i total : nat) (m : Msg) : fstring :=
  [Lit "Processing message "; FNat (i + 1); Lit "/"; FNat total; Lit ": '";
   FStr (replace_newlines (take_str 30 (msg_content m))); Lit "...'"].

Definition create_endpoint (replica_uuid : option string) : fstring :=
  [Lit "/replicas/"; FOpt replica_uuid; Lit "/training"].

Definition fill_endpoint (replica_uuid : option string) (kb : JSON) : fstring :=
  [Lit "/replicas/"; FOpt replica_uuid; Lit "/training/"; FJson kb].

Definition create_failed_line (m : Msg) (r : Client.Reply) : fstring :=
  [Lit "❌ Failed to create Sensay KB entry for msg_ts "; FStr (msg_ts m);
   Lit ": "; err_or_data r].

Definition missing_kb_line (m : Msg) : fstring :=
  [Lit "❌ Missing knowledgeBaseID for msg_ts "; FStr (msg_ts m);
   Lit " after KB entry creation."].

Definition fill_failed_line (m : Msg) (kb : JSON) (r : Client.Reply) : fstring :=
  [Lit "❌ Failed to add text to Sensay KB entry "; FJson kb; Lit " (msg_ts ";
   FStr (msg_ts m); Lit "): "; err_or_data r].

Definition trained_line (m : Msg) (kb : JSON) : fstring :=
  [Lit "✅ Trained with Supabase Msg ID "; FInt (msg_id m); Lit " (KB ID: ";
   FJson kb; Lit ")"].

Definition store_failed_line (m : Msg) (e : Exn) : fstring :=
  [Lit "⚠️ Trained Sensay with msg_ts "; FStr (msg_ts m);
   Lit ", but FAILED to update Supabase: "; FExn e].

Section WithEnv.
Variable E : Env.

(** [make_sensay_request] on the run's history. *)
Definition request (method : string) (endpoint : fstring) (json_data : option JSON)
           (s : TrainState) : PyResult Client.Reply * TrainState :=
  let '(r, evs) :=
    Client.make_sensay_request E (history s) method endpoint json_data None None in
  (r, emit evs s).

(** The store update of the [try]; a call that raises changes no row. *)
Definition update_store (rid : Z) (s : TrainState) : option Exn * TrainState :=
  let s' := emit [EvStoreUpdate (supabase_table_name E) rid] s in
  match update_raises E (history s) rid with
  | Some e => (Some e, s')
  | None =>
      (None, mkState (processed_count s') (error_count s') (training_logs s')
                     (Store.mark_processed rid (table s')) (history s')
                     (live_log_shown s'))
  end.

(** The part of the loop body after a successful create. *)
Definition fill_and_mark (replica_uuid : option string) (m : Msg) (kb : JSON)
           (s : TrainState) : StepResult :=
  let '(r, s1) :=
    request "PUT" (fill_endpoint replica_uuid kb)
            (Some (JObj [("rawText", JStr (msg_content m))])) s in
  match r with
  | Raised e => Uncaught e s1
  | Returned reply =>
      match call_failed reply with
      | Raised e => Uncaught e s1
      | Returned true =>
          end_of_row replica_uuid (log_error (fill_failed_line m kb reply) s1)
      | Returned false =>
          match update_store (msg_id m) s1 with
          | (None, s2) => end_of_row replica_uuid (log_success (trained_line m kb) s2)
          | (Some e, s2) => end_of_row replica_uuid (log_error (store_failed_line m e) s2)
          end
      end
  end.

(** One iteration of [for i, msg_data in enumerate(messages_to_train)]. *)
Definition train_body (replica_uuid : option string) (total : nat)
           (s : TrainState) (i : nat) (m : Msg) : StepResult :=
  let s0 := emit [EvUi (UiProgress (i + 1) total (progress_text i total m))] s in
  let '(r, s1) := request "POST" (create_endpoint replica_uuid) (Some (JObj [])) s0 in
  match r with
  | Raised e => Uncaught e s1
  | Returned reply =>
      match call_failed reply with
      | Raised e => Uncaught e s1
      | Returned true => Next (log_error (create_failed_line m reply) s1)   (* continue *)
      | Returned false =>
          match py_get (fst reply) "knowledgeBaseID" with
          | None => Uncaught (AttributeError "get") s1
          | Some kb =>
              if negb (truthy kb)
              then Next (log_error (missing_kb_line m) s1)                  (* continue *)
              else fill_and_mark replica_uuid m kb s1
          end
      end
  end.

Fixpoint train_loop (replica_uuid : option string) (total : nat)
         (s : TrainState) (i : nat) (rows : list Msg) : StepResult :=
  match rows with
  | [] => Next s
  | m :: rest =>
      match train_body replica_uuid total s i m with
      | Next s' => train_loop replica_uuid total s' (S i) rest
      | Uncaught e s' => Uncaught e s'
      end
  end.

(** The states at the head of the loop, one before each iteration that is
    reached and one after the last; a run cut short by an exception ends
    with the state it was in. *)
Fixpoint loop_states (replica_uuid : option string) (total : nat)
         (s : TrainState) (i : nat) (rows : list Msg) : list TrainState :=
  match rows with
  | [] => [s]
  | m :: rest =>
      s :: match train_body replica_uuid total s i m with
           | Next s' => loop_states replica_uuid total s' (S i) rest
           | Uncaught e s' => [s']
           end
  end.

Definition abort_message : fstring :=
  [Lit "Cannot determine Slack User ID (ownerID) for this replica. Training aborted."].

Definition no_work_message (owner : string) : fstring :=
  [Lit "✅ No new messages found in Supabase for user '"; FStr owner;
   Lit "' to train with."].

Definition fetch_error_message (e : Exn) : fstring :=
  [Lit "Error fetching messages from Supabase: "; FExn e].

Definition found_message (n : nat) : fstring :=
  [Lit "Found "; FNat n; Lit " new Slack messages to train with."].

Definition summary (r : Replica) (s : TrainState) : fstring :=
  [Lit "Training complete for '"; FOpt (name r); Lit "'. Successfully trained: ";
   FNat (processed_count s); Lit ", Errors: "; FNat (error_count s); Lit "."].

Definition some_failed_message : fstring :=
  [Lit "Some messages could not be processed. Check logs for details."].

(** The statements after the loop. *)
Definition report (r : Replica) (s : TrainState) : TrainState :=
  emit ([EvUi UiEmptyProgress;
         EvUi (UiTextArea "Full Training Log" (training_logs s));
         EvUi (UiSuccess (summary r s))]
        ++ (if (0 <? error_count s)%nat then [EvUi (UiError some_failed_message)] else []))
       s.

(** How a press of the training button ends. *)
Inductive Outcome : Type :=
| Aborted (t : Table) (h : History)     (* no owner: nothing is started *)
| Stopped (t : Table) (h : History)     (* [st.stop()] before the loop *)
| Completed (s : TrainState)
| Crashed (e : Exn) (s : TrainState).   (* an exception left the loop *)

(** [not slack_user_id_for_training] *)
Definition owner_of (r : Replica) : option string :=
  match ownerID r with
  | Some o => if (o =? "")%string then None else Some o
  | None => None
  end.

(** The handler of the training button, on table [t] after history [h].
    [st.progress(0, ...)] is recorded as the fraction 0/1.  A press is a
    new script run, in which the key of the live log area is free. *)
Definition start_training (r : Replica) (t : Table) (h : History) : Outcome :=
  match owner_of r with
  | None => Aborted t (h ++ [EvUi (UiError abort_message)])
  | Some owner =>
      let h1 := h ++ [EvUi UiNewLogArea;
                      EvUi (UiProgress 0 1 [Lit "Initializing training..."]);
                      EvUi (UiSpinner [Lit "Fetching unprocessed Slack messages for '";
                                       FStr owner; Lit "' from Supabase..."])] in
      let h2 := h1 ++ [EvStoreSelect (supabase_table_name E) owner] in
      match select_raises E h1 with
      | Some e =>
          Stopped t (h2 ++ [EvUi (UiError (fetch_error_message e));
                            EvUi UiEmptyProgress; EvUi UiEmptyLogArea])
      | None =>
          let messages_to_train := Store.fetch_unprocessed owner t in
          match messages_to_train with
          | [] =>
              Stopped t (h2 ++ [EvUi (UiInfo (no_work_message owner));
                                EvUi UiEmptyProgress; EvUi UiEmptyLogArea])
          | _ =>
              let total_messages := List.length messages_to_train in
              let s0 := mkState 0 0 [] t
                                (h2 ++ [EvUi (UiSuccess (found_message total_messages))])
                                false in
              match train_loop (uuid r) total_messages s0 0 messages_to_train with
              | Next s => Completed (report r s)
              | Uncaught e s => Crashed e s
              end
          end
      end
  end.

End WithEnv.

(** *** Names for the points of one iteration, used by the statements *)

Section Points.
Variable E : Env.
Variables (replica_uuid : option string) (total : nat).

(** The state in which row [m], the [i]-th, issues its create call. *)
Definition at_create (s : TrainState) (i : nat) (m : Msg) : TrainState :=
  emit [EvUi (UiProgress (i + 1) total (progress_text i total m))] s.

(** What [make_sensay_request] returns for the create call of the row,
    and the state it leaves. *)
Definition create_result (s : TrainState) (i : nat) (m : Msg)
  : PyResult Client.Reply * TrainState :=
  request E "POST" (create_endpoint replica_uuid) (Some (JObj [])) (at_create s i m).

(** The same for the fill call, issued in state [s1] for entry [kb]. *)
Definition fill_result (m : Msg) (kb : JSON) (s1 : TrainState)
  : PyResult Client.Reply * TrainState :=
  request E "PUT" (fill_endpoint replica_uuid kb)
          (Some (JObj [("rawText", JStr (msg_content m))])) s1.

(** The paths through one iteration.  The last three end with the live
    log area and the delay, or with the exception of the live log area. *)
Inductive row_path (s : TrainState) (i : nat) (m : Msg) : StepResult -> Prop :=
| path_create_check_raises reply s1 e :
    create_result s i m = (Returned reply, s1) ->
    call_failed reply = Raised e ->
    row_path s i m (Uncaught e s1)
| path_create_failed reply s1 :
    create_result s i m = (Returned reply, s1) ->
    call_failed reply = Returned true ->
    row_path s i m (Next (log_error (create_failed_line m reply) s1))
| path_missing_kb reply s1 kb :
    create_result s i m = (Returned reply, s1) ->
    call_failed reply = Returned false ->
    py_get (fst reply) "knowledgeBaseID" = Some kb ->
    truthy kb = false ->
    row_path s i m (Next (log_error (missing_kb_line m) s1))
| path_fill_check_raises reply s1 kb reply2 s2 e :
    create_result s i m = (Returned reply, s1) ->
    call_failed reply = Returned false ->
    py_get (fst reply) "knowledgeBaseID" = Some kb ->
    truthy kb = true ->
    fill_result m kb s1 = (Returned reply2, s2) ->
    call_failed reply2 = Raised e ->
    row_path s i m (Uncaught e s2)
| path_fill_failed reply s1 kb reply2 s2 :
    create_result s i m = (Returned reply, s1) ->
    call_failed reply = Returned false ->
    py_get (fst reply) "knowledgeBaseID" = Some kb ->
    truthy kb = true ->
    fill_result m kb s1 = (Returned reply2, s2) ->
    call_failed reply2 = Returned true ->
    row_path s i m (end_of_row replica_uuid (log_error (fill_failed_line m kb reply2) s2))
| path_trained reply s1 kb reply2 s2 s3 :
    create_result s i m = (Returned reply, s1) ->
    call_failed reply = Returned false ->
    py_get (fst reply) "knowledgeBaseID" = Some kb ->
    truthy kb = true ->
    fill_result m kb s1 = (Returned reply2, s2) ->
    call_failed reply2 = Returned false ->
    update_store E (msg_id m) s2 = (None, s3) ->
    row_path s i m (end_of_row replica_uuid (log_success (trained_line m kb) s3))
| path_store_failed reply s1 kb reply2 s2 s3 e :
    create_result s i m = (Returned reply, s1) ->
    call_failed reply = Returned false ->
    py_get (fst reply) "knowledgeBaseID" = Some kb ->
    truthy kb = true ->
    fill_result m kb s1 = (Returned reply2, s2) ->
    call_failed reply2 = Returned false ->
    update_store E (msg_id m) s2 = (Some e, s3) ->
    row_path s i m (end_of_row replica_uuid (log_error (store_failed_line m e) s3)).

(** *** The answers of the environment to one row

    The calls of an iteration and what the environment answers to them, so
    that "the create call of row [m] fails" and the like can be said about
    the remote service and the store themselves. *)

(** The body that [make_sensay_request] hands back with no error: the
    response has no 4XX or 5XX status and its body is JSON. *)
Definition http_success (o : NetOutcome) : option JSON :=
  match o with
  | NetResponse r => if Client.raises_for_status r then None else resp_json r
  | _ => None
  end.

(** The body is an object with a true [success] field. *)
Definition acknowledged (j : JSON) : bool :=
  match py_get j "success" with
  | Some v => truthy v
  | None => false
  end.

(** The body is empty, or an object without a true [success] field. *)
Definition lacks_success (j : JSON) : bool :=
  negb (truthy j)
  || match j with
     | JObj fields => negb (truthy (assoc_get "success" fields))
     | _ => false
     end.

Definition entry_id_of (j : JSON) : JSON :=
  match py_get j "knowledgeBaseID" with
  | Some kb => kb
  | None => JNull
  end.

(** A create call succeeds: acknowledged, with an entry identifier. *)
Definition create_succeeds (o : NetOutcome) : bool :=
  match http_success o with
  | Some j => acknowledged j && truthy (entry_id_of j)
  | None => false
  end.

(** A fill call succeeds: acknowledged. *)
Definition fill_succeeds (o : NetOutcome) : bool :=
  match http_success o with
  | Some j => acknowledged j
  | None => false
  end.

Definition entry_id (o : NetOutcome) : JSON :=
  match http_success o with
  | Some j => entry_id_of j
  | None => JNull
  end.

Definition headers : list (string * string) :=
  Client.make_headers (sensay_org_secret E) (sensay_api_version E) None.

Definition create_call : HttpCall :=
  mkCall POST (Lit SENSAY_API_BASE_URL :: create_endpoint replica_uuid) headers
         None (Some (JObj [])) 30.

Definition fill_call (m : Msg) (kb : JSON) : HttpCall :=
  mkCall PUT (Lit SENSAY_API_BASE_URL :: fill_endpoint replica_uuid kb) headers
         None (Some (JObj [("rawText", JStr (msg_content m))])) 30.

Definition create_outcome (s : TrainState) (i : nat) (m : Msg) : NetOutcome :=
  send E (history (at_create s i m)) create_call.

(** The state after the create call. *)
Definition at_fill (s : TrainState) (i : nat) (m : Msg) : TrainState :=
  emit [EvHttp create_call] (at_create s i m).

Definition fill_outcome (s : TrainState) (i : nat) (m : Msg) : NetOutcome :=
  send E (history (at_fill s i m)) (fill_call m (entry_id (create_outcome s i m))).

(** The state after the fill call. *)
Definition at_mark (s : TrainState) (i : nat) (m : Msg) : TrainState :=
  emit [EvHttp (fill_call m (entry_id (create_outcome s i m)))] (at_fill s i m).

Definition mark_outcome (s : TrainState) (i : nat) (m : Msg) : option Exn :=
  update_raises E (history (at_mark s i m)) (msg_id m).

End Points.

Definition state_of (r : StepResult) : TrainState :=
  match r with
  | Next s | Uncaught _ s => s
  end.

Definition is_sleep (e : Event) : bool :=
  match e with EvSleep _ => true | _ => false end.

Definition is_http (e : Event) : bool :=
  match e with EvHttp _ => true | _ => false end.

Definition is_put (e : Event) : bool :=
  match e with
  | EvHttp c => match call_verb c with PUT => true | _ => false end
  | _ => false
  end.

Definition is_store_update (e : Event) : bool :=
  match e with EvStoreUpdate _ _ => true | _ => false end.

(** An interpolated number. *)
Definition is_number (f : frag) : bool :=
  match f with
  | FNat _ | FInt _ => true
  | _ => false
  end.

(** The event shows a text with a number interpolated in it. *)
Definition shows_number (e : Event) : bool :=
  match e with
  | EvUi (UiError text) | EvUi (UiInfo text) | EvUi (UiSuccess text)
  | EvUi (UiSpinner text) | EvUi (UiProgress _ _ text) => existsb is_number text
  | EvUi (UiTextArea _ lines) => existsb (existsb is_number) lines
  | _ => false
  end.

Definition final_table (o : Outcome) : Table :=
  match o with
  | Aborted t _ | Stopped t _ => t
  | Completed s | Crashed _ s => table s
  end.

(** The Training Run of an outcome that has one. *)
Definition final_state (o : Outcome) : option TrainState :=
  match o with
  | Completed s | Crashed _ s => Some s
  | _ => None
  end.

Definition final_history (o : Outcome) : History :=
  match o with
  | Aborted _ h | Stopped _ h => h
  | Completed s | Crashed _ s => history s
  end.

End Training.

(** * Sample sessions

    Concrete environments and tables on which the statements below are
    evaluated. *)

Module Samples.
Import Training.

Definition ok_body : JSON :=
  JObj [("success", JBool true); ("knowledgeBaseID", JNum 7)].

Definition reply_with (status : Z) (text : string) (body : option JSON)
  : History -> HttpCall -> NetOutcome :=
  fun _ _ => NetResponse (mkResponse status text body).

Definition never : History -> option Exn := fun _ => None.
Definition never_for : History -> Z -> option Exn := fun _ _ => None.

Definition env_with (net : History -> HttpCall -> NetOutcome) : Env :=
  mkEnv "secret" "2025-03-25" "slack_messages_for_sensay" net never never_for.

(** Every call answers 200 with a success body. *)
Definition all_ok : Env := env_with (reply_with 200 "" (Some ok_body)).

(** Every call answers 500 with a text body. *)
Definition all_500 : Env := env_with (reply_with 500 "Internal Server Error" None).

(** Every call answers 300 with an empty JSON object. *)
Definition all_300 : Env := env_with (reply_with 300 "{}" (Some (JObj []))).

(** Every call answers 204 with no body. *)
Definition all_204 : Env := env_with (reply_with 204 "" None).

(** Create calls succeed, fill calls answer 500. *)
Definition fill_500 : Env :=
  env_with (fun _ c =>
              match call_verb c with
              | PUT => NetResponse (mkResponse 500 "Internal Server Error" None)
              | _ => NetResponse (mkResponse 200 "" (Some ok_body))
              end).

(** Every call answers 200 with a body that has no [success] field. *)
Definition no_success_field : Env :=
  env_with (reply_with 200 "" (Some (JObj [("message", JStr "queued")]))).

(** Create calls succeed, fill calls answer 200 without [success]. *)
Definition fill_no_success : Env :=
  env_with (fun _ c =>
              match call_verb c with
              | PUT => NetResponse (mkResponse 200 "" (Some (JObj [("message", JStr "queued")])))
              | _ => NetResponse (mkResponse 200 "" (Some ok_body))
              end).

(** The first create call answers 200, every later one 500 (the history
    before the first create call of [two_rows] has six events). *)
Definition second_create_500 : Env :=
  env_with (fun h c =>
              match call_verb c with
              | POST => if (List.length h <=? 6)%nat
                        then NetResponse (mkResponse 200 "" (Some ok_body))
                        else NetResponse (mkResponse 500 "Internal Server Error" None)
              | _ => NetResponse (mkResponse 200 "" (Some ok_body))
              end).

(** Create calls are acknowledged but carry no entry identifier. *)
Definition no_entry_id : Env :=
  env_with (reply_with 200 "" (Some (JObj [("success", JBool true)]))).

(** The select raises. *)
Definition fetch_fails : Env :=
  mkEnv "secret" "2025-03-25" "slack_messages_for_sensay"
        (reply_with 200 "" (Some ok_body))
        (fun _ => Some (OtherException "connection refused")) never_for.

(** Two pending rows of owner U1, stored newest first, and a row of
    another owner. *)
Definition two_rows : Table :=
  [mkRow 2 "U1" "bye" "1700000002.0" 20 false;
   mkRow 1 "U1" "hi" "1700000001.0" 10 false;
   mkRow 3 "U2" "other" "1700000003.0" 5 false].

(** One pending row of owner U1 and a row of another owner. *)
Definition one_row : Table :=
  [mkRow 1 "U1" "hi" "1700000001.0" 10 false;
   mkRow 3 "U2" "other" "1700000003.0" 5 false].

(** Three pending rows of owner U1. *)
Definition three_rows : Table :=
  [mkRow 1 "U1" "hi" "1700000001.0" 10 false;
   mkRow 2 "U1" "bye" "1700000002.0" 20 false;
   mkRow 4 "U1" "again" "1700000004.0" 30 false].

(** Nothing pending for U1. *)
Definition done_rows : Table :=
  [mkRow 1 "U1" "hi" "1700000001.0" 10 true;
   mkRow 3 "U2" "other" "1700000003.0" 5 false].

Definition replica : Replica := mkReplica (Some "R") (Some "uuid-1") (Some "U1").

Definition replica_without_owner : Replica := mkReplica (Some "R") (Some "uuid-1") None.

Definition row1 : Msg := mkMsg "hi" "1700000001.0" 1.
Definition row2 : Msg := mkMsg "bye" "1700000002.0" 2.
Definition row3 : Msg := mkMsg "again" "1700000004.0" 4.

Definition fresh (t : Table) : TrainState := mkState 0 0 [] t [] false.

(** The state in which a run on [two_rows] for [replica] ends. *)
Definition end_state (E : Env) : TrainState :=
  match final_state (start_training E replica two_rows []) with
  | Some s => s
  | None => fresh two_rows
  end.

End Samples.

(** * The pages around the training run

    The "Create & Manage Replicas" tab and the "Test Replica" tab.  What
    these pages show is kept in the page itself, apart from the history of
    calls that the environment sees. *)

Module Pages.

Inductive Shown : Type :=
| ShError (text : fstring)
| ShWarning (text : fstring)
| ShInfo (text : fstring)
| ShSuccess (text : fstring)
| ShWrite (text : fstring)
| ShMarkdown (text : fstring)
| ShCaption (text : fstring)
| ShSpinner (text : fstring)
| ShBalloons
| ShChatMessage (role : string) (inner : Shown).   (* [with st.chat_message(role): ...] *)

Record Page : Type := mkPage {
  calls : History;
  screen : list Shown
}.

Definition show (w : Shown) (p : Page) : Page :=
  mkPage (calls p) (screen p ++ [w]).

(** How a handler ends: normally, or with an exception that nothing
    catches. *)
Inductive Run (A : Type) : Type :=
| Finished (a : A)
| Interrupted (e : Exn) (a : A).
Arguments Finished {A} a.
Arguments Interrupted {A} e a.

Definition outcome_of {A : Type} (r : Run A) : A :=
  match r with
  | Finished a | Interrupted _ a => a
  end.

Definition nonempty (s : string) : bool := negb (s =? "")%string.

(** [err.get('details', err)] *)
Definition details_or_error (e : ErrorContent) : frag :=
  match details e with
  | Some (DJson j) => FJson j
  | Some (DText s) => FStr s
  | None => FErr e
  end.

(** The text under the [error] key. *)
Definition error_text (t : ErrorText) : fstring :=
  match t with
  | UnsupportedMethod => [Lit "Unsupported HTTP method"]
  | HttpErrorOccurred e => [Lit "HTTP error occurred: "; FExn e]
  | RequestErrorOccurred e => [Lit "Request error occurred: "; FExn e]
  | UnexpectedErrorOccurred e => [Lit "An unexpected error occurred: "; FExn e]
  end.

(** [err.get('details', err.get('error', 'Unknown chat error'))]; the
    [error] key is in every error dict. *)
Definition details_or_text (e : ErrorContent) : fstring :=
  match details e with
  | Some (DJson j) => [FJson j]
  | Some (DText s) => [FStr s]
  | None => error_text (error e)
  end.

(** [err and err.get("status_code") == 404] *)
Definition not_found (err : option ErrorContent) : bool :=
  match err with
  | Some e => match err_status_code e with
              | Some c => c =? 404
              | None => false
              end
  | None => false
  end.

(** [d.get(k, default)] needs to know whether the key is there. *)
Fixpoint assoc_find (k : string) (l : list (string * JSON)) : option JSON :=
  match l with
  | [] => None
  | (k', v) :: l' => if (k =? k')%string then Some v else assoc_find k l'
  end.

Record ReplicaForm : Type := mkForm {
  slack_user_id_for_replica : string;
  replica_name : string;
  replica_slug : string;
  replica_short_description : string;
  replica_greeting : string;
  llm_provider : string;
  llm_model : string
}.

(** [all([slack_user_id_for_replica, replica_name, replica_slug,
    replica_short_description, replica_greeting, llm_model])] *)
Definition all_filled (f : ReplicaForm) : bool :=
  nonempty (slack_user_id_for_replica f) && nonempty (replica_name f)
  && nonempty (replica_slug f) && nonempty (replica_short_description f)
  && nonempty (replica_greeting f) && nonempty (llm_model f).

Definition create_user_payload (uid : string) : JSON := JObj [("id", JStr uid)].

Definition replica_payload (f : ReplicaForm) : JSON :=
  JObj [("name", JStr (replica_name f));
        ("shortDescription", JStr (replica_short_description f));
        ("greeting", JStr (replica_greeting f));
        ("ownerID", JStr (slack_user_id_for_replica f));
        ("private", JBool false);
        ("slug", JStr (replica_slug f));
        ("llm", JObj [("provider", JStr (llm_provider f));
                      ("model", JStr (llm_model f))])].

(** An entry of the replica list, with the fields the chat tab reads. *)
Record ReplicaItem : Type := mkItem {
  replica : Training.Replica;
  greeting : option string
}.

Record ChatMessage : Type := mkChat {
  role : string;
  content : fstring    (* a stored value [v] is the one-piece text [[FJson v]] *)
}.

(** [st.session_state.chat_histories], a dict keyed by replica uuid. *)
Definition Histories : Type := list (option string * list ChatMessage).

Definition key_eqb (a b : option string) : bool :=
  match a, b with
  | Some x, Some y => (x =? y)%string
  | None, None => true
  | _, _ => false
  end.

(** [histories.get(k)] *)
Fixpoint history_of (k : option string) (hs : Histories) : option (list ChatMessage) :=
  match hs with
  | [] => None
  | (k', l) :: hs' => if key_eqb k k' then Some l else history_of k hs'
  end.

(** [histories[k].append(m)]; [None] is the KeyError of a missing key. *)
Fixpoint append_to (k : option string) (m : ChatMessage) (hs : Histories)
  : option Histories :=
  match hs with
  | [] => None
  | (k', l) :: hs' =>
      if key_eqb k k' then Some ((k', l ++ [m]) :: hs')
      else option_map (cons (k', l)) (append_to k m hs')
  end.

Record Session : Type := mkSession {
  chat_histories : Histories;
  selected_replica_for_chat_uuid : option string;
  page : Page
}.

Definition on_page (f : Page -> Page) (s : Session) : Session :=
  mkSession (chat_histories s) (selected_replica_for_chat_uuid s) (f (page s)).

(** [[r.get('uuid') for r in replicas].index(x)] *)
Fixpoint index_of (x : string) (uuids : list (option string)) : option nat :=
  match uuids with
  | [] => None
  | u :: rest =>
      if key_eqb u (Some x) then Some 0%nat
      else option_map S (index_of x rest)
  end.

(** The default index of the chat selectbox and the remembered uuid after
    the check: a remembered uuid that no replica has is forgotten. *)
Definition current_selection_idx (replicas : list ReplicaItem) (selected : option string)
  : nat * option string :=
  match selected with
  | Some x =>
      if nonempty x then
        match index_of x (map (fun r => Training.uuid (replica r)) replicas) with
        | Some k => ((k + 1)%nat, selected)
        | None => (0%nat, None)
        end
      else (0%nat, selected)
  | None => (0%nat, None)
  end.

(** [str] of a value that may be [None]. *)
Definition py_str (o : option string) : string :=
  match o with
  | Some s => s
  | None => "None"
  end.

(** [f"{r.get('name')} ({r.get('uuid')})"] *)
Definition display_name (r : ReplicaItem) : string :=
  (py_str (Training.name (replica r)) ++ " (" ++ py_str (Training.uuid (replica r)) ++ ")")%string.

(** The dict comprehension [{display_name(r): r for r in replicas}]: a key
    keeps the place of its first insertion and the value of its last. *)
Fixpoint dict_set (k : string) (v : ReplicaItem) (d : list (string * ReplicaItem))
  : list (string * ReplicaItem) :=
  match d with
  | [] => [(k, v)]
  | (k', v') :: d' => if (k =? k')%string then (k', v) :: d' else (k', v') :: dict_set k v d'
  end.

Definition replica_options (replicas : list ReplicaItem) : list (string * ReplicaItem) :=
  fold_left (fun d r => dict_set (display_name r) r d) replicas [].

(** [[""] + list(replica_options.keys())] *)
Definition selectbox_options (replicas : list ReplicaItem) : list string :=
  "" :: map fst (replica_options replicas).

Section WithEnv.
Variable E : Env.

(** [make_sensay_request] from a page. *)
Definition call (method : string) (endpoint : fstring) (json_data : option JSON)
           (params : option (list (string * string))) (user_id : option string)
           (p : Page) : PyResult Client.Reply * Page :=
  let '(r, evs) :=
    Client.make_sensay_request E (calls p) method endpoint json_data params user_id in
  (r, mkPage (calls p ++ evs) (screen p)).

(** Both tabs look the user up and create it when the lookup answers 404;
    they differ in the notice they show in between. *)
Definition check_user (uid : string) (notice : Shown) (p : Page)
  : PyResult Client.Reply * Page :=
  let '(r, p1) := call "GET" [Lit "/users/"; FStr uid] None None None p in
  match r with
  | Raised e => (Raised e, p1)
  | Returned reply =>
      if not_found (snd reply)
      then call "POST" [Lit "/users"] (Some (create_user_payload uid)) None None
                (show notice p1)
      else (Returned reply, p1)
  end.

(** The handler of the "Create Replica" form. *)
Definition submit_create (f : ReplicaForm) (p : Page) : Run Page :=
  if negb (all_filled f)
  then Finished (show (ShError [Lit "Please fill all fields for replica creation."]) p)
  else
    let uid := slack_user_id_for_replica f in
    let p0 := show (ShSpinner [Lit "Verifying/Creating Sensay user and then replica..."]) p in
    let '(r, p1) :=
      check_user uid (ShWrite [Lit "Sensay user '"; FStr uid;
                               Lit "' not found, attempting to create..."]) p0 in
    match r with
    | Raised e => Interrupted e p1
    | Returned (user_data, Some err) =>
        Finished (show (ShError [Lit "Error managing Sensay user '"; FStr uid; Lit "': ";
                                 details_or_error err]) p1)
    | Returned (user_data, None) =>
        match py_get user_data "id" with
        | None => Interrupted (AttributeError "get") p1
        | Some shown_id =>
            let p2 := show (ShSuccess [Lit "Sensay User '"; FStr uid;
                                       Lit "' confirmed/created: "; FJson shown_id]) p1 in
            let '(r2, p3) :=
              call "POST" [Lit "/replicas"] (Some (replica_payload f)) None None p2 in
            match r2 with
            | Raised e => Interrupted e p3
            | Returned (replica_data, Some err) =>
                Finished (show (ShError [Lit "Failed to create replica: ";
                                         details_or_error err]) p3)
            | Returned (replica_data, None) =>
                let failure :=
                  Finished (show (ShError
                                    [Lit "Replica creation response indicates failure or missing data: ";
                                     FJson replica_data]) p3) in
                if truthy replica_data then
                  match py_get replica_data "success", py_get replica_data "uuid" with
                  | Some ok, Some new_uuid =>
                      if truthy ok
                      then Finished (show ShBalloons
                                       (show (ShSuccess [Lit "Replica '"; FStr (replica_name f);
                                                         Lit "' created successfully! UUID: ";
                                                         FJson new_uuid]) p3))
                      else failure
                  | _, _ => Interrupted (AttributeError "get") p3
                  end
                else failure
            end
        end
    end.

(** The handler of "Refresh Replicas List": the page and the new value of
    [replicas_list]. *)
Definition refresh_replicas (owner_id_filter : string) (replicas_list : list JSON)
           (p : Page) : Run (Page * list JSON) :=
  let params := if nonempty owner_id_filter then [("ownerID", owner_id_filter)] else [] in
  let p0 := show (ShSpinner [Lit "Fetching replicas from Sensay..."]) p in
  let '(r, p1) := call "GET" [Lit "/replicas"] None (Some params) None p0 in
  match r with
  | Raised e => Interrupted e (p1, replicas_list)
  | Returned (replicas_data, Some err) =>
      Finished (show (ShError [Lit "Failed to fetch replicas: "; details_or_error err]) p1, [])
  | Returned (replicas_data, None) =>
      let unexpected :=
        Finished (show (ShWarning [Lit "No replicas found or unexpected response: ";
                                   FJson replicas_data]) p1, []) in
      if truthy replicas_data then
        match py_get replicas_data "success", py_get replicas_data "items" with
        | Some ok, Some items_value =>
            if truthy ok then
              match items_value with
              | JArr items =>
                  let p2 := show (ShSuccess [Lit "Found "; FNat (List.length items);
                                             Lit " replicas matching filter."]) p1 in
                  match items with
                  | [] =>
                      Finished (show (ShInfo
                                        [Lit (if nonempty owner_id_filter
                                              then "No replicas found for the specified Owner ID."
                                              else "No replicas found in your organization.")])
                                     p2, [])
                  | _ => Finished (p2, items)
                  end
              | _ => unexpected
              end
            else unexpected
        | _, _ => Interrupted (AttributeError "get") (p1, replicas_list)
        end
      else unexpected
  end.

(** The chat tab up to the input box: remember the selection, start the
    history of a replica that has none (with its greeting, if any), and
    show the history. *)
Definition open_chat (test_user_id : string) (r : ReplicaItem) (s : Session) : Session :=
  let k := Training.uuid (replica r) in
  let heading :=
    [ShMarkdown [Lit "#### Chatting with: **"; FOpt (Training.name (replica r)); Lit "**"];
     ShCaption [Lit "Replica UUID: `"; FOpt k; Lit "` | Test User ID: `";
                FStr test_user_id; Lit "`"]] in
  let hs :=
    match history_of k (chat_histories s) with
    | Some _ => chat_histories s
    | None =>
        chat_histories s
        ++ [(k, match greeting r with
                | Some g => if nonempty g then [mkChat "assistant" [FStr g]] else []
                | None => []
                end)]
    end in
  let shown :=
    match history_of k hs with
    | Some l => map (fun m => ShChatMessage (role m) (ShMarkdown (content m))) l
    | None => []
    end in
  mkSession hs k (mkPage (calls (page s)) (screen (page s) ++ heading ++ shown)).

(** [histories[k].append({"role": ..., "content": ...})] and what is shown
    with it. *)
Definition say (k : option string) (who : string) (text : fstring) (w : Shown)
           (s : Session) : Run Session :=
  match append_to k (mkChat who text) (chat_histories s) with
  | Some hs => Finished (mkSession hs (selected_replica_for_chat_uuid s)
                                   (show (ShChatMessage who w) (page s)))
  | None => Interrupted (OtherException "KeyError") s
  end.

(** The handler of a prompt typed in the chat input. *)
Definition answer (test_user_id : string) (r : ReplicaItem) (prompt : string)
           (s : Session) : Run Session :=
  let k := Training.uuid (replica r) in
  match say k "user" [FStr prompt] (ShMarkdown [FStr prompt]) s with
  | Interrupted e s' => Interrupted e s'
  | Finished s0 =>
      let s1 := on_page (show (ShSpinner [Lit "🤖 Thinking..."])) s0 in
      let '(ru, p1) :=
        check_user test_user_id
                   (ShChatMessage "assistant"
                      (ShInfo [Lit "Test user '"; FStr test_user_id;
                               Lit "' not found in Sensay. Attempting to create..."]))
                   (page s1) in
      let s2 := on_page (fun _ => p1) s1 in
      match ru with
      | Raised e => Interrupted e s2
      | Returned (user_data, Some err) =>
          let err_msg_user := [Lit "Error with test user '"; FStr test_user_id; Lit "': ";
                               details_or_error err] in
          say k "assistant" err_msg_user (ShError err_msg_user) s2
      | Returned (user_data, None) =>
          let '(rc, p2) :=
            call "POST" [Lit "/replicas/"; FOpt k; Lit "/chat/completions"]
                 (Some (JObj [("content", JStr prompt)])) None (Some test_user_id) (page s2) in
          let s3 := on_page (fun _ => p2) s2 in
          match rc with
          | Raised e => Interrupted e s3
          | Returned (response_data, Some err) =>
              say k "assistant" (Lit "Error: " :: details_or_text err)
                  (ShError (Lit "Chat API Error: " :: details_or_text err)) s3
          | Returned (response_data, None) =>
              let final_err_msg := [Lit "Sorry, I encountered an issue. Response: ";
                                    FJson response_data] in
              let sorry := say k "assistant" final_err_msg (ShWarning final_err_msg) s3 in
              if truthy response_data then
                match response_data with
                | JObj fields =>
                    if truthy (assoc_get "success" fields) then
                      let assistant_response :=
                        match assoc_find "content" fields with
                        | Some v => [FJson v]
                        | None => [FStr "I'm not sure how to respond to that."]
                        end in
                      say k "assistant" assistant_response (ShMarkdown assistant_response) s3
                    else sorry
                | _ => Interrupted (AttributeError "get") s3
                end
              else sorry
          end
      end
  end.

(** The chat tab for a selected replica: the part above, then the prompt
    if one was typed. *)
Definition chat_tab (test_user_id : string) (r : ReplicaItem) (prompt : option string)
           (s : Session) : Run Session :=
  let s0 := open_chat test_user_id r s in
  match prompt with
  | Some text => if nonempty text then answer test_user_id r text s0 else Finished s0
  | None => Finished s0
  end.

End WithEnv.
End Pages.

(** * The calls of the pages, and what answers them *)

Module PageCalls.
Import Pages.

(** The value of a header of a call. *)
Fixpoint header (k : string) (hs : list (string * string)) : option string :=
  match hs with
  | [] => None
  | (k', v) :: hs' => if (k =? k')%string then Some v else header k hs'
  end.

(** The network answered with status 404. *)
Definition is_404 (o : NetOutcome) : bool :=
  match o with
  | NetResponse r => status_code r =? 404
  | _ => false
  end.

(** The call came back with a body and no error. *)
Definition no_error (o : NetOutcome) : bool :=
  match Training.http_success o with
  | Some _ => true
  | None => false
  end.

(** The call came back with no error and a JSON object. *)
Definition object_reply (o : NetOutcome) : bool :=
  match Training.http_success o with
  | Some (JObj _) => true
  | _ => false
  end.

Section WithEnv.
Variable E : Env.

Definition plain_headers : list (string * string) :=
  Client.make_headers (sensay_org_secret E) (sensay_api_version E) None.

Definition get_user_call (uid : string) : HttpCall :=
  mkCall GET [Lit SENSAY_API_BASE_URL; Lit "/users/"; FStr uid] plain_headers None None 30.

Definition create_user_call (uid : string) : HttpCall :=
  mkCall POST [Lit SENSAY_API_BASE_URL; Lit "/users"] plain_headers None
         (Some (create_user_payload uid)) 30.

Definition replica_call (f : ReplicaForm) : HttpCall :=
  mkCall POST [Lit SENSAY_API_BASE_URL; Lit "/replicas"] plain_headers None
         (Some (replica_payload f)) 30.

Definition list_call (owner_id_filter : string) : HttpCall :=
  mkCall GET [Lit SENSAY_API_BASE_URL; Lit "/replicas"] plain_headers
         (Some (if nonempty owner_id_filter then [("ownerID", owner_id_filter)] else []))
         None 30.

Definition chat_call (test_user_id : string) (k : option string) (prompt : string)
  : HttpCall :=
  mkCall POST [Lit SENSAY_API_BASE_URL; Lit "/replicas/"; FOpt k; Lit "/chat/completions"]
         (Client.make_headers (sensay_org_secret E) (sensay_api_version E)
                              (Some test_user_id))
         None (Some (JObj [("content", JStr prompt)])) 30.

(** The calls of the user check made after history [h]: the lookup, and
    the creation when the lookup answers 404. *)
Definition user_calls (uid : string) (h : History) : list HttpCall :=
  get_user_call uid
  :: (if is_404 (send E h (get_user_call uid)) then [create_user_call uid] else []).

(** The answer that settles the user check: that of the creation when
    there is one, that of the lookup otherwise. *)
Definition user_answer (uid : string) (h : History) : NetOutcome :=
  if is_404 (send E h (get_user_call uid))
  then send E (h ++ [EvHttp (get_user_call uid)]) (create_user_call uid)
  else send E h (get_user_call uid).

End WithEnv.
End PageCalls.

(** * Sample pages *)

Module PageSamples.
Import Pages.

Definition blank : Page := mkPage [] [].

Definition form : ReplicaForm :=
  mkForm "U1" "Expert" "expert" "Team lead" "Hello!" "openai" "gpt-4o".

Definition form_without_slug : ReplicaForm :=
  mkForm "U1" "Expert" "" "Team lead" "Hello!" "openai" "gpt-4o".

Definition expert : ReplicaItem :=
  mkItem (Training.mkReplica (Some "Expert") (Some "uuid-1") (Some "U1")) (Some "Hello!").

Definition new_session : Session := mkSession [] None blank.


End PageSamples.

(** * More sample sessions *)

Module MoreSamples.
Import Training Samples.

(** The remote service is fine, every store update raises. *)
Definition store_down : Env :=
  mkEnv "secret" "2025-03-25" "slack_messages_for_sensay"
        (reply_with 200 "" (Some ok_body)) never
        (fun _ _ => Some (OtherException "timeout")).

(** Every call answers 200 with a JSON array. *)
Definition array_body : Env :=
  env_with (reply_with 200 "[1]" (Some (JArr [JNum 1]))).

(** Create calls succeed, fill calls answer 200 with a JSON array. *)
Definition fill_array_body : Env :=
  env_with (fun _ c =>
              match call_verb c with
              | PUT => NetResponse (mkResponse 200 "[1]" (Some (JArr [JNum 1])))
              | _ => NetResponse (mkResponse 200 "" (Some ok_body))
              end).

(** GET answers 404, everything else 200 with a success body. *)
Definition get_404 : Env :=
  env_with (fun _ c =>
              match call_verb c with
              | GET => NetResponse (mkResponse 404 "{}" (Some (JObj [("error", JStr "not found")])))
              | _ => NetResponse (mkResponse 200 "" (Some ok_body))
              end).

(** The network is down. *)
Definition offline : Env := env_with (fun _ _ => NetFail "connection refused").

End MoreSamples.

(** * Reading a trace *)

Module Trace.

Definition is_post (e : Event) : bool :=
  match e with
  | EvHttp c => match call_verb c with POST => true | _ => false end
  | _ => false
  end.

Definition is_progress (e : Event) : bool :=
  match e with
  | EvUi (UiProgress _ _ _) => true
  | _ => false
  end.

(** How many events of a history satisfy [p]. *)
Definition count (p : Event -> bool) (h : History) : nat :=
  List.length (filter p h).



(** The table after the rows [rows] have been marked, one after the other. *)
Definition mark_all (rows : list Msg) (t : Table) : Table :=
  fold_left (fun t' m => Store.mark_processed (msg_id m) t') rows t.

(** [enumerate(rows)] counted from [i]. *)
Fixpoint enumerate_from {A : Type} (i : nat) (l : list A) : list (nat * A) :=
  match l with
  | [] => []
  | x :: l' => (i, x) :: enumerate_from (S i) l'
  end.

End Trace.

(** * Properties *)

(** ** The remote client *)

Module ClientFacts.
Import Client.

Lemma handle_returns (e : Exn) : exists reply, handle e = Returned reply.
Proof. destruct e; simpl; eauto. Qed.

Lemma make_sensay_request_returns E h method endpoint json_data params user_id :
  exists reply evs,
    make_sensay_request E h method endpoint json_data params user_id
    = (Returned reply, evs).
Proof.
  unfold make_sensay_request.
  destruct (try_block E h method endpoint json_data params user_id) as [[x|e] evs].
  - eauto.
  - destruct (handle_returns e) as [reply ->]. eauto.
Qed.

Lemma make_sensay_request_events E h method endpoint json_data params user_id :
  Forall (fun e => Training.is_http e = true)
         (snd (make_sensay_request E h method endpoint json_data params user_id)).
Proof.
  unfold make_sensay_request, try_block.
  destruct (verb_of (upper method)); simpl; [|constructor].
  destruct (send E h _) as [msg|msg|r]; simpl; try (repeat constructor).
  destruct (raises_for_status r); simpl; [repeat constructor|].
  destruct (resp_json r); simpl; repeat constructor.
Qed.

End ClientFacts.

Module ClientResults.
Import Client.

(** C4, as stated, fails: a response that is not 2xx can come back as a
    plain success (status 300 with a JSON body gives the body and no
    error), and a 2xx response can come back as an error (status 204 with
    no body gives an error, one without status code). *)
Lemma status_outside_the_two_classes :
  ~ (200 <= 300 < 300) /\
  fst (make_sensay_request Samples.all_300 [] "GET" [Lit "/replicas"] None None None)
  = Returned (JObj [], None) /\
  200 <= 204 < 300 /\
  fst (make_sensay_request Samples.all_204 [] "DELETE" [Lit "/replicas/x"] None None None)
  = Returned (JNull,
              Some (mkError (RequestErrorOccurred (RequestException "JSONDecodeError"))
                            None None)).
Proof.
  split; [lia|]. split; [reflexivity|]. split; [lia|]. reflexivity.
Qed.

(** C4, amended: [make_sensay_request] always returns.  For an
    unsupported verb the result is the local error and no call is made.
    Otherwise exactly one call is made, and: a network failure gives an
    error with no status code; a response with a 4XX or 5XX status gives an
    error with that status code and the parsed body, or the raw text when
    the body is not JSON; any other response gives its parsed body and no
    error, or an error with no status code when the body is not JSON. *)
Theorem make_sensay_request_results
        E h method endpoint json_data params user_id :
  let result := make_sensay_request E h method endpoint json_data params user_id in
  match verb_of (upper method) with
  | None =>
      result = (Returned (JNull, Some (mkError UnsupportedMethod None None)), [])
  | Some v =>
      let c := build_call v (Lit SENSAY_API_BASE_URL :: endpoint)
                          (make_headers (sensay_org_secret E) (sensay_api_version E) user_id)
                          json_data params in
      exists data err,
        result = (Returned (data, err), [EvHttp c]) /\
        call_verb c = v /\ call_timeout c = 30 /\
        match send E h c with
        | NetFail _ | NetUnexpected _ =>
            data = JNull /\
            exists e, err = Some e /\ err_status_code e = None /\ details e = None
        | NetResponse r =>
            if (400 <=? status_code r) && (status_code r <? 600) then
              data = JNull /\
              exists e, err = Some e /\
                        err_status_code e = Some (status_code r) /\
                        details e = Some (match resp_json r with
                                          | Some j => DJson j
                                          | None => DText (resp_text r)
                                          end)
            else
              match resp_json r with
              | Some j => data = j /\ err = None
              | None =>
                  data = JNull /\
                  exists e, err = Some e /\ err_status_code e = None /\ details e = None
              end
        end
  end.
Proof.
  intros result. subst result.
  unfold make_sensay_request, try_block.
  destruct (verb_of (upper method)) as [v|]; [|reflexivity].
  cbv zeta.
  set (c := build_call v _ _ json_data params).
  assert (Hv : call_verb c = v) by (subst c; destruct v; reflexivity).
  assert (Ht : call_timeout c = 30) by (subst c; destruct v; reflexivity).
  destruct (send E h c) as [msg|msg|r]; simpl.
  - do 2 eexists. repeat split; eauto.
  - do 2 eexists. repeat split; eauto.
  - unfold raises_for_status.
    destruct ((400 <=? status_code r) && (status_code r <? 600)); simpl.
    + do 2 eexists. repeat split; eauto.
    + destruct (resp_json r); simpl; do 2 eexists; repeat split; eauto.
Qed.

End ClientResults.

(** ** The row store *)

Module StoreFacts.
Import Store.

Lemma processed_flag_cons x t rid :
  processed_flag (x :: t) rid
  = if row_id x =? rid then Some (processed_for_sensay x) else processed_flag t rid.
Proof. unfold processed_flag. simpl. destruct (row_id x =? rid); reflexivity. Qed.

Lemma processed_flag_mark rid rid' t :
  processed_flag (mark_processed rid t) rid'
  = if rid' =? rid then option_map (fun _ => true) (processed_flag t rid')
    else processed_flag t rid'.
Proof.
  induction t as [|x t IH].
  - simpl. destruct (rid' =? rid); reflexivity.
  - change (mark_processed rid (x :: t))
      with ((if row_id x =? rid then set_processed x else x) :: mark_processed rid t).
    rewrite !processed_flag_cons, IH.
    destruct (row_id x =? rid) eqn:Hx; simpl.
    + destruct (row_id x =? rid') eqn:Hx'; [|reflexivity].
      apply Z.eqb_eq in Hx, Hx'. subst.
      rewrite Z.eqb_refl. reflexivity.
    + destruct (row_id x =? rid') eqn:Hx'; [|reflexivity].
      apply Z.eqb_eq in Hx'. subst. rewrite Hx. reflexivity.
Qed.

Lemma mark_processed_keeps_true rid rid' t :
  processed_flag t rid' = Some true ->
  processed_flag (mark_processed rid t) rid' = Some true.
Proof.
  intros H. rewrite processed_flag_mark, H. destruct (rid' =? rid); reflexivity.
Qed.

Lemma mark_processed_other rid rid' t :
  rid' <> rid ->
  processed_flag (mark_processed rid t) rid' = processed_flag t rid'.
Proof.
  intros H. rewrite processed_flag_mark.
  destruct (rid' =? rid) eqn:Heq; [apply Z.eqb_eq in Heq; contradiction|reflexivity].
Qed.

Lemma processed_flag_present t rid :
  In rid (map row_id t) -> exists b, processed_flag t rid = Some b.
Proof.
  induction t as [|x t IH]; simpl; [contradiction|].
  intros H. rewrite processed_flag_cons.
  destruct (row_id x =? rid) eqn:Hx; [eauto|].
  destruct H as [H|H]; [|auto].
  subst. rewrite Z.eqb_refl in Hx. discriminate.
Qed.

Lemma mark_processed_sets rid t :
  In rid (map row_id t) ->
  processed_flag (mark_processed rid t) rid = Some true.
Proof.
  intros H. destruct (processed_flag_present t rid H) as [b Hb].
  rewrite processed_flag_mark, Z.eqb_refl, Hb. reflexivity.
Qed.

Lemma mark_processed_ids rid t :
  map row_id (mark_processed rid t) = map row_id t.
Proof.
  unfold mark_processed. rewrite map_map. apply map_ext.
  intros r. destruct (row_id r =? rid); reflexivity.
Qed.

Lemma processed_flag_of_row t r :
  NoDup (map row_id t) -> In r t ->
  processed_flag t (row_id r) = Some (processed_for_sensay r).
Proof.
  induction t as [|x t IH]; simpl; [contradiction|].
  intros Hnd [->|Hin]; rewrite processed_flag_cons.
  - rewrite Z.eqb_refl. reflexivity.
  - inversion Hnd as [|? ? Hx Hnd']; subst.
    destruct (row_id x =? row_id r) eqn:Heq; [|auto].
    apply Z.eqb_eq in Heq. exfalso. apply Hx. rewrite Heq. apply in_map. exact Hin.
Qed.

Lemma insert_by_created_at_perm r l :
  Permutation (insert_by_created_at r l) (r :: l).
Proof.
  induction l as [|x l IH]; simpl; [reflexivity|].
  destruct (created_at r <=? created_at x); [reflexivity|].
  rewrite IH. apply perm_swap.
Qed.

Lemma order_by_created_at_perm l : Permutation (order_by_created_at l) l.
Proof.
  induction l as [|x l IH]; simpl; [reflexivity|].
  rewrite insert_by_created_at_perm. constructor. exact IH.
Qed.

Lemma fetch_unprocessed_in owner t m :
  In m (fetch_unprocessed owner t) ->
  exists r, In r t /\ to_msg r = m /\ in_backlog owner r = true.
Proof.
  unfold fetch_unprocessed. intros H.
  apply in_map_iff in H. destruct H as [r [Hr Hin]].
  apply (Permutation_in _ (order_by_created_at_perm _)) in Hin.
  apply filter_In in Hin. destruct Hin. eauto.
Qed.

Lemma NoDup_map_filter {A B : Type} (f : A -> B) (p : A -> bool) l :
  NoDup (map f l) -> NoDup (map f (filter p l)).
Proof.
  induction l as [|x l IH]; simpl; intros H; [constructor|].
  inversion H as [|? ? Hx Hnd]; subst.
  destruct (p x); simpl; [|auto].
  constructor; [|auto].
  intros Hin. apply Hx. apply in_map_iff in Hin. destruct Hin as [y [Hy Hin]].
  apply filter_In in Hin. rewrite <- Hy. apply in_map. tauto.
Qed.

Lemma fetch_unprocessed_ids owner t :
  NoDup (map row_id t) -> NoDup (map msg_id (fetch_unprocessed owner t)).
Proof.
  intros H. unfold fetch_unprocessed. rewrite map_map.
  change (fun x => msg_id (to_msg x)) with row_id.
  eapply Permutation_NoDup.
  - apply Permutation_sym, Permutation_map, order_by_created_at_perm.
  - apply NoDup_map_filter. exact H.
Qed.

(** A fetched row is in the table, with that identifier. *)
Lemma fetch_unprocessed_present owner t m :
  In m (fetch_unprocessed owner t) -> In (msg_id m) (map row_id t).
Proof.
  intros H. destruct (fetch_unprocessed_in _ _ _ H) as [r [Hin [Hm _]]].
  subst m. simpl. apply in_map. exact Hin.
Qed.

(** With a primary key, a fetched row is unprocessed in the table. *)
Lemma fetch_unprocessed_flag owner t m :
  NoDup (map row_id t) ->
  In m (fetch_unprocessed owner t) ->
  processed_flag t (msg_id m) = Some false.
Proof.
  intros Hnd H. destruct (fetch_unprocessed_in _ _ _ H) as [r [Hin [Hm Hb]]].
  subst m. simpl. rewrite (processed_flag_of_row t r Hnd Hin).
  unfold in_backlog in Hb. apply andb_true_iff in Hb. destruct Hb as [_ Hb].
  destruct (processed_for_sensay r); [discriminate|reflexivity].
Qed.

End StoreFacts.

(** ** The training loop *)

Module TrainingFacts.
Import Training.

(** A request changes nothing of the run but its history, to which it
    adds HTTP calls only, and it always returns. *)
Lemma request_frame E method endpoint json_data s r s' :
  request E method endpoint json_data s = (r, s') ->
  (exists reply, r = Returned reply) /\
  processed_count s' = processed_count s /\
  error_count s' = error_count s /\
  training_logs s' = training_logs s /\
  table s' = table s /\
  live_log_shown s' = live_log_shown s /\
  exists evs, history s' = history s ++ evs /\
              Forall (fun e => is_http e = true) evs.
Proof.
  unfold request. intros H.
  pose proof (ClientFacts.make_sensay_request_events
                E (history s) method endpoint json_data None None) as Hev.
  destruct (ClientFacts.make_sensay_request_returns
              E (history s) method endpoint json_data None None)
    as [reply [evs Heq]].
  rewrite Heq in H, Hev. inversion H; subst; clear H. simpl in *.
  repeat split; eauto.
Qed.

Lemma update_store_frame E rid s r s' :
  update_store E rid s = (r, s') ->
  r = update_raises E (history s) rid /\
  processed_count s' = processed_count s /\
  error_count s' = error_count s /\
  training_logs s' = training_logs s /\
  history s' = history s ++ [EvStoreUpdate (supabase_table_name E) rid] /\
  live_log_shown s' = live_log_shown s /\
  table s' = match r with
             | None => Store.mark_processed rid (table s)
             | Some _ => table s
             end.
Proof.
  unfold update_store. intros H.
  destruct (update_raises E (history s) rid); inversion H; subst; simpl; auto 12.
Qed.

(** The live log area: shown with the delay while its key is free, an
    exception once it is taken; the run is otherwise as it was. *)
Lemma end_of_row_cases replica_uuid s :
  (live_log_shown s = true /\
   end_of_row replica_uuid s
   = Uncaught (DuplicateElementKey (live_log_key replica_uuid)) s) \/
  (live_log_shown s = false /\
   end_of_row replica_uuid s
   = Next (mkState (processed_count s) (error_count s) (training_logs s) (table s)
                   (history s
                    ++ [EvUi (UiTextArea "Training Log" (last_n 10 (training_logs s)));
                        EvSleep politeness_delay])
                   true)).
Proof. unfold end_of_row. destruct (live_log_shown s); auto. Qed.

(** Every iteration follows one of the seven paths. *)
Lemma train_body_path E replica_uuid total s i m :
  row_path E replica_uuid total s i m (train_body E replica_uuid total s i m).
Proof.
  unfold train_body.
  change (request E "POST" (create_endpoint replica_uuid) (Some (JObj []))
                  (emit [EvUi (UiProgress (i + 1) total (progress_text i total m))] s))
    with (create_result E replica_uuid total s i m).
  destruct (create_result E replica_uuid total s i m) as [r s1] eqn:Hc.
  destruct (request_frame E _ _ _ _ _ _ Hc) as [[reply ->] _].
  destruct (call_failed reply) as [[|]|e] eqn:Hf.
  - eapply path_create_failed; eauto.
  - destruct (py_get (fst reply) "knowledgeBaseID") as [kb|] eqn:Hkb.
    + destruct (truthy kb) eqn:Ht; simpl.
      * unfold fill_and_mark.
        change (request E "PUT" (fill_endpoint replica_uuid kb)
                        (Some (JObj [("rawText", JStr (msg_content m))])) s1)
          with (fill_result E replica_uuid m kb s1).
        destruct (fill_result E replica_uuid m kb s1) as [r2 s2] eqn:Hfill.
        destruct (request_frame E _ _ _ _ _ _ Hfill) as [[reply2 ->] _].
        destruct (call_failed reply2) as [[|]|e] eqn:Hf2.
        -- eapply path_fill_failed; eauto.
        -- destruct (update_store E (msg_id m) s2) as [[e|] s3] eqn:Hu.
           ++ eapply path_store_failed; eauto.
           ++ eapply path_trained; eauto.
        -- eapply path_fill_check_raises; eauto.
      * eapply path_missing_kb; eauto.
    + exfalso. unfold call_failed in Hf.
      destruct (snd reply); [discriminate|].
      destruct (negb (truthy (fst reply))); [discriminate|].
      destruct (fst reply); simpl in *; discriminate.
  - eapply path_create_check_raises; eauto.
Qed.

(** *** From the answers of the environment to the replies *)

Lemma request_ok E method endpoint json_data s v j :
  Client.verb_of (upper method) = Some v ->
  http_success
    (send E (history s)
          (Client.build_call v (Lit SENSAY_API_BASE_URL :: endpoint) (headers E)
                             json_data None)) = Some j ->
  request E method endpoint json_data s
  = (Returned (j, None),
     emit [EvHttp (Client.build_call v (Lit SENSAY_API_BASE_URL :: endpoint) (headers E)
                                     json_data None)] s).
Proof.
  intros Hv Hs. unfold request, Client.make_sensay_request, Client.try_block.
  rewrite Hv. cbv zeta. unfold headers in Hs.
  destruct (send E (history s) _) as [msg|msg|r]; simpl in Hs; try discriminate.
  destruct (Client.raises_for_status r); [discriminate|].
  rewrite Hs. reflexivity.
Qed.

Lemma request_error E method endpoint json_data s v :
  Client.verb_of (upper method) = Some v ->
  http_success
    (send E (history s)
          (Client.build_call v (Lit SENSAY_API_BASE_URL :: endpoint) (headers E)
                             json_data None)) = None ->
  exists err,
    request E method endpoint json_data s
    = (Returned (JNull, Some err),
       emit [EvHttp (Client.build_call v (Lit SENSAY_API_BASE_URL :: endpoint) (headers E)
                                       json_data None)] s).
Proof.
  intros Hv Hs. unfold request, Client.make_sensay_request, Client.try_block.
  rewrite Hv. cbv zeta. unfold headers in Hs.
  destruct (send E (history s) _) as [msg|msg|r]; simpl in Hs |- *; eauto.
  destruct (Client.raises_for_status r); simpl; eauto.
  rewrite Hs. simpl. eauto.
Qed.

Lemma create_result_ok E replica_uuid total s i m j :
  http_success (create_outcome E replica_uuid total s i m) = Some j ->
  create_result E replica_uuid total s i m
  = (Returned (j, None), at_fill E replica_uuid total s i m).
Proof. intros H. exact (request_ok E "POST" _ _ _ POST j eq_refl H). Qed.

Lemma create_result_error E replica_uuid total s i m :
  http_success (create_outcome E replica_uuid total s i m) = None ->
  exists err,
    create_result E replica_uuid total s i m
    = (Returned (JNull, Some err), at_fill E replica_uuid total s i m).
Proof. intros H. exact (request_error E "POST" _ _ _ POST eq_refl H). Qed.

Lemma fill_result_ok E replica_uuid m kb s1 j :
  http_success (send E (history s1) (fill_call E replica_uuid m kb)) = Some j ->
  fill_result E replica_uuid m kb s1
  = (Returned (j, None), emit [EvHttp (fill_call E replica_uuid m kb)] s1).
Proof. intros H. exact (request_ok E "PUT" _ _ _ PUT j eq_refl H). Qed.

Lemma fill_result_error E replica_uuid m kb s1 :
  http_success (send E (history s1) (fill_call E replica_uuid m kb)) = None ->
  exists err,
    fill_result E replica_uuid m kb s1
    = (Returned (JNull, Some err), emit [EvHttp (fill_call E replica_uuid m kb)] s1).
Proof. intros H. exact (request_error E "PUT" _ _ _ PUT eq_refl H). Qed.

Lemma lacks_success_fails j :
  lacks_success j = true -> call_failed (j, None) = Returned true.
Proof.
  unfold lacks_success, call_failed. simpl. intros H.
  destruct (truthy j) eqn:Ht; simpl in *; [|reflexivity].
  destruct j; try discriminate. simpl. rewrite H. reflexivity.
Qed.

Lemma acknowledged_passes j :
  acknowledged j = true -> call_failed (j, None) = Returned false.
Proof.
  unfold acknowledged, call_failed. simpl. intros H.
  destruct j as [| | | | |fields]; simpl in *; try discriminate.
  destruct fields as [|f fields]; simpl in *; [discriminate|].
  rewrite H. reflexivity.
Qed.

(** The three ways the success test of a body can go. *)
Lemma call_failed_cases j :
  (call_failed (j, None) = Returned true /\ lacks_success j = true) \/
  (call_failed (j, None) = Returned false /\ acknowledged j = true) \/
  (call_failed (j, None) = Raised (AttributeError "get") /\
   truthy j = true /\ py_get j "success" = None).
Proof.
  unfold call_failed, lacks_success, acknowledged. simpl.
  destruct (truthy j) eqn:Ht; simpl; [|auto].
  destruct j as [| | | | |fields]; simpl; auto 6.
  destruct (truthy (assoc_get "success" fields)); simpl; auto.
Qed.

Lemma acknowledged_entry_id j :
  acknowledged j = true -> py_get j "knowledgeBaseID" = Some (entry_id_of j).
Proof.
  unfold acknowledged, entry_id_of.
  destruct j; simpl; intros H; try discriminate. reflexivity.
Qed.

Lemma create_succeeds_inv o :
  create_succeeds o = true ->
  exists j, http_success o = Some j /\ acknowledged j = true /\
            truthy (entry_id_of j) = true /\ entry_id o = entry_id_of j.
Proof.
  unfold create_succeeds, entry_id. destruct (http_success o) as [j|]; [|discriminate].
  intros H. apply andb_true_iff in H. destruct H. eauto.
Qed.

Lemma fill_succeeds_inv o :
  fill_succeeds o = true ->
  exists j, http_success o = Some j /\ acknowledged j = true.
Proof.
  unfold fill_succeeds. destruct (http_success o) as [j|]; [|discriminate]. eauto.
Qed.

(** *** What one iteration does, by the answers it gets *)

Section Rows.
Variable E : Env.
Variables (replica_uuid : option string) (total : nat).
Variables (s : TrainState) (i : nat) (m : Msg).

Local Notation "'body'" := (train_body E replica_uuid total s i m) (only parsing).
Local Notation "'create'" := (create_outcome E replica_uuid total s i m) (only parsing).
Local Notation "'fill'" := (fill_outcome E replica_uuid total s i m) (only parsing).
Local Notation "'mark'" := (mark_outcome E replica_uuid total s i m) (only parsing).
Local Notation "'s_fill'" := (at_fill E replica_uuid total s i m) (only parsing).
Local Notation "'s_mark'" := (at_mark E replica_uuid total s i m) (only parsing).

Ltac open_body :=
  unfold train_body;
  fold (at_create total s i m);
  fold (create_result E replica_uuid total s i m).

Lemma row_create_error :
  http_success create = None ->
  exists err, body = Next (log_error (create_failed_line m (JNull, Some err)) s_fill).
Proof.
  intros H. destruct (create_result_error _ _ _ _ _ _ H) as [err Hc].
  exists err. open_body. rewrite Hc. reflexivity.
Qed.

Lemma row_create_lacks_success j :
  http_success create = Some j ->
  lacks_success j = true ->
  body = Next (log_error (create_failed_line m (j, None)) s_fill).
Proof.
  intros H Hl. open_body. rewrite (create_result_ok _ _ _ _ _ _ _ H).
  rewrite (lacks_success_fails j Hl). reflexivity.
Qed.

Lemma row_missing_kb j :
  http_success create = Some j ->
  acknowledged j = true ->
  truthy (entry_id_of j) = false ->
  body = Next (log_error (missing_kb_line m) s_fill).
Proof.
  intros H Ha Hk. open_body. rewrite (create_result_ok _ _ _ _ _ _ _ H).
  rewrite (acknowledged_passes j Ha).
  cbv beta iota. change (fst (j, @None ErrorContent)) with j.
  rewrite (acknowledged_entry_id j Ha), Hk. reflexivity.
Qed.

Lemma row_create_check_raises j :
  http_success create = Some j ->
  truthy j = true ->
  py_get j "success" = None ->
  body = Uncaught (AttributeError "get") s_fill.
Proof.
  intros Hc Ht Hg. open_body.
  rewrite (create_result_ok _ _ _ _ _ _ _ Hc).
  unfold call_failed. simpl. rewrite Ht, Hg. reflexivity.
Qed.

(** After a successful create, the iteration is the fill and what
    follows it. *)
Lemma row_after_create :
  create_succeeds create = true ->
  body = fill_and_mark E replica_uuid m (entry_id create) s_fill.
Proof.
  intros H. destruct (create_succeeds_inv _ H) as [j [Hs [Ha [Hk He]]]].
  open_body. rewrite (create_result_ok _ _ _ _ _ _ _ Hs).
  rewrite (acknowledged_passes j Ha).
  cbv beta iota. change (fst (j, @None ErrorContent)) with j.
  rewrite (acknowledged_entry_id j Ha), Hk, He. reflexivity.
Qed.

Ltac open_fill :=
  unfold fill_and_mark;
  fold (fill_result E replica_uuid m (entry_id create) s_fill).

Lemma row_fill_error :
  create_succeeds create = true ->
  http_success fill = None ->
  exists err,
    body = end_of_row replica_uuid
             (log_error (fill_failed_line m (entry_id create) (JNull, Some err)) s_mark).
Proof.
  intros Hc Hf. rewrite (row_after_create Hc).
  destruct (fill_result_error _ _ _ _ _ Hf) as [err Hr].
  exists err. open_fill. rewrite Hr. reflexivity.
Qed.

Lemma row_fill_lacks_success j :
  create_succeeds create = true ->
  http_success fill = Some j ->
  lacks_success j = true ->
  body = end_of_row replica_uuid
           (log_error (fill_failed_line m (entry_id create) (j, None)) s_mark).
Proof.
  intros Hc Hf Hl. rewrite (row_after_create Hc).
  open_fill. rewrite (fill_result_ok _ _ _ _ _ _ Hf).
  rewrite (lacks_success_fails j Hl). reflexivity.
Qed.

Lemma row_fill_check_raises j :
  create_succeeds create = true ->
  http_success fill = Some j ->
  truthy j = true ->
  py_get j "success" = None ->
  body = Uncaught (AttributeError "get") s_mark.
Proof.
  intros Hc Hf Ht Hg. rewrite (row_after_create Hc).
  open_fill. rewrite (fill_result_ok _ _ _ _ _ _ Hf).
  unfold call_failed. simpl. rewrite Ht, Hg. reflexivity.
Qed.

Lemma row_trained :
  create_succeeds create = true ->
  fill_succeeds fill = true ->
  mark = None ->
  body = end_of_row replica_uuid
           (log_success (trained_line m (entry_id create))
              (mkState (processed_count s) (error_count s) (training_logs s)
                       (Store.mark_processed (msg_id m) (table s))
                       (history s_mark
                        ++ [EvStoreUpdate (supabase_table_name E) (msg_id m)])
                       (live_log_shown s))).
Proof.
  intros Hc Hf Hm. rewrite (row_after_create Hc).
  destruct (fill_succeeds_inv _ Hf) as [j [Hs Ha]].
  open_fill. rewrite (fill_result_ok _ _ _ _ _ _ Hs).
  rewrite (acknowledged_passes j Ha).
  cbv beta iota. unfold update_store.
  fold (at_mark E replica_uuid total s i m).
  unfold mark_outcome in Hm. rewrite Hm. reflexivity.
Qed.

Lemma row_store_failed e :
  create_succeeds create = true ->
  fill_succeeds fill = true ->
  mark = Some e ->
  body = end_of_row replica_uuid
           (log_error (store_failed_line m e)
              (emit [EvStoreUpdate (supabase_table_name E) (msg_id m)] s_mark)).
Proof.
  intros Hc Hf Hm. rewrite (row_after_create Hc).
  destruct (fill_succeeds_inv _ Hf) as [j [Hs Ha]].
  open_fill. rewrite (fill_result_ok _ _ _ _ _ _ Hs).
  rewrite (acknowledged_passes j Ha).
  cbv beta iota. unfold update_store.
  fold (at_mark E replica_uuid total s i m).
  unfold mark_outcome in Hm. rewrite Hm. reflexivity.
Qed.

(** The iteration by the answers alone: which of the paths is taken is
    decided by what the create call, the fill call and the store update
    answer. *)
Lemma row_by_answers :
  match http_success create with
  | None =>
      exists err, body = Next (log_error (create_failed_line m (JNull, Some err)) s_fill)
  | Some j =>
      if lacks_success j
      then body = Next (log_error (create_failed_line m (j, None)) s_fill)
      else if negb (acknowledged j)
      then body = Uncaught (AttributeError "get") s_fill
      else if negb (truthy (entry_id_of j))
      then body = Next (log_error (missing_kb_line m) s_fill)
      else
        create_succeeds create = true /\
        match http_success fill with
        | None =>
            exists err,
              body = end_of_row replica_uuid
                       (log_error (fill_failed_line m (entry_id create) (JNull, Some err))
                                  s_mark)
        | Some j2 =>
            if lacks_success j2
            then body = end_of_row replica_uuid
                          (log_error (fill_failed_line m (entry_id create) (j2, None))
                                     s_mark)
            else if negb (acknowledged j2)
            then body = Uncaught (AttributeError "get") s_mark
            else
              fill_succeeds fill = true /\
              match mark with
              | Some e =>
                  body = end_of_row replica_uuid
                           (log_error (store_failed_line m e)
                              (emit [EvStoreUpdate (supabase_table_name E) (msg_id m)]
                                    s_mark))
              | None =>
                  body = end_of_row replica_uuid
                           (log_success (trained_line m (entry_id create))
                              (mkState (processed_count s) (error_count s)
                                       (training_logs s)
                                       (Store.mark_processed (msg_id m) (table s))
                                       (history s_mark
                                        ++ [EvStoreUpdate (supabase_table_name E)
                                                          (msg_id m)])
                                       (live_log_shown s)))
              end
        end
  end.
Proof.
  destruct (http_success create) as [j|] eqn:Hc; [|exact (row_create_error Hc)].
  destruct (call_failed_cases j) as [[_ Hl]|[[_ Ha]|[_ [Ht Hg]]]].
  - rewrite Hl. exact (row_create_lacks_success j Hc Hl).
  - assert (Hl : lacks_success j = false).
    { unfold lacks_success, acknowledged in *.
      destruct j as [| | | | |fields]; simpl in *; try discriminate.
      destruct fields; simpl in *; [discriminate|]. rewrite Ha. reflexivity. }
    rewrite Hl, Ha. cbn [negb].
    destruct (truthy (entry_id_of j)) eqn:Hk; cbn [negb];
      [|exact (row_missing_kb j Hc Ha Hk)].
    assert (Hcs : create_succeeds create = true).
    { unfold create_succeeds. rewrite Hc, Ha, Hk. reflexivity. }
    split; [exact Hcs|].
    destruct (http_success fill) as [j2|] eqn:Hf; [|exact (row_fill_error Hcs Hf)].
    destruct (call_failed_cases j2) as [[_ Hl2]|[[_ Ha2]|[_ [Ht2 Hg2]]]].
    + rewrite Hl2. exact (row_fill_lacks_success j2 Hcs Hf Hl2).
    + assert (Hl2 : lacks_success j2 = false).
      { unfold lacks_success, acknowledged in *.
        destruct j2 as [| | | | |fields]; simpl in *; try discriminate.
        destruct fields; simpl in *; [discriminate|]. rewrite Ha2. reflexivity. }
      rewrite Hl2, Ha2. cbn [negb].
      assert (Hfs : fill_succeeds fill = true).
      { unfold fill_succeeds. rewrite Hf. exact Ha2. }
      split; [exact Hfs|].
      destruct mark as [e|] eqn:Hm.
      * exact (row_store_failed e Hcs Hfs Hm).
      * exact (row_trained Hcs Hfs Hm).
    + assert (Hl2 : lacks_success j2 = false).
      { unfold lacks_success. rewrite Ht2. destruct j2; simpl in *; try reflexivity.
        discriminate. }
      assert (Ha2 : acknowledged j2 = false).
      { unfold acknowledged. rewrite Hg2. reflexivity. }
      rewrite Hl2, Ha2. cbn [negb].
      exact (row_fill_check_raises j2 Hcs Hf Ht2 Hg2).
  - assert (Hl : lacks_success j = false).
    { unfold lacks_success. rewrite Ht. destruct j; simpl in *; try reflexivity.
      discriminate. }
    assert (Ha : acknowledged j = false).
    { unfold acknowledged. rewrite Hg. reflexivity. }
    rewrite Hl, Ha. cbn [negb].
    exact (row_create_check_raises j Hc Ht Hg).
Qed.

End Rows.

(** *** What every iteration preserves *)

Ltac frames :=
  repeat match goal with
         | H : create_result _ _ _ _ _ _ = (_, _) |- _ =>
             unfold create_result in H; apply request_frame in H;
             destruct H as (_ & ? & ? & ? & ? & ? & ? & ? & _)
         | H : fill_result _ _ _ _ _ = (_, _) |- _ =>
             unfold fill_result in H; apply request_frame in H;
             destruct H as (_ & ? & ? & ? & ? & ? & ? & ? & _)
         | H : update_store _ _ _ = (_, _) |- _ =>
             apply update_store_frame in H;
             destruct H as (_ & ? & ? & ? & ? & ? & ?)
         end.

Ltac end_of_row_cases_tac :=
  try match goal with
      | |- context [end_of_row ?u ?x] =>
          let Hk := fresh "Hkey" in
          let Hr := fresh "Hrow" in
          destruct (end_of_row_cases u x) as [[Hk Hr]|[Hk Hr]]; rewrite Hr
      end.

Ltac rewrite_states :=
  repeat match goal with
         | H : history ?a = _ |- _ => rewrite H; clear H
         | H : table ?a = _ |- _ => rewrite H; clear H
         | H : processed_count ?a = _ |- _ => rewrite H; clear H
         | H : error_count ?a = _ |- _ => rewrite H; clear H
         | H : training_logs ?a = _ |- _ => rewrite H; clear H
         | H : live_log_shown ?a = live_log_shown _ |- _ => rewrite H in *; clear H
         end.

(** Between the start and the end of an iteration: the table is as it
    was or has the row marked; the history grows; and either the row was
    counted (one counter is one higher and the log one line longer), or an
    exception left before the counting and nothing was counted or
    logged. *)
Lemma row_path_frame E replica_uuid total s i m res :
  row_path E replica_uuid total s i m res ->
  (table (state_of res) = table s \/
   table (state_of res) = Store.mark_processed (msg_id m) (table s)) /\
  (exists evs, history (state_of res) = history s ++ evs) /\
  ((((processed_count (state_of res) = S (processed_count s) /\
      error_count (state_of res) = error_count s) \/
     (processed_count (state_of res) = processed_count s /\
      error_count (state_of res) = S (error_count s))) /\
    exists line, training_logs (state_of res) = training_logs s ++ [line]) \/
   (processed_count (state_of res) = processed_count s /\
    error_count (state_of res) = error_count s /\
    training_logs (state_of res) = training_logs s /\
    exists e, res = Uncaught e (state_of res))).
Proof.
  intros H. destruct H; frames; end_of_row_cases_tac; simpl in *;
    rewrite_states; rewrite <- ?app_assoc;
    (split; [auto|]); (split; [eauto|]);
    first [left; solve [eauto 8] | right; solve [eauto 8]].
Qed.

(** A body that neither lacks the field nor is acknowledged is a true
    value that is not an object. *)
Lemma not_an_object j :
  lacks_success j = false -> acknowledged j = false ->
  truthy j = true /\ py_get j "success" = None.
Proof.
  unfold lacks_success, acknowledged. intros Hl Ha.
  apply orb_false_iff in Hl. destruct Hl as [Ht Ho].
  apply negb_false_iff in Ht. split; [exact Ht|].
  destruct j as [| | | | |fields]; simpl in *; try reflexivity.
  apply negb_false_iff in Ho. congruence.
Qed.

(** How an iteration can end, and what it has counted by then. *)
Lemma train_body_outcome E replica_uuid total s i m :
  match train_body E replica_uuid total s i m with
  | Next s' =>
      (processed_count s' = S (processed_count s) /\ error_count s' = error_count s) \/
      (processed_count s' = processed_count s /\ error_count s' = S (error_count s))
  | Uncaught e s' =>
      (e = AttributeError "get" /\
       processed_count s' = processed_count s /\ error_count s' = error_count s /\
       exists j,
         truthy j = true /\ py_get j "success" = None /\
         (http_success (create_outcome E replica_uuid total s i m) = Some j \/
          (create_succeeds (create_outcome E replica_uuid total s i m) = true /\
           http_success (fill_outcome E replica_uuid total s i m) = Some j))) \/
      (e = DuplicateElementKey (live_log_key replica_uuid) /\
       live_log_shown s = true /\
       create_succeeds (create_outcome E replica_uuid total s i m) = true /\
       ((processed_count s' = S (processed_count s) /\ error_count s' = error_count s) \/
        (processed_count s' = processed_count s /\ error_count s' = S (error_count s))))
  end.
Proof.
  pose proof (row_by_answers E replica_uuid total s i m) as H.
  destruct (http_success (create_outcome E replica_uuid total s i m)) as [j|] eqn:Hc;
    [|destruct H as [err ->]; simpl; auto].
  destruct (lacks_success j) eqn:Hl; [rewrite H; simpl; auto|].
  destruct (acknowledged j) eqn:Ha; cbn [negb] in H.
  2:{ rewrite H. left. destruct (not_an_object j Hl Ha) as [Ht Hg].
      simpl. repeat split; eauto. }
  destruct (truthy (entry_id_of j)); cbn [negb] in H; [|rewrite H; simpl; auto].
  destruct H as [Hcs H].
  destruct (http_success (fill_outcome E replica_uuid total s i m)) as [j2|] eqn:Hf.
  - destruct (lacks_success j2) eqn:Hl2.
    { rewrite H. end_of_row_cases_tac; simpl in *; auto 8. }
    destruct (acknowledged j2) eqn:Ha2; cbn [negb] in H.
    2:{ rewrite H. left. destruct (not_an_object j2 Hl2 Ha2) as [Ht Hg].
        simpl. repeat split; eauto 6. }
    destruct H as [Hfs H].
    destruct (mark_outcome E replica_uuid total s i m);
      rewrite H; end_of_row_cases_tac; simpl in *; auto 8.
  - destruct H as [err ->]. end_of_row_cases_tac; simpl in *; auto 8.
Qed.

(** *** The loop *)

Lemma train_loop_app E replica_uuid total l1 l2 :
  forall s i,
    train_loop E replica_uuid total s i (l1 ++ l2)
    = match train_loop E replica_uuid total s i l1 with
      | Next s' => train_loop E replica_uuid total s' (i + List.length l1) l2
      | Uncaught e s' => Uncaught e s'
      end.
Proof.
  induction l1 as [|m l1 IH]; intros s i; simpl.
  - rewrite Nat.add_0_r. reflexivity.
  - destruct (train_body E replica_uuid total s i m); [|reflexivity].
    rewrite IH. rewrite Nat.add_succ_r. reflexivity.
Qed.

Lemma train_loop_counts E replica_uuid total rows :
  forall s i,
    match train_loop E replica_uuid total s i rows with
    | Next s' =>
        (processed_count s' + error_count s'
         = processed_count s + error_count s + List.length rows)%nat /\
        List.length (training_logs s')
        = (List.length (training_logs s) + List.length rows)%nat
    | Uncaught _ s' =>
        (processed_count s' + error_count s'
         <= processed_count s + error_count s + List.length rows)%nat
    end.
Proof.
  induction rows as [|m rows IH]; intros s i; simpl.
  - split; lia.
  - pose proof (row_path_frame _ _ _ _ _ _ _ (train_body_path E replica_uuid total s i m))
      as (_ & _ & Hc).
    destruct (train_body E replica_uuid total s i m) as [s1|e s1]; simpl in Hc.
    + destruct Hc as [[Hc [line Hl]]|(_ & _ & _ & [e He])]; [|discriminate].
      specialize (IH s1 (S i)).
      destruct (train_loop E replica_uuid total s1 (S i) rows).
      * rewrite Hl, length_app in IH. simpl in IH. lia.
      * lia.
    + destruct Hc as [[Hc _]|(Hp & He & _)]; lia.
Qed.

Lemma loop_states_bound E replica_uuid total rows :
  forall s i,
    Forall (fun st => (processed_count st + error_count st
                       <= processed_count s + error_count s + List.length rows)%nat)
           (loop_states E replica_uuid total s i rows).
Proof.
  induction rows as [|m rows IH]; intros s i; simpl.
  - constructor; [lia|constructor].
  - constructor; [lia|].
    pose proof (row_path_frame _ _ _ _ _ _ _ (train_body_path E replica_uuid total s i m))
      as (_ & _ & Hc).
    destruct (train_body E replica_uuid total s i m) as [s1|e s1]; simpl in Hc.
    + destruct Hc as [[Hc _]|(_ & _ & _ & [e He])]; [|discriminate].
      specialize (IH s1 (S i)).
      eapply Forall_impl; [|exact IH]. simpl. intros st Hst. lia.
    + constructor; [|constructor].
      destruct Hc as [[Hc _]|(Hp & He & _)]; lia.
Qed.

(** The recorded states end with the state the loop ends in. *)
Lemma loop_states_last E replica_uuid total rows :
  forall s i d,
    last (loop_states E replica_uuid total s i rows) d
    = state_of (train_loop E replica_uuid total s i rows).
Proof.
  induction rows as [|m rows IH]; intros s i d; [reflexivity|].
  cbn [loop_states train_loop].
  destruct (train_body E replica_uuid total s i m) as [s1|e s1].
  - specialize (IH s1 (S i) d).
    destruct (loop_states E replica_uuid total s1 (S i) rows) eqn:Hl.
    + destruct rows; discriminate.
    + rewrite <- IH. reflexivity.
  - reflexivity.
Qed.

Lemma train_loop_table E replica_uuid total rows rid :
  forall s i,
    let s' := state_of (train_loop E replica_uuid total s i rows) in
    (Store.processed_flag (table s) rid = Some true ->
     Store.processed_flag (table s') rid = Some true) /\
    (~ In rid (map msg_id rows) ->
     Store.processed_flag (table s') rid = Store.processed_flag (table s) rid) /\
    map row_id (table s') = map row_id (table s).
Proof.
  induction rows as [|m rows IH]; intros s i; simpl.
  - auto.
  - pose proof (row_path_frame _ _ _ _ _ _ _ (train_body_path E replica_uuid total s i m))
      as (Ht & _ & _).
    assert (Hstep :
              (Store.processed_flag (table s) rid = Some true ->
               Store.processed_flag
                 (table (state_of (train_body E replica_uuid total s i m))) rid = Some true) /\
              (rid <> msg_id m ->
               Store.processed_flag
                 (table (state_of (train_body E replica_uuid total s i m))) rid
               = Store.processed_flag (table s) rid) /\
              map row_id (table (state_of (train_body E replica_uuid total s i m)))
              = map row_id (table s)).
    { destruct Ht as [-> | ->].
      - auto.
      - split; [apply StoreFacts.mark_processed_keeps_true|].
        split; [apply StoreFacts.mark_processed_other|].
        apply StoreFacts.mark_processed_ids. }
    destruct Hstep as (H1 & H2 & H3).
    destruct (train_body E replica_uuid total s i m) as [s1|e s1]; simpl in *.
    + destruct (IH s1 (S i)) as (I1 & I2 & I3).
      split; [auto|]. split; [|congruence].
      intros Hn. rewrite I2 by tauto. apply H2. intros ->. tauto.
    + split; [auto|]. split; [|auto].
      intros Hn. apply H2. intros ->. tauto.
Qed.


End TrainingFacts.

(** ** The claims about the training run *)

Module TrainingClaims.
Import Training TrainingFacts.

(** C1, evaluated on the code: with three pending rows and every create
    call, every fill call and every store update succeeding, the loop does
    not end with three processed rows.  The first row is trained and shows
    the live log.  The second row is trained, marked and counted too, and
    then the live log area, created a second time with the key it had in
    the first iteration, raises: the exception leaves the loop before the
    delay, the third row is never tried and keeps its flag, and the run
    ends at the store update of the second row, with no summary. *)
Theorem all_calls_succeed_run :
  let E := Samples.all_ok in
  (forall h c, create_succeeds (send E h c) = true /\ fill_succeeds (send E h c) = true) /\
  (forall h rid, update_raises E h rid = None) /\
  Store.fetch_unprocessed "U1" Samples.three_rows
  = [Samples.row1; Samples.row2; Samples.row3] /\
  exists s,
    start_training E Samples.replica Samples.three_rows []
    = Crashed (DuplicateElementKey "training_log_display_uuid-1") s /\
    processed_count s = 2%nat /\
    error_count s = 0%nat /\
    training_logs s = [trained_line Samples.row1 (JNum 7);
                       trained_line Samples.row2 (JNum 7)] /\
    map (fun r => (row_id r, processed_for_sensay r)) (table s)
    = [(1, true); (2, true); (4, false)] /\
    filter is_sleep (history s) = [EvSleep politeness_delay] /\
    last_n 2 (history s)
    = [EvHttp (fill_call E (Some "uuid-1") Samples.row2 (JNum 7));
       EvStoreUpdate "slack_messages_for_sensay" 2].
Proof.
  split; [intros; split; reflexivity|].
  split; [intros; reflexivity|].
  split; [vm_compute; reflexivity|].
  eexists. split; [vm_compute; reflexivity|].
  repeat split; vm_compute; reflexivity.
Qed.

(** C2: in every run of the loop, whatever the calls answer, processed
    count plus error count never exceeds the number of rows: not at the
    head of the loop, not in the state in which the loop ends, and so
    after any number of the rows; and when the loop completes the sum
    equals the number of rows.  An iteration that ends has added one to
    exactly one of the two counters.  An iteration that an exception
    leaves has either raised on a reply body that is not an object, before
    anything was counted, or raised at the live log area whose key was
    taken, after its row was counted once. *)
Theorem counts_invariant E replica_uuid t h rows :
  let total := List.length rows in
  let s0 := mkState 0 0 [] t h false in
  Forall (fun st => (processed_count st + error_count st <= total)%nat)
         (loop_states E replica_uuid total s0 0 rows) /\
  (forall done rest,
      rows = done ++ rest ->
      let st := state_of (train_loop E replica_uuid total s0 0 done) in
      (processed_count st + error_count st <= List.length done <= total)%nat) /\
  (forall s i m,
      match train_body E replica_uuid total s i m with
      | Next s' =>
          (processed_count s' = S (processed_count s) /\ error_count s' = error_count s) \/
          (processed_count s' = processed_count s /\ error_count s' = S (error_count s))
      | Uncaught e s' =>
          (e = AttributeError "get" /\
           processed_count s' = processed_count s /\ error_count s' = error_count s /\
           exists j,
             truthy j = true /\ py_get j "success" = None /\
             (http_success (create_outcome E replica_uuid total s i m) = Some j \/
              (create_succeeds (create_outcome E replica_uuid total s i m) = true /\
               http_success (fill_outcome E replica_uuid total s i m) = Some j))) \/
          (e = DuplicateElementKey (live_log_key replica_uuid) /\
           live_log_shown s = true /\
           create_succeeds (create_outcome E replica_uuid total s i m) = true /\
           ((processed_count s' = S (processed_count s) /\ error_count s' = error_count s) \/
            (processed_count s' = processed_count s /\ error_count s' = S (error_count s))))
      end) /\
  match train_loop E replica_uuid total s0 0 rows with
  | Next s => (processed_count s + error_count s = total)%nat
  | Uncaught _ s => (processed_count s + error_count s <= total)%nat
  end.
Proof.
  intros total s0. split; [|split; [|split]].
  - exact (loop_states_bound E replica_uuid total rows s0 0%nat).
  - intros done rest Hrows st. subst st total.
    pose proof (train_loop_counts E replica_uuid (List.length rows) done s0 0%nat) as H.
    rewrite Hrows at 3. rewrite length_app.
    destruct (train_loop E replica_uuid (List.length rows) s0 0 done);
      simpl in H |- *; lia.
  - intros s i m. exact (train_body_outcome E replica_uuid total s i m).
  - pose proof (train_loop_counts E replica_uuid total rows s0 0%nat) as H.
    destruct (train_loop E replica_uuid total s0 0 rows); simpl in H; [tauto|exact H].
Qed.

Lemma counts_invariant_witness :
  let E := Samples.all_ok in
  let s0 := mkState 0 0 [] Samples.two_rows [] false in
  (let st := state_of (train_loop E (Some "uuid-1") 2 s0 0 [Samples.row1]) in
   (processed_count st + error_count st <= 1 <= 2)%nat) /\
  match train_loop E (Some "uuid-1") 2 s0 0 [Samples.row1; Samples.row2] with
  | Next s => (processed_count s + error_count s = 2)%nat
  | Uncaught _ s => (processed_count s + error_count s <= 2)%nat
  end.
Proof.
  destruct (counts_invariant Samples.all_ok (Some "uuid-1") Samples.two_rows []
                             [Samples.row1; Samples.row2])
    as (_ & Hdone & _ & Hend).
  split; [exact (Hdone [Samples.row1] [Samples.row2] eq_refl)|exact Hend].
Defined.

(** C3, evaluated on the code: the delay is not waited after every row.
    With two pending rows whose create calls answer 500, or are
    acknowledged without an entry identifier, both rows are counted as
    errors, the run completes and it never sleeps: the [continue] of those
    two branches skips the [time.sleep(0.2)] at the end of the body. *)
Theorem create_failure_skips_delay :
  (start_training Samples.all_500 Samples.replica Samples.two_rows []
   = Completed (Samples.end_state Samples.all_500) /\
   error_count (Samples.end_state Samples.all_500) = 2%nat /\
   filter is_sleep (history (Samples.end_state Samples.all_500)) = []) /\
  (start_training Samples.no_entry_id Samples.replica Samples.two_rows []
   = Completed (Samples.end_state Samples.no_entry_id) /\
   error_count (Samples.end_state Samples.no_entry_id) = 2%nat /\
   filter is_sleep (history (Samples.end_state Samples.no_entry_id)) = []).
Proof. repeat split; vm_compute; reflexivity. Qed.

(** C5: when the create call of a row of the backlog fails (a network
    failure, a 4XX or 5XX status, or a body that is not JSON), the
    iteration of that row adds one to the error count and nothing to the
    processed count, logs the create failure, leaves the table as it was,
    and issues the create call and no other call, so no fill call; the
    loop goes on with the next row, and at the end of the loop the row's
    processed flag is still false. *)
Theorem create_failure_row E replica_uuid owner t h pre m post s1 :
  NoDup (map row_id t) ->
  Store.fetch_unprocessed owner t = pre ++ m :: post ->
  let total := List.length (pre ++ m :: post) in
  let s0 := mkState 0 0 [] t h false in
  let i := List.length pre in
  train_loop E replica_uuid total s0 0 pre = Next s1 ->
  http_success (create_outcome E replica_uuid total s1 i m) = None ->
  exists err s2,
    train_body E replica_uuid total s1 i m = Next s2 /\
    error_count s2 = S (error_count s1) /\
    processed_count s2 = processed_count s1 /\
    training_logs s2 = training_logs s1 ++ [create_failed_line m (JNull, Some err)] /\
    table s2 = table s1 /\
    history s2 = history s1
                 ++ [EvUi (UiProgress (i + 1) total (progress_text i total m));
                     EvHttp (create_call E replica_uuid)] /\
    call_verb (create_call E replica_uuid) = POST /\
    train_loop E replica_uuid total s0 0 (pre ++ m :: post)
    = train_loop E replica_uuid total s2 (S i) post /\
    Store.processed_flag
      (table (state_of (train_loop E replica_uuid total s0 0 (pre ++ m :: post))))
      (msg_id m) = Some false.
Proof.
  intros Hnd Hfetch total s0 i Hpre Hfail.
  destruct (row_create_error E replica_uuid total s1 i m Hfail) as [err Hbody].
  exists err. eexists. split; [exact Hbody|].
  assert (Hloop : train_loop E replica_uuid total s0 0 (pre ++ m :: post)
                  = train_loop E replica_uuid total
                               (log_error (create_failed_line m (JNull, Some err))
                                          (at_fill E replica_uuid total s1 i m))
                               (S i) post).
  { rewrite train_loop_app, Hpre. cbn [train_loop]. simpl Nat.add. fold i.
    rewrite Hbody. reflexivity. }
  repeat split; try reflexivity.
  - simpl. rewrite <- app_assoc. reflexivity.
  - exact Hloop.
  - rewrite Hloop.
    pose proof (StoreFacts.fetch_unprocessed_ids owner t Hnd) as Hids.
    rewrite Hfetch, map_app in Hids. simpl in Hids.
    apply NoDup_remove_2 in Hids.
    pose proof (train_loop_table E replica_uuid total post (msg_id m)
                  (log_error (create_failed_line m (JNull, Some err))
                             (at_fill E replica_uuid total s1 i m)) (S i))
      as (_ & Hpost & _).
    rewrite Hpost by (intros Hin; apply Hids; apply in_or_app; auto).
    simpl.
    pose proof (train_loop_table E replica_uuid total pre (msg_id m) s0 0%nat)
      as (_ & Hbefore & _).
    rewrite Hpre in Hbefore. simpl in Hbefore.
    rewrite Hbefore by (intros Hin; apply Hids; apply in_or_app; auto).
    apply (StoreFacts.fetch_unprocessed_flag owner t m Hnd).
    rewrite Hfetch. apply in_or_app. simpl. auto.
Qed.

Lemma create_failure_row_witness :
  let E := Samples.all_500 in
  let t := Samples.two_rows in
  let s0 := mkState 0 0 [] t [] false in
  NoDup (map row_id t) /\
  Store.fetch_unprocessed "U1" t = [] ++ Samples.row1 :: [Samples.row2] /\
  train_loop E (Some "uuid-1") 2 s0 0 [] = Next s0 /\
  http_success (create_outcome E (Some "uuid-1") 2 s0 0 Samples.row1) = None /\
  exists err s2,
    train_body E (Some "uuid-1") 2 s0 0 Samples.row1 = Next s2 /\
    error_count s2 = 1%nat /\
    processed_count s2 = 0%nat /\
    training_logs s2 = [create_failed_line Samples.row1 (JNull, Some err)] /\
    table s2 = t /\
    history s2 = [EvUi (UiProgress 1 2 (progress_text 0 2 Samples.row1));
                  EvHttp (create_call E (Some "uuid-1"))] /\
    call_verb (create_call E (Some "uuid-1")) = POST /\
    train_loop E (Some "uuid-1") 2 s0 0 [Samples.row1; Samples.row2]
    = train_loop E (Some "uuid-1") 2 s2 1 [Samples.row2] /\
    Store.processed_flag
      (table (state_of (train_loop E (Some "uuid-1") 2 s0 0 [Samples.row1; Samples.row2])))
      1 = Some false.
Proof.
  assert (Hnd : NoDup (map row_id Samples.two_rows)).
  { repeat constructor; simpl; intuition discriminate. }
  split; [exact Hnd|].
  split; [reflexivity|].
  split; [reflexivity|].
  split; [reflexivity|].
  exact (create_failure_row Samples.all_500 (Some "uuid-1") "U1" Samples.two_rows []
                            [] Samples.row1 [Samples.row2] _
                            Hnd eq_refl eq_refl eq_refl).
Defined.

(** C10, evaluated on the code: an HTTP success whose JSON body lacks a
    true [success] field is not always handled as a failed call.  When the
    body is a true value that is not an object (here the array [[1]]), the
    test [data.get("success")] raises AttributeError: no error line is
    logged and no error is counted, and the exception ends the whole run.
    This happens for the create call and, after a successful create, for
    the fill call. *)
Theorem non_object_body_is_not_counted :
  let body := JArr [JNum 1] in
  let s0 := Samples.fresh Samples.two_rows in
  truthy body = true /\
  py_get body "success" = None /\
  (http_success (create_outcome MoreSamples.array_body (Some "uuid-1") 2 s0 0 Samples.row1)
   = Some body /\
   exists s,
     train_body MoreSamples.array_body (Some "uuid-1") 2 s0 0 Samples.row1
     = Uncaught (AttributeError "get") s /\
     error_count s = 0%nat /\ processed_count s = 0%nat /\ training_logs s = [] /\
     filter is_http (history s)
     = [EvHttp (create_call MoreSamples.array_body (Some "uuid-1"))]) /\
  (create_succeeds
     (create_outcome MoreSamples.fill_array_body (Some "uuid-1") 2 s0 0 Samples.row1) = true /\
   http_success (fill_outcome MoreSamples.fill_array_body (Some "uuid-1") 2 s0 0 Samples.row1)
   = Some body /\
   exists s,
     train_body MoreSamples.fill_array_body (Some "uuid-1") 2 s0 0 Samples.row1
     = Uncaught (AttributeError "get") s /\
     error_count s = 0%nat /\ processed_count s = 0%nat /\ training_logs s = [] /\
     filter is_store_update (history s) = []) /\
  exists s,
    start_training MoreSamples.array_body Samples.replica Samples.two_rows []
    = Crashed (AttributeError "get") s /\
    error_count s = 0%nat /\ processed_count s = 0%nat /\ training_logs s = [] /\
    table s = Samples.two_rows.
Proof.
  split; [reflexivity|]. split; [reflexivity|].
  split; [split; [reflexivity|]|split; [split; [reflexivity|split; [reflexivity|]]|]];
    (eexists; split; [vm_compute; reflexivity|]; repeat split; reflexivity).
Qed.

(** C9, as stated, fails: the run over an empty backlog reports no
    counts.  With nothing pending for the owner, what the press of the
    button shows is the spinner text, the "no new messages" text and the
    two cleared placeholders; no text of the run has a number in it, so
    neither a processed count, nor an error count, nor a total of 0 is
    reported. *)
Lemma no_work_reports_no_counts :
  let o := start_training Samples.all_ok Samples.replica Samples.done_rows [] in
  Store.fetch_unprocessed "U1" Samples.done_rows = [] /\
  o = Stopped Samples.done_rows
              [EvUi UiNewLogArea;
               EvUi (UiProgress 0 1 [Lit "Initializing training..."]);
               EvUi (UiSpinner [Lit "Fetching unprocessed Slack messages for '";
                                FStr "U1"; Lit "' from Supabase..."]);
               EvStoreSelect "slack_messages_for_sensay" "U1";
               EvUi (UiInfo [Lit "✅ No new messages found in Supabase for user '";
                             FStr "U1"; Lit "' to train with."]);
               EvUi UiEmptyProgress;
               EvUi UiEmptyLogArea] /\
  existsb shows_number (final_history o) = false.
Proof. repeat split; vm_compute; reflexivity. Qed.

(** C9, amended: with an owner, a fetch that succeeds and an empty
    backlog, the run shows the text "No new messages found in Supabase for
    user '<owner>' to train with.", clears the progress bar and the log
    area and stops; it reports no count (no text it shows has a number in
    it), the table is unchanged, and after the fetch no call is made to
    the remote service or to the store. *)
Theorem empty_backlog_stops E r t h owner :
  owner_of r = Some owner ->
  select_raises E (h ++ [EvUi UiNewLogArea;
                         EvUi (UiProgress 0 1 [Lit "Initializing training..."]);
                         EvUi (UiSpinner [Lit "Fetching unprocessed Slack messages for '";
                                          FStr owner; Lit "' from Supabase..."])]) = None ->
  Store.fetch_unprocessed owner t = [] ->
  let o := start_training E r t h in
  let shown := [EvUi UiNewLogArea;
                EvUi (UiProgress 0 1 [Lit "Initializing training..."]);
                EvUi (UiSpinner [Lit "Fetching unprocessed Slack messages for '";
                                 FStr owner; Lit "' from Supabase..."]);
                EvStoreSelect (supabase_table_name E) owner;
                EvUi (UiInfo [Lit "✅ No new messages found in Supabase for user '";
                              FStr owner; Lit "' to train with."]);
                EvUi UiEmptyProgress;
                EvUi UiEmptyLogArea] in
  o = Stopped t (h ++ shown) /\
  existsb shows_number shown = false /\
  final_table o = t /\
  filter is_http (final_history o) = filter is_http h /\
  filter is_store_update (final_history o) = filter is_store_update h.
Proof.
  intros Ho Hs Hf o shown.
  assert (Heq : o = Stopped t (h ++ shown)).
  { subst o shown. unfold start_training. rewrite Ho. cbv zeta. rewrite Hs, Hf.
    rewrite <- !app_assoc. reflexivity. }
  rewrite Heq. subst shown. simpl.
  rewrite !filter_app. simpl. rewrite !app_nil_r. repeat split.
Qed.

Lemma empty_backlog_stops_witness :
  owner_of Samples.replica = Some "U1" /\
  Store.fetch_unprocessed "U1" Samples.done_rows = [] /\
  let o := start_training Samples.all_ok Samples.replica Samples.done_rows [] in
  let shown := [EvUi UiNewLogArea;
                EvUi (UiProgress 0 1 [Lit "Initializing training..."]);
                EvUi (UiSpinner [Lit "Fetching unprocessed Slack messages for '";
                                 FStr "U1"; Lit "' from Supabase..."]);
                EvStoreSelect "slack_messages_for_sensay" "U1";
                EvUi (UiInfo [Lit "✅ No new messages found in Supabase for user '";
                              FStr "U1"; Lit "' to train with."]);
                EvUi UiEmptyProgress;
                EvUi UiEmptyLogArea] in
  o = Stopped Samples.done_rows ([] ++ shown) /\
  existsb shows_number shown = false /\
  final_table o = Samples.done_rows /\
  filter is_http (final_history o) = [] /\
  filter is_store_update (final_history o) = [].
Proof.
  split; [reflexivity|]. split; [reflexivity|].
  exact (empty_backlog_stops Samples.all_ok Samples.replica Samples.done_rows [] "U1"
                             eq_refl eq_refl eq_refl).
Defined.




(** C7, as stated, fails: a store-call failure other than the missing
    owner does abort the batch.  When the initial select raises, the run
    shows the error and stops with both pending rows untouched: no row is
    tried, nothing is logged or counted. *)
Lemma fetch_failure_stops_run :
  List.length (Store.fetch_unprocessed "U1" Samples.two_rows) = 2%nat /\
  start_training Samples.fetch_fails Samples.replica Samples.two_rows []
  = Stopped Samples.two_rows
            [EvUi UiNewLogArea;
             EvUi (UiProgress 0 1 [Lit "Initializing training..."]);
             EvUi (UiSpinner [Lit "Fetching unprocessed Slack messages for '";
                              FStr "U1"; Lit "' from Supabase..."]);
             EvStoreSelect "slack_messages_for_sensay" "U1";
             EvUi (UiError (fetch_error_message (OtherException "connection refused")));
             EvUi UiEmptyProgress;
             EvUi UiEmptyLogArea].
Proof. split; vm_compute; reflexivity. Qed.

(** C7, amended: without an owner the press of the button shows the
    abort text and does nothing else, no fetch and no remote call.  A
    fetch that raises also stops the run, with an error text and before
    any remote call.  Past the fetch, a failed create call is turned into
    one more log line and one more error, and the loop goes on with the
    next row; a failed fill call or a failed mark-processed call is turned
    into one more log line and one more error for its row, the exception
    of the store being caught. *)
Theorem failures_stay_in_their_row E r t h :
  (owner_of r = None ->
   start_training E r t h
   = Aborted t (h ++ [EvUi (UiError [Lit "Cannot determine Slack User ID (ownerID) for this replica. Training aborted."])])) /\
  (forall owner e,
      owner_of r = Some owner ->
      let h1 := h ++ [EvUi UiNewLogArea;
                      EvUi (UiProgress 0 1 [Lit "Initializing training..."]);
                      EvUi (UiSpinner [Lit "Fetching unprocessed Slack messages for '";
                                       FStr owner; Lit "' from Supabase..."])] in
      select_raises E h1 = Some e ->
      start_training E r t h
      = Stopped t (h1 ++ [EvStoreSelect (supabase_table_name E) owner;
                          EvUi (UiError [Lit "Error fetching messages from Supabase: ";
                                         FExn e]);
                          EvUi UiEmptyProgress; EvUi UiEmptyLogArea])) /\
  (forall total s i m,
      http_success (create_outcome E (uuid r) total s i m) = None ->
      exists err s',
        train_body E (uuid r) total s i m = Next s' /\
        training_logs s'
        = training_logs s
          ++ [[Lit "❌ Failed to create Sensay KB entry for msg_ts "; FStr (msg_ts m);
               Lit ": "; FErr err]] /\
        error_count s' = S (error_count s) /\
        processed_count s' = processed_count s /\
        table s' = table s) /\
  (forall total s i m,
      create_succeeds (create_outcome E (uuid r) total s i m) = true ->
      let s' := state_of (train_body E (uuid r) total s i m) in
      let kb := entry_id (create_outcome E (uuid r) total s i m) in
      (http_success (fill_outcome E (uuid r) total s i m) = None ->
       exists err,
         training_logs s'
         = training_logs s
           ++ [[Lit "❌ Failed to add text to Sensay KB entry "; FJson kb; Lit " (msg_ts ";
                FStr (msg_ts m); Lit "): "; FErr err]] /\
         error_count s' = S (error_count s) /\
         processed_count s' = processed_count s /\
         table s' = table s) /\
      (forall e,
          fill_succeeds (fill_outcome E (uuid r) total s i m) = true ->
          mark_outcome E (uuid r) total s i m = Some e ->
          training_logs s'
          = training_logs s
            ++ [[Lit "⚠️ Trained Sensay with msg_ts "; FStr (msg_ts m);
                 Lit ", but FAILED to update Supabase: "; FExn e]] /\
          error_count s' = S (error_count s) /\
          processed_count s' = processed_count s /\
          table s' = table s)).
Proof.
  split; [|split; [|split]].
  - intros Ho. unfold start_training. rewrite Ho. reflexivity.
  - intros owner e Ho h1 Hs. unfold start_training. rewrite Ho. cbv zeta.
    fold h1. rewrite Hs. rewrite <- !app_assoc. reflexivity.
  - intros total s i m Hc.
    destruct (row_create_error E (uuid r) total s i m Hc) as [err ->].
    exists err. eexists. split; [reflexivity|]. simpl. auto.
  - intros total s i m Hc s' kb. split.
    + intros Hf. subst s'.
      destruct (row_fill_error E (uuid r) total s i m Hc Hf) as [err ->].
      exists err. end_of_row_cases_tac; simpl; auto.
    + intros e Hf Hm. subst s'.
      rewrite (row_store_failed E (uuid r) total s i m e Hc Hf Hm).
      end_of_row_cases_tac; simpl; auto.
Qed.

Lemma failures_stay_in_their_row_witness :
  start_training Samples.all_500 Samples.replica_without_owner Samples.two_rows []
  = Aborted Samples.two_rows
            [EvUi (UiError [Lit "Cannot determine Slack User ID (ownerID) for this replica. Training aborted."])] /\
  start_training Samples.fetch_fails Samples.replica Samples.two_rows []
  = Stopped Samples.two_rows
            [EvUi UiNewLogArea;
             EvUi (UiProgress 0 1 [Lit "Initializing training..."]);
             EvUi (UiSpinner [Lit "Fetching unprocessed Slack messages for '";
                              FStr "U1"; Lit "' from Supabase..."]);
             EvStoreSelect "slack_messages_for_sensay" "U1";
             EvUi (UiError (fetch_error_message (OtherException "connection refused")));
             EvUi UiEmptyProgress; EvUi UiEmptyLogArea] /\
  (exists err s',
      train_body Samples.all_500 (Some "uuid-1") 2 (Samples.fresh Samples.two_rows)
                 0 Samples.row1 = Next s' /\
      training_logs s' = [create_failed_line Samples.row1 (JNull, Some err)] /\
      error_count s' = 1%nat /\ processed_count s' = 0%nat /\
      table s' = Samples.two_rows) /\
  (let s' := state_of (train_body Samples.fill_500 (Some "uuid-1") 2
                                  (Samples.fresh Samples.two_rows) 0 Samples.row1) in
   exists err,
     training_logs s' = [fill_failed_line Samples.row1 (JNum 7) (JNull, Some err)] /\
     error_count s' = 1%nat /\ processed_count s' = 0%nat /\
     table s' = Samples.two_rows) /\
  (let s' := state_of (train_body MoreSamples.store_down (Some "uuid-1") 2
                                  (Samples.fresh Samples.two_rows) 0 Samples.row1) in
   training_logs s' = [store_failed_line Samples.row1 (OtherException "timeout")] /\
   error_count s' = 1%nat /\ processed_count s' = 0%nat /\
   table s' = Samples.two_rows).
Proof.
  split; [exact (proj1 (failures_stay_in_their_row
                          Samples.all_500 Samples.replica_without_owner
                          Samples.two_rows []) eq_refl)|].
  split; [exact (proj1 (proj2 (failures_stay_in_their_row
                                 Samples.fetch_fails Samples.replica Samples.two_rows []))
                       "U1" (OtherException "connection refused") eq_refl eq_refl)|].
  split; [exact (proj1 (proj2 (proj2 (failures_stay_in_their_row
                                        Samples.all_500 Samples.replica Samples.two_rows [])))
                       2%nat (Samples.fresh Samples.two_rows) 0%nat Samples.row1 eq_refl)|].
  split.
  - exact (proj1 (proj2 (proj2 (proj2 (failures_stay_in_their_row
                                         Samples.fill_500 Samples.replica Samples.two_rows [])))
                        2%nat (Samples.fresh Samples.two_rows) 0%nat Samples.row1 eq_refl)
                 eq_refl).
  - exact (proj2 (proj2 (proj2 (proj2 (failures_stay_in_their_row
                                         MoreSamples.store_down Samples.replica
                                         Samples.two_rows [])))
                        2%nat (Samples.fresh Samples.two_rows) 0%nat Samples.row1 eq_refl)
                 (OtherException "timeout") eq_refl eq_refl).
Defined.

End TrainingClaims.

(** * Further properties of the training run *)

Module TrainingMore.
Import Training TrainingFacts Trace.

(** With a supported verb, a request leaves the run with exactly one more
    event, the call, whatever the answer. *)
Lemma request_state E method endpoint json_data s v :
  Client.verb_of (upper method) = Some v ->
  snd (request E method endpoint json_data s)
  = emit [EvHttp (Client.build_call v (Lit SENSAY_API_BASE_URL :: endpoint) (headers E)
                                    json_data None)] s.
Proof.
  intros Hv. unfold request, Client.make_sensay_request, Client.try_block.
  rewrite Hv. cbv zeta. unfold headers.
  destruct (send E (history s) _) as [msg|msg|r]; simpl; try reflexivity.
  destruct (Client.raises_for_status r); simpl; [reflexivity|].
  destruct (resp_json r); reflexivity.
Qed.

Lemma create_result_state E replica_uuid total s i m :
  snd (create_result E replica_uuid total s i m) = at_fill E replica_uuid total s i m.
Proof. exact (request_state E "POST" _ _ _ POST eq_refl). Qed.

Lemma fill_result_state E replica_uuid m kb s1 :
  snd (fill_result E replica_uuid m kb s1)
  = emit [EvHttp (fill_call E replica_uuid m kb)] s1.
Proof. exact (request_state E "PUT" _ _ _ PUT eq_refl). Qed.



(** The events of one iteration: the progress update and the create
    call; then nothing more (the row stopped at its create call); or the
    fill call and possibly the store update, where an exception leaves;
    or the fill call, possibly the store update, the live log and the
    delay, which only an iteration that found the key of the live log
    free can reach. *)
Lemma train_body_trace E replica_uuid total s i m :
  let res := train_body E replica_uuid total s i m in
  let kb := entry_id (create_outcome E replica_uuid total s i m) in
  exists tail,
    history (state_of res)
    = history s
      ++ [EvUi (UiProgress (i + 1) total (progress_text i total m));
          EvHttp (create_call E replica_uuid)]
      ++ tail /\
    ((tail = [] /\ live_log_shown (state_of res) = live_log_shown s) \/
     ((exists e, res = Uncaught e (state_of res)) /\
      live_log_shown (state_of res) = live_log_shown s /\
      (tail = [EvHttp (fill_call E replica_uuid m kb)] \/
       tail = [EvHttp (fill_call E replica_uuid m kb);
               EvStoreUpdate (supabase_table_name E) (msg_id m)])) \/
     (live_log_shown s = false /\
      res = Next (state_of res) /\
      live_log_shown (state_of res) = true /\
      (tail = [EvHttp (fill_call E replica_uuid m kb);
               EvUi (UiTextArea "Training Log" (last_n 10 (training_logs (state_of res))));
               EvSleep politeness_delay] \/
       tail = [EvHttp (fill_call E replica_uuid m kb);
               EvStoreUpdate (supabase_table_name E) (msg_id m);
               EvUi (UiTextArea "Training Log" (last_n 10 (training_logs (state_of res))));
               EvSleep politeness_delay]))).
Proof.
  intros res kb. subst res kb.
  pose proof (row_by_answers E replica_uuid total s i m) as H.
  assert (Hstop : forall line,
             train_body E replica_uuid total s i m
             = Next (log_error line (at_fill E replica_uuid total s i m)) ->
             exists tail,
               history (state_of (train_body E replica_uuid total s i m))
               = history s
                 ++ [EvUi (UiProgress (i + 1) total (progress_text i total m));
                     EvHttp (create_call E replica_uuid)] ++ tail /\
               tail = [] /\
               live_log_shown (state_of (train_body E replica_uuid total s i m))
               = live_log_shown s).
  { intros line ->. exists []. simpl. rewrite <- app_assoc. auto. }
  assert (Hraise_create :
            train_body E replica_uuid total s i m
            = Uncaught (AttributeError "get") (at_fill E replica_uuid total s i m) ->
            exists tail,
              history (state_of (train_body E replica_uuid total s i m))
              = history s
                ++ [EvUi (UiProgress (i + 1) total (progress_text i total m));
                    EvHttp (create_call E replica_uuid)] ++ tail /\
              tail = [] /\
              live_log_shown (state_of (train_body E replica_uuid total s i m))
              = live_log_shown s).
  { intros ->. exists []. simpl. rewrite <- app_assoc. auto. }
  destruct (http_success (create_outcome E replica_uuid total s i m)) as [j|] eqn:Hc.
  2:{ destruct H as [err H]. destruct (Hstop _ H) as (tail & Hh & Ht & Hk).
      exists tail. auto. }
  destruct (lacks_success j).
  { destruct (Hstop _ H) as (tail & Hh & Ht & Hk). exists tail. auto. }
  destruct (negb (acknowledged j)).
  { destruct (Hraise_create H) as (tail & Hh & Ht & Hk). exists tail. auto. }
  destruct (negb (truthy (entry_id_of j))).
  { destruct (Hstop _ H) as (tail & Hh & Ht & Hk). exists tail. auto. }
  destruct H as [_ H].
  destruct (http_success (fill_outcome E replica_uuid total s i m)) as [j2|].
  - destruct (lacks_success j2).
    { rewrite H. end_of_row_cases_tac; simpl in *; eexists;
        (split; [rewrite <- !app_assoc; reflexivity|]); eauto 10. }
    destruct (negb (acknowledged j2)).
    { rewrite H. simpl. eexists.
      split; [rewrite <- !app_assoc; reflexivity|]. eauto 10. }
    destruct H as [_ H].
    destruct (mark_outcome E replica_uuid total s i m);
      rewrite H; end_of_row_cases_tac; simpl in *; eexists;
      (split; [rewrite <- !app_assoc; reflexivity|]); eauto 10.
  - destruct H as [err H].
    rewrite H. end_of_row_cases_tac; simpl in *; eexists;
      (split; [rewrite <- !app_assoc; reflexivity|]); eauto 10.
Qed.

(** A row whose iteration leaves the table as it was is still
    unprocessed when the loop ends, however it ends. *)
Lemma untouched_row_stays_unprocessed E replica_uuid owner t h pre m post s1 :
  NoDup (map row_id t) ->
  Store.fetch_unprocessed owner t = pre ++ m :: post ->
  let total := List.length (pre ++ m :: post) in
  let s0 := mkState 0 0 [] t h false in
  let i := List.length pre in
  train_loop E replica_uuid total s0 0 pre = Next s1 ->
  table (state_of (train_body E replica_uuid total s1 i m)) = table s1 ->
  Store.processed_flag
    (table (state_of (train_loop E replica_uuid total s0 0 (pre ++ m :: post))))
    (msg_id m) = Some false.
Proof.
  intros Hnd Hfetch total s0 i Hpre Htable.
  pose proof (StoreFacts.fetch_unprocessed_ids owner t Hnd) as Hids.
  rewrite Hfetch, map_app in Hids. simpl in Hids.
  apply NoDup_remove_2 in Hids.
  assert (Hs1 : Store.processed_flag (table s1) (msg_id m) = Some false).
  { pose proof (train_loop_table E replica_uuid total pre (msg_id m) s0 0%nat)
      as (_ & Hbefore & _).
    rewrite Hpre in Hbefore. simpl in Hbefore.
    rewrite Hbefore by (intros Hin; apply Hids; apply in_or_app; auto).
    apply (StoreFacts.fetch_unprocessed_flag owner t m Hnd).
    rewrite Hfetch. apply in_or_app. simpl. auto. }
  rewrite train_loop_app, Hpre. cbn [train_loop]. simpl Nat.add. fold i.
  destruct (train_body E replica_uuid total s1 i m) as [s2|e s2]; simpl in Htable.
  - pose proof (train_loop_table E replica_uuid total post (msg_id m) s2 (S i))
      as (_ & Hpost & _).
    rewrite Hpost by (intros Hin; apply Hids; apply in_or_app; auto).
    rewrite Htable. exact Hs1.
  - simpl. rewrite Htable. exact Hs1.
Qed.

(** X2: when the create call of a row succeeds and its fill call fails
    (network failure, 4XX or 5XX status, body that is not JSON), the
    iteration counts one error and no processed row, logs the fill
    failure with the entry identifier and issues no store update.  If no
    earlier row of the run has shown the live log, it then shows the live
    log and waits the delay; otherwise the live log area raises on its
    key, and the exception leaves the loop without the delay.  Either way
    the row's processed flag is still false when the loop ends. *)
Theorem fill_failure_row E replica_uuid owner t h pre m post s1 :
  NoDup (map row_id t) ->
  Store.fetch_unprocessed owner t = pre ++ m :: post ->
  let total := List.length (pre ++ m :: post) in
  let s0 := mkState 0 0 [] t h false in
  let i := List.length pre in
  let kb := entry_id (create_outcome E replica_uuid total s1 i m) in
  train_loop E replica_uuid total s0 0 pre = Next s1 ->
  create_succeeds (create_outcome E replica_uuid total s1 i m) = true ->
  http_success (fill_outcome E replica_uuid total s1 i m) = None ->
  let res := train_body E replica_uuid total s1 i m in
  let s2 := state_of res in
  exists err,
    error_count s2 = S (error_count s1) /\
    processed_count s2 = processed_count s1 /\
    training_logs s2 = training_logs s1 ++ [fill_failed_line m kb (JNull, Some err)] /\
    table s2 = table s1 /\
    (if live_log_shown s1
     then res = Uncaught (DuplicateElementKey (live_log_key replica_uuid)) s2 /\
          history s2 = history s1
                       ++ [EvUi (UiProgress (i + 1) total (progress_text i total m));
                           EvHttp (create_call E replica_uuid);
                           EvHttp (fill_call E replica_uuid m kb)]
     else res = Next s2 /\
          history s2 = history s1
                       ++ [EvUi (UiProgress (i + 1) total (progress_text i total m));
                           EvHttp (create_call E replica_uuid);
                           EvHttp (fill_call E replica_uuid m kb);
                           EvUi (UiTextArea "Training Log" (last_n 10 (training_logs s2)));
                           EvSleep politeness_delay]) /\
    Store.processed_flag
      (table (state_of (train_loop E replica_uuid total s0 0 (pre ++ m :: post))))
      (msg_id m) = Some false.
Proof.
  intros Hnd Hfetch total s0 i kb Hpre Hc Hf res s2.
  destruct (row_fill_error E replica_uuid total s1 i m Hc Hf) as [err Hbody].
  assert (Htable : table s2 = table s1).
  { subst s2 res. rewrite Hbody. end_of_row_cases_tac; reflexivity. }
  exists err.
  split; [subst s2 res; rewrite Hbody; end_of_row_cases_tac; reflexivity|].
  split; [subst s2 res; rewrite Hbody; end_of_row_cases_tac; reflexivity|].
  split; [subst s2 res; rewrite Hbody; end_of_row_cases_tac; reflexivity|].
  split; [exact Htable|].
  split.
  - subst s2 res. rewrite Hbody.
    end_of_row_cases_tac; simpl in Hkey; rewrite Hkey; simpl;
      rewrite <- !app_assoc; split; reflexivity.
  - eapply untouched_row_stays_unprocessed; eauto.
Qed.

Lemma fill_failure_row_witness :
  let E := Samples.fill_500 in
  let t := Samples.two_rows in
  let s0 := mkState 0 0 [] t [] false in
  let res := train_body E (Some "uuid-1") 2 s0 0 Samples.row1 in
  let s2 := state_of res in
  NoDup (map row_id t) /\
  Store.fetch_unprocessed "U1" t = [] ++ Samples.row1 :: [Samples.row2] /\
  create_succeeds (create_outcome E (Some "uuid-1") 2 s0 0 Samples.row1) = true /\
  http_success (fill_outcome E (Some "uuid-1") 2 s0 0 Samples.row1) = None /\
  exists err,
    error_count s2 = 1%nat /\
    processed_count s2 = 0%nat /\
    training_logs s2 = [fill_failed_line Samples.row1 (JNum 7) (JNull, Some err)] /\
    table s2 = t /\
    (res = Next s2 /\
     history s2 = [EvUi (UiProgress 1 2 (progress_text 0 2 Samples.row1));
                   EvHttp (create_call E (Some "uuid-1"));
                   EvHttp (fill_call E (Some "uuid-1") Samples.row1 (JNum 7));
                   EvUi (UiTextArea "Training Log" (last_n 10 (training_logs s2)));
                   EvSleep politeness_delay]) /\
    Store.processed_flag
      (table (state_of (train_loop E (Some "uuid-1") 2 s0 0 [Samples.row1; Samples.row2])))
      1 = Some false.
Proof.
  assert (Hnd : NoDup (map row_id Samples.two_rows)).
  { repeat constructor; simpl; intuition discriminate. }
  split; [exact Hnd|].
  split; [reflexivity|]. split; [reflexivity|]. split; [reflexivity|].
  exact (fill_failure_row Samples.fill_500 (Some "uuid-1") "U1" Samples.two_rows []
                          [] Samples.row1 [Samples.row2] _
                          Hnd eq_refl eq_refl eq_refl eq_refl).
Defined.

(** X3: when both remote calls of a row succeed and the store update
    raises, the exception is caught: the row is counted as an error and
    not as processed, the table is as it was, and the log gets the warning
    line with the exception, after the create call, the fill call and the
    attempted store update.  If no earlier row of the run has shown the
    live log, the iteration then shows it and waits the delay; otherwise
    the live log area raises on its key and the exception leaves the loop
    without the delay. *)
Theorem store_failure_row E replica_uuid total s i m e :
  create_succeeds (create_outcome E replica_uuid total s i m) = true ->
  fill_succeeds (fill_outcome E replica_uuid total s i m) = true ->
  mark_outcome E replica_uuid total s i m = Some e ->
  let kb := entry_id (create_outcome E replica_uuid total s i m) in
  let res := train_body E replica_uuid total s i m in
  let s' := state_of res in
  error_count s' = S (error_count s) /\
  processed_count s' = processed_count s /\
  training_logs s' = training_logs s ++ [store_failed_line m e] /\
  table s' = table s /\
  if live_log_shown s
  then res = Uncaught (DuplicateElementKey (live_log_key replica_uuid)) s' /\
       history s' = history s
                    ++ [EvUi (UiProgress (i + 1) total (progress_text i total m));
                        EvHttp (create_call E replica_uuid);
                        EvHttp (fill_call E replica_uuid m kb);
                        EvStoreUpdate (supabase_table_name E) (msg_id m)]
  else res = Next s' /\
       history s' = history s
                    ++ [EvUi (UiProgress (i + 1) total (progress_text i total m));
                        EvHttp (create_call E replica_uuid);
                        EvHttp (fill_call E replica_uuid m kb);
                        EvStoreUpdate (supabase_table_name E) (msg_id m);
                        EvUi (UiTextArea "Training Log" (last_n 10 (training_logs s')));
                        EvSleep politeness_delay].
Proof.
  intros Hc Hf Hm kb res s'. subst s' res.
  rewrite (row_store_failed E replica_uuid total s i m e Hc Hf Hm).
  end_of_row_cases_tac; simpl in Hkey; rewrite Hkey; simpl;
    rewrite <- !app_assoc; repeat split; reflexivity.
Qed.

Lemma store_failure_row_witness :
  let E := MoreSamples.store_down in
  let s := Samples.fresh Samples.two_rows in
  let res := train_body E (Some "uuid-1") 2 s 0 Samples.row1 in
  let s' := state_of res in
  mark_outcome E (Some "uuid-1") 2 s 0 Samples.row1 = Some (OtherException "timeout") /\
  error_count s' = 1%nat /\
  processed_count s' = 0%nat /\
  training_logs s' = [store_failed_line Samples.row1 (OtherException "timeout")] /\
  table s' = Samples.two_rows /\
  res = Next s' /\
  history s' = [EvUi (UiProgress 1 2 (progress_text 0 2 Samples.row1));
                EvHttp (create_call E (Some "uuid-1"));
                EvHttp (fill_call E (Some "uuid-1") Samples.row1 (JNum 7));
                EvStoreUpdate "slack_messages_for_sensay" 1;
                EvUi (UiTextArea "Training Log" (last_n 10 (training_logs s')));
                EvSleep politeness_delay].
Proof.
  split; [reflexivity|].
  exact (store_failure_row MoreSamples.store_down (Some "uuid-1") 2
                           (Samples.fresh Samples.two_rows) 0 Samples.row1
                           (OtherException "timeout") eq_refl eq_refl eq_refl).
Defined.

(** X4: when the create call is acknowledged but its body has no entry
    identifier (absent, null, empty or zero), the row is counted as an
    error with its own log line; no fill call and no store update are
    issued, the live log is not refreshed and no delay is waited; the
    row's processed flag is still false when the loop ends. *)
Theorem missing_entry_id_row E replica_uuid owner t h pre m post s1 j :
  NoDup (map row_id t) ->
  Store.fetch_unprocessed owner t = pre ++ m :: post ->
  let total := List.length (pre ++ m :: post) in
  let s0 := mkState 0 0 [] t h false in
  let i := List.length pre in
  train_loop E replica_uuid total s0 0 pre = Next s1 ->
  http_success (create_outcome E replica_uuid total s1 i m) = Some j ->
  acknowledged j = true ->
  truthy (entry_id_of j) = false ->
  exists s2,
    train_body E replica_uuid total s1 i m = Next s2 /\
    error_count s2 = S (error_count s1) /\
    processed_count s2 = processed_count s1 /\
    training_logs s2 = training_logs s1 ++ [missing_kb_line m] /\
    table s2 = table s1 /\
    history s2 = history s1
                 ++ [EvUi (UiProgress (i + 1) total (progress_text i total m));
                     EvHttp (create_call E replica_uuid)] /\
    Store.processed_flag
      (table (state_of (train_loop E replica_uuid total s0 0 (pre ++ m :: post))))
      (msg_id m) = Some false.
Proof.
  intros Hnd Hfetch total s0 i Hpre Hc Ha Hk.
  pose proof (row_missing_kb E replica_uuid total s1 i m j Hc Ha Hk) as Hbody.
  eexists. split; [exact Hbody|].
  split; [reflexivity|]. split; [reflexivity|]. split; [reflexivity|].
  split; [reflexivity|].
  split; [simpl; rewrite <- !app_assoc; reflexivity|].
  eapply untouched_row_stays_unprocessed; eauto.
  fold total. fold i. rewrite Hbody. reflexivity.
Qed.

Lemma missing_entry_id_row_witness :
  let E := Samples.no_entry_id in
  let t := Samples.two_rows in
  let s0 := mkState 0 0 [] t [] false in
  let j := JObj [("success", JBool true)] in
  NoDup (map row_id t) /\
  http_success (create_outcome E (Some "uuid-1") 2 s0 0 Samples.row1) = Some j /\
  acknowledged j = true /\
  truthy (entry_id_of j) = false /\
  exists s2,
    train_body E (Some "uuid-1") 2 s0 0 Samples.row1 = Next s2 /\
    error_count s2 = 1%nat /\
    training_logs s2 = [missing_kb_line Samples.row1] /\
    Store.processed_flag
      (table (state_of (train_loop E (Some "uuid-1") 2 s0 0 [Samples.row1; Samples.row2])))
      1 = Some false.
Proof.
  assert (Hnd : NoDup (map row_id Samples.two_rows)).
  { repeat constructor; simpl; intuition discriminate. }
  split; [exact Hnd|].
  split; [reflexivity|]. split; [reflexivity|]. split; [reflexivity|].
  destruct (missing_entry_id_row Samples.no_entry_id (Some "uuid-1") "U1" Samples.two_rows []
                                 [] Samples.row1 [Samples.row2] _
                                 (JObj [("success", JBool true)])
                                 Hnd eq_refl eq_refl eq_refl eq_refl eq_refl)
    as (s2 & H1 & H2 & _ & H4 & _ & _ & H7).
  exists s2. auto.
Defined.

(** *** An exception leaves the loop *)

(** X5: a create call answered with an HTTP success whose body is a true
    value that is not an object (an array, a number, a string, [true])
    ends the whole run with an uncaught AttributeError: the row is neither
    counted nor logged, the rows after it are never tried, no summary is
    shown, and the rows marked before keep their flag. *)
Theorem non_object_body_ends_run E r t h owner pre m post s1 j :
  owner_of r = Some owner ->
  let h1 := h ++ [EvUi UiNewLogArea;
                  EvUi (UiProgress 0 1 [Lit "Initializing training..."]);
                  EvUi (UiSpinner [Lit "Fetching unprocessed Slack messages for '";
                                   FStr owner; Lit "' from Supabase..."])] in
  select_raises E h1 = None ->
  Store.fetch_unprocessed owner t = pre ++ m :: post ->
  let total := List.length (pre ++ m :: post) in
  let s0 := mkState 0 0 [] t
                    ((h1 ++ [EvStoreSelect (supabase_table_name E) owner])
                     ++ [EvUi (UiSuccess (found_message total))])
                    false in
  let i := List.length pre in
  train_loop E (uuid r) total s0 0 pre = Next s1 ->
  http_success (create_outcome E (uuid r) total s1 i m) = Some j ->
  truthy j = true ->
  py_get j "success" = None ->
  exists s2,
    start_training E r t h = Crashed (AttributeError "get") s2 /\
    (processed_count s2 + error_count s2 = List.length pre)%nat /\
    List.length (training_logs s2) = List.length pre /\
    table s2 = table s1 /\
    history s2 = history s1
                 ++ [EvUi (UiProgress (i + 1) total (progress_text i total m));
                     EvHttp (create_call E (uuid r))].
Proof.
  intros Ho h1 Hs Hfetch total s0 i Hpre Hc Ht Hg.
  exists (at_fill E (uuid r) total s1 i m).
  split.
  - unfold start_training. rewrite Ho. cbv zeta. fold h1. rewrite Hs, Hfetch.
    fold total. fold s0.
    rewrite train_loop_app, Hpre. cbn [train_loop]. simpl Nat.add. fold i.
    rewrite (row_create_check_raises E (uuid r) total s1 i m j Hc Ht Hg).
    destruct pre; reflexivity.
  - pose proof (train_loop_counts E (uuid r) total pre s0 0%nat) as Hcnt.
    rewrite Hpre in Hcnt. simpl in Hcnt |- *.
    rewrite <- app_assoc. simpl. repeat split; try tauto.
Qed.

Lemma non_object_body_ends_run_witness :
  let E := MoreSamples.array_body in
  let total := 2%nat in
  let s0 := mkState 0 0 [] Samples.two_rows
                    (([] ++ [EvUi UiNewLogArea;
                             EvUi (UiProgress 0 1 [Lit "Initializing training..."]);
                             EvUi (UiSpinner [Lit "Fetching unprocessed Slack messages for '";
                                              FStr "U1"; Lit "' from Supabase..."])]
                      ++ [EvStoreSelect (supabase_table_name E) "U1"])
                     ++ [EvUi (UiSuccess (found_message total))])
                    false in
  http_success (create_outcome E (Some "uuid-1") total s0 0 Samples.row1)
  = Some (JArr [JNum 1]) /\
  exists s2,
    start_training E Samples.replica Samples.two_rows []
    = Crashed (AttributeError "get") s2 /\
    (processed_count s2 + error_count s2 = 0)%nat /\
    training_logs s2 = [] /\
    table s2 = Samples.two_rows.
Proof.
  split; [reflexivity|].
  destruct (non_object_body_ends_run
              MoreSamples.array_body Samples.replica Samples.two_rows [] "U1"
              [] Samples.row1 [Samples.row2] _ (JArr [JNum 1])
              eq_refl eq_refl eq_refl eq_refl eq_refl eq_refl eq_refl)
    as (s2 & H1 & H2 & H3 & H4 & _).
  exists s2. split; [exact H1|]. split; [exact H2|].
  split; [|exact H4].
  destruct (training_logs s2); [reflexivity|discriminate H3].
Defined.

(** *** Counting the calls of a run *)

Ltac known_states :=
  repeat match goal with
         | H : create_result ?E ?u ?t ?s ?i ?m = (_, ?s1) |- _ =>
             let Hs := fresh "Hs" in
             pose proof (create_result_state E u t s i m) as Hs;
             rewrite H in Hs; simpl in Hs; subst s1
         | H : fill_result ?E ?u ?m ?kb ?s1 = (_, ?s2) |- _ =>
             let Hs := fresh "Hs" in
             pose proof (fill_result_state E u m kb s1) as Hs;
             rewrite H in Hs; simpl in Hs; subst s2
         | H : update_store _ _ _ = (_, _) |- _ =>
             apply update_store_frame in H;
             destruct H as (_ & ? & ? & ? & ? & ? & ?)
         end.

(** An iteration that ended normally after the live log found its key
    free. *)
Ltac shown_row :=
  try match goal with
      | Heq : end_of_row ?u ?x = Next _ |- _ =>
          let Hr := fresh "Hrow" in
          destruct (end_of_row_cases u x) as [[_ Hr]|[_ Hr]];
          rewrite Hr in Heq; [discriminate|injection Heq as <-]
      end.

Lemma train_body_counts E replica_uuid total s i m s' :
  train_body E replica_uuid total s i m = Next s' ->
  (count is_post (history s') = S (count is_post (history s)) /\
   count is_put (history s') + count is_sleep (history s)
   = count is_sleep (history s') + count is_put (history s) /\
   count is_put (history s') <= S (count is_put (history s)) /\
   count is_store_update (history s') + count is_put (history s)
   <= count is_put (history s') + count is_store_update (history s) /\
   processed_count s' + count is_store_update (history s)
   <= processed_count s + count is_store_update (history s'))%nat.
Proof.
  intros Hb.
  pose proof (train_body_path E replica_uuid total s i m) as H.
  rewrite Hb in H.
  inversion H; subst; clear H; shown_row; known_states; simpl; rewrite_states; simpl;
    unfold count; rewrite ?filter_app, ?length_app; simpl; lia.
Qed.

(** X6: in a loop that completes, one create call is issued per row; the
    delay is waited exactly as many times as a fill call is issued, so not
    after the rows that stop at their create call; there are no more fill
    calls than rows, no more store updates than fill calls, and no more
    processed rows than store updates. *)
Theorem calls_of_a_completed_loop E replica_uuid total rows :
  forall s i s',
    train_loop E replica_uuid total s i rows = Next s' ->
    (count is_post (history s') = count is_post (history s) + List.length rows /\
     count is_sleep (history s') + count is_put (history s)
     = count is_put (history s') + count is_sleep (history s) /\
     count is_put (history s') <= count is_put (history s) + List.length rows /\
     count is_store_update (history s') + count is_put (history s)
     <= count is_put (history s') + count is_store_update (history s) /\
     processed_count s' + count is_store_update (history s)
     <= processed_count s + count is_store_update (history s'))%nat.
Proof.
  induction rows as [|m rows IH]; intros s i s' Hrun; simpl in Hrun.
  - inversion Hrun; subst. simpl. lia.
  - destruct (train_body E replica_uuid total s i m) as [s1|e s1] eqn:Hb; [|discriminate].
    pose proof (train_body_counts E replica_uuid total s i m s1 Hb) as H1.
    pose proof (IH s1 (S i) s' Hrun) as H2.
    simpl. lia.
Qed.

Lemma calls_of_a_completed_loop_witness :
  let E := Samples.second_create_500 in
  let s := Samples.fresh Samples.two_rows in
  let rows := [Samples.row1; Samples.row2] in
  exists s',
    train_loop E (Some "uuid-1") 2 s 0 rows = Next s' /\
    processed_count s' = 1%nat /\
    (count is_post (history s') = count is_post (history s) + List.length rows /\
     count is_sleep (history s') + count is_put (history s)
     = count is_put (history s') + count is_sleep (history s) /\
     count is_put (history s') <= count is_put (history s) + List.length rows /\
     count is_store_update (history s') + count is_put (history s)
     <= count is_put (history s') + count is_store_update (history s) /\
     processed_count s' + count is_store_update (history s)
     <= processed_count s + count is_store_update (history s'))%nat.
Proof.
  eexists. split; [vm_compute; reflexivity|].
  split; [reflexivity|].
  apply (calls_of_a_completed_loop
           Samples.second_create_500 (Some "uuid-1") 2
           [Samples.row1; Samples.row2] (Samples.fresh Samples.two_rows) 0).
  vm_compute. reflexivity.
Defined.

(** *** The run touches only the backlog *)

Lemma changed_after_mark rid ids t :
  forall t',
    Forall2 (fun a b => b = a \/ (b = Store.set_processed a /\ In (row_id a) ids))
            (Store.mark_processed rid t) t' ->
    Forall2 (fun a b => b = a \/ (b = Store.set_processed a /\ In (row_id a) (rid :: ids)))
            t t'.
Proof.
  induction t as [|a t IH]; intros t' H; simpl in H.
  - inversion H. constructor.
  - inversion H as [|a1 b l l' Hab Hrest]; subst. constructor; [|apply IH; exact Hrest].
    destruct (row_id a =? rid) eqn:Hid.
    + apply Z.eqb_eq in Hid. right. split; [|simpl; auto].
      destruct Hab as [->|[-> _]]; reflexivity.
    + destruct Hab as [->|[-> Hin]]; [left; reflexivity|].
      right. split; [reflexivity|simpl; auto].
Qed.

Lemma changed_weaken ids ids' t t' :
  (forall x, In x ids -> In x ids') ->
  Forall2 (fun a b => b = a \/ (b = Store.set_processed a /\ In (row_id a) ids)) t t' ->
  Forall2 (fun a b => b = a \/ (b = Store.set_processed a /\ In (row_id a) ids')) t t'.
Proof.
  intros Hsub H. induction H; constructor; auto.
  destruct H as [->|[-> Hin]]; auto.
Qed.

Lemma unchanged_table (ids : list Z) (t : Table) :
  Forall2 (fun a b => b = a \/ (b = Store.set_processed a /\ In (row_id a) ids)) t t.
Proof. induction t; constructor; auto. Qed.

Lemma train_loop_changes E replica_uuid total rows :
  forall s i,
    Forall2 (fun a b => b = a \/
                        (b = Store.set_processed a /\ In (row_id a) (map msg_id rows)))
            (table s)
            (table (state_of (train_loop E replica_uuid total s i rows))).
Proof.
  induction rows as [|m rows IH]; intros s i.
  - apply (unchanged_table (map msg_id []) (table s)).
  - cbn [train_loop map].
    pose proof (row_path_frame _ _ _ _ _ _ _ (train_body_path E replica_uuid total s i m))
      as (Ht & _ & _).
    destruct (train_body E replica_uuid total s i m) as [s1|e s1]; cbn [state_of] in Ht |- *.
    + specialize (IH s1 (S i)).
      destruct Ht as [Ht|Ht]; rewrite Ht in IH.
      * eapply changed_weaken; [|exact IH]. simpl. auto.
      * apply changed_after_mark. exact IH.
    + destruct Ht as [->| ->].
      * apply unchanged_table.
      * apply changed_after_mark. apply unchanged_table.
Qed.

Lemma Forall2_impl_in {A B : Type} (R R' : A -> B -> Prop) l l' :
  (forall a b, In a l -> R a b -> R' a b) ->
  Forall2 R l l' -> Forall2 R' l l'.
Proof.
  intros Himp H. induction H; constructor.
  - apply Himp; simpl; auto.
  - apply IHForall2. intros a b Hin. apply Himp. simpl. auto.
Qed.

Lemma NoDup_map_injective {A B : Type} (f : A -> B) l x y :
  NoDup (map f l) -> In x l -> In y l -> f x = f y -> x = y.
Proof.
  induction l as [|a l IH]; simpl; [contradiction|].
  intros Hnd Hx Hy Hf. inversion Hnd as [|? ? Ha Hnd']; subst.
  destruct Hx as [->|Hx]; destruct Hy as [->|Hy]; auto.
  - exfalso. apply Ha. rewrite Hf. apply in_map. exact Hy.
  - exfalso. apply Ha. rewrite <- Hf. apply in_map. exact Hx.
Qed.

(** X7: in a table whose identifiers are unique, a press of the training
    button changes nothing but the processed flag of rows that belong to
    the replica's owner and were unprocessed: every other row, and the
    content, timestamps, owner, identifier, order and number of all rows,
    stay as they were, however the run ends. *)
Theorem only_backlog_rows_change E r t h :
  NoDup (map row_id t) ->
  Forall2 (fun a b =>
             b = a \/
             (b = Store.set_processed a /\
              owner_of r = Some (slack_user_id a) /\
              processed_for_sensay a = false))
          t (final_table (start_training E r t h)).
Proof.
  intros Hnd.
  assert (Hsame : forall ids : list Z,
             Forall2 (fun a b =>
                        b = a \/
                        (b = Store.set_processed a /\
                         owner_of r = Some (slack_user_id a) /\
                         processed_for_sensay a = false)) t t).
  { intros _. induction t; constructor; auto.
    apply IHt. inversion Hnd; assumption. }
  unfold start_training.
  destruct (owner_of r) as [owner|]; [|exact (Hsame [])].
  cbv zeta.
  destruct (select_raises E _); [exact (Hsame [])|].
  destruct (Store.fetch_unprocessed owner t) as [|m rows] eqn:Hrows; [exact (Hsame [])|].
  match goal with
  | |- context [train_loop E (uuid r) ?n ?s0 0 (m :: rows)] =>
      pose proof (train_loop_changes E (uuid r) n (m :: rows) s0 0%nat) as Hch;
      destruct (train_loop E (uuid r) n s0 0 (m :: rows)) as [sl|e sl]
  end; cbn [state_of final_table report emit table] in Hch |- *;
    (eapply Forall2_impl_in; [|exact Hch]);
    intros a b Hin [->|[-> Hid]]; auto; right; (split; [reflexivity|]);
    rewrite <- Hrows in Hid;
    apply in_map_iff in Hid; destruct Hid as [m' [Hm' Hfetched]];
    destruct (StoreFacts.fetch_unprocessed_in _ _ _ Hfetched) as [r0 [Hr0 [Hmsg Hb]]];
    assert (r0 = a)
      by (apply (NoDup_map_injective row_id t r0 a Hnd Hr0 Hin);
          rewrite <- Hm', <- Hmsg; reflexivity);
    subst r0; unfold Store.in_backlog in Hb;
    apply andb_true_iff in Hb; destruct Hb as [Ho Hp];
    apply String.eqb_eq in Ho; apply negb_true_iff in Hp;
    rewrite Ho; auto.
Qed.

Lemma only_backlog_rows_change_witness :
  NoDup (map row_id Samples.two_rows) /\
  Forall2 (fun a b =>
             b = a \/
             (b = Store.set_processed a /\
              owner_of Samples.replica = Some (slack_user_id a) /\
              processed_for_sensay a = false))
          Samples.two_rows
          (final_table (start_training Samples.all_ok Samples.replica Samples.two_rows [])).
Proof.
  assert (Hnd : NoDup (map row_id Samples.two_rows)).
  { repeat constructor; simpl; intuition discriminate. }
  split; [exact Hnd|].
  exact (only_backlog_rows_change Samples.all_ok Samples.replica Samples.two_rows [] Hnd).
Defined.

(** *** Progress and the live log *)

Lemma train_body_progress E replica_uuid total s i m :
  filter is_progress (history (state_of (train_body E replica_uuid total s i m)))
  = filter is_progress (history s)
    ++ [EvUi (UiProgress (i + 1) total (progress_text i total m))].
Proof.
  destruct (train_body_trace E replica_uuid total s i m) as [tail [Hh Htail]].
  rewrite Hh, !filter_app.
  assert (Ht : filter is_progress tail = []).
  { destruct Htail as [[-> _]|[(_ & _ & [->| ->])|(_ & _ & _ & [->| ->])]];
      reflexivity. }
  rewrite Ht. simpl. rewrite ?app_nil_r. reflexivity.
Qed.

Lemma enumerate_from_bounds {A : Type} (l : list A) :
  forall i k,
    Forall (fun p => (i <= fst p < i + List.length l)%nat) (firstn k (enumerate_from i l)).
Proof.
  induction l as [|x l IH]; intros i k; simpl.
  - rewrite firstn_nil. constructor.
  - destruct k; simpl; constructor; [simpl; lia|].
    eapply Forall_impl; [|apply (IH (S i) k)]. simpl. intros p Hp. lia.
Qed.

Lemma train_loop_progress E replica_uuid total rows :
  forall s i,
  exists k,
    (k <= List.length rows)%nat /\
    filter is_progress (history (state_of (train_loop E replica_uuid total s i rows)))
    = filter is_progress (history s)
      ++ map (fun p => EvUi (UiProgress (fst p + 1) total
                                        (progress_text (fst p) total (snd p))))
             (firstn k (enumerate_from i rows)) /\
    (forall s', train_loop E replica_uuid total s i rows = Next s' ->
                k = List.length rows).
Proof.
  induction rows as [|m rows IH]; intros s i.
  - exists 0%nat. simpl. rewrite app_nil_r. auto.
  - cbn [train_loop].
    pose proof (train_body_progress E replica_uuid total s i m) as Hb.
    destruct (train_body E replica_uuid total s i m) as [s1|e s1]; cbn [state_of] in Hb.
    + destruct (IH s1 (S i)) as (k & Hk & Hp & Hall).
      exists (S k). split; [simpl; lia|].
      split; [rewrite Hp, Hb; simpl; rewrite <- app_assoc; reflexivity|].
      intros s' Hrun. rewrite (Hall s' Hrun). reflexivity.
    + exists 1%nat. split; [simpl; lia|].
      split; [exact Hb|]. intros s' Hrun. discriminate.
Qed.

Lemma take_str_spec n :
  forall content,
  exists rest,
    content = String.append (take_str n content) rest /\
    char_count (take_str n content) = Nat.min n (char_count content) /\
    (rest = EmptyString \/ exists c r, rest = String c r /\ continuation c = false).
Proof.
  intros content. revert n.
  induction content as [|c content IH]; intros n; simpl.
  - exists EmptyString. rewrite Nat.min_0_r. auto.
  - destruct (continuation c) eqn:Hc.
    + destruct (IH n) as (rest & Hs & Hn & Hr).
      exists rest. simpl. rewrite Hc, <- Hs. auto.
    + destruct n as [|n].
      * exists (String c content). simpl. split; [reflexivity|].
        split; [reflexivity|]. right. eauto.
      * destruct (IH n) as (rest & Hs & Hn & Hr).
        exists rest. simpl. rewrite Hc, <- Hs, Hn. auto.
Qed.

Lemma replace_newlines_spec text :
  forall n,
    String.get n (replace_newlines text)
    = option_map (fun c => if Ascii.eqb c (ascii_of_nat 10) then " "%char else c)
                 (String.get n text).
Proof.
  induction text as [|c text IH]; intros n; simpl; [reflexivity|].
  destruct n; simpl; [reflexivity|apply IH].
Qed.

(** X8: the progress bar follows the fetch order.  The loop updates it
    once for each row it reaches, in the order of the backlog, the [k]-th
    row showing the fraction [k/N] and the first 30 characters of its
    content, newlines shown as spaces; every fraction is above 0 and at
    most 1, and a loop that completes has shown all [N] of them.  The
    characters shown are whole characters from the start of the content,
    30 of them or all there are. *)
Theorem progress_follows_fetch_order E replica_uuid rows s :
  let total := List.length rows in
  let res := train_loop E replica_uuid total s 0 rows in
  (exists k,
      (k <= total)%nat /\
      filter is_progress (history (state_of res))
      = filter is_progress (history s)
        ++ map (fun p =>
                  EvUi (UiProgress
                          (fst p + 1) total
                          [Lit "Processing message "; FNat (fst p + 1); Lit "/";
                           FNat total; Lit ": '";
                           FStr (replace_newlines (take_str 30 (msg_content (snd p))));
                           Lit "...'"]))
               (firstn k (enumerate_from 0 rows)) /\
      (forall s', res = Next s' -> k = total) /\
      Forall (fun p => (1 <= fst p + 1 <= total)%nat /\
                       exists older newer, rows = older ++ snd p :: newer /\
                                           List.length older = fst p)
             (firstn k (enumerate_from 0 rows))) /\
  (forall content,
    exists rest,
      content = String.append (take_str 30 content) rest /\
      char_count (take_str 30 content) = Nat.min 30 (char_count content) /\
      (rest = EmptyString \/ exists c r, rest = String c r /\ continuation c = false)) /\
  (forall text n,
      String.get n (replace_newlines text)
      = option_map (fun c => if Ascii.eqb c (ascii_of_nat 10) then " "%char else c)
                   (String.get n text)).
Proof.
  intros total res.
  split; [|split; [exact (take_str_spec 30)|exact replace_newlines_spec]].
  destruct (train_loop_progress E replica_uuid total rows s 0%nat) as (k & Hk & Hp & Hall).
  exists k. split; [exact Hk|]. split; [exact Hp|]. split; [exact Hall|].
  apply Forall_forall. intros p Hin.
  pose proof (enumerate_from_bounds rows 0%nat k) as Hb.
  rewrite Forall_forall in Hb. specialize (Hb p Hin). simpl in Hb.
  split; [fold total in Hb; lia|].
  assert (Hgen : forall (l : list Msg) i q,
             In q (enumerate_from i l) ->
             exists older newer, l = older ++ snd q :: newer /\
                                 (i + List.length older = fst q)%nat).
  { induction l as [|x l IHl]; intros i q Hq; simpl in Hq; [contradiction|].
    destruct Hq as [<-|Hq].
    - exists [], l. simpl. split; [reflexivity|lia].
    - destruct (IHl (S i) q Hq) as (older & newer & Hl & Hlen).
      exists (x :: older), newer. simpl. split; [rewrite Hl; reflexivity|lia]. }
  destruct (Hgen rows 0%nat p) as (older & newer & Hl & Hlen).
  { rewrite <- (firstn_skipn k (enumerate_from 0 rows)). apply in_or_app. auto. }
  exists older, newer. split; [exact Hl|exact Hlen].
Qed.





(** *** A second press *)

Lemma train_body_no_error_marks E replica_uuid total s i m s' :
  train_body E replica_uuid total s i m = Next s' ->
  error_count s' = error_count s ->
  table s' = Store.mark_processed (msg_id m) (table s).
Proof.
  intros Hb He.
  pose proof (train_body_path E replica_uuid total s i m) as H.
  rewrite Hb in H.
  inversion H; subst; clear H; shown_row; known_states; simpl in *; try lia; congruence.
Qed.

Lemma train_loop_errors_grow E replica_uuid total rows :
  forall s i s',
    train_loop E replica_uuid total s i rows = Next s' ->
    (error_count s <= error_count s')%nat.
Proof.
  induction rows as [|m rows IH]; intros s i s' Hrun; simpl in Hrun.
  - inversion Hrun. lia.
  - pose proof (train_body_outcome E replica_uuid total s i m) as Hc.
    destruct (train_body E replica_uuid total s i m) as [s1|e s1]; [|discriminate].
    specialize (IH s1 (S i) s' Hrun). lia.
Qed.

Lemma train_loop_no_error_marks E replica_uuid total rows :
  forall s i s',
    train_loop E replica_uuid total s i rows = Next s' ->
    error_count s' = error_count s ->
    table s' = mark_all rows (table s).
Proof.
  induction rows as [|m rows IH]; intros s i s' Hrun He; simpl in Hrun.
  - inversion Hrun. reflexivity.
  - pose proof (train_body_outcome E replica_uuid total s i m) as Hc.
    destruct (train_body E replica_uuid total s i m) as [s1|e s1] eqn:Hb; [|discriminate].
    pose proof (train_loop_errors_grow E replica_uuid total rows s1 (S i) s' Hrun) as Hg.
    assert (He1 : error_count s1 = error_count s) by lia.
    rewrite (IH s1 (S i) s' Hrun) by lia.
    rewrite (train_body_no_error_marks E replica_uuid total s i m s1 Hb He1).
    reflexivity.
Qed.

Lemma mark_all_rows rows :
  forall t r',
    In r' (mark_all rows t) ->
    exists r, In r t /\
              ((r' = r /\ ~ In (row_id r) (map msg_id rows)) \/
               r' = Store.set_processed r).
Proof.
  induction rows as [|m rows IH]; intros t r' Hin.
  - exists r'. simpl in *. auto.
  - change (mark_all (m :: rows) t)
      with (mark_all rows (Store.mark_processed (msg_id m) t)) in Hin.
    destruct (IH _ _ Hin) as (r1 & Hr1 & Hcase).
    unfold Store.mark_processed in Hr1. apply in_map_iff in Hr1.
    destruct Hr1 as (r & Hr & Hrt). exists r. split; [exact Hrt|].
    destruct (row_id r =? msg_id m) eqn:Hid; subst r1.
    + right. destruct Hcase as [[-> _]| ->]; reflexivity.
    + destruct Hcase as [[-> Hn]| ->]; [left|right; reflexivity].
      split; [reflexivity|]. simpl. intros [Heq|Hin']; [|auto].
      rewrite Heq, Z.eqb_refl in Hid. discriminate.
Qed.

Lemma fetch_after_mark_all owner t :
  Store.fetch_unprocessed owner (mark_all (Store.fetch_unprocessed owner t) t) = [].
Proof.
  assert (Hnone : filter (Store.in_backlog owner)
                         (mark_all (Store.fetch_unprocessed owner t) t) = []).
  { destruct (filter _ _) as [|r' l] eqn:Hf; [reflexivity|exfalso].
    assert (Hin : In r' (filter (Store.in_backlog owner)
                                (mark_all (Store.fetch_unprocessed owner t) t)))
      by (rewrite Hf; simpl; auto).
    apply filter_In in Hin. destruct Hin as [Hin Hb].
    destruct (mark_all_rows _ _ _ Hin) as (r & Hr & [[-> Hn]| ->]).
    - apply Hn. unfold Store.fetch_unprocessed. rewrite map_map.
      change (fun x => msg_id (to_msg x)) with row_id. apply in_map.
      apply (Permutation_in _ (Permutation_sym (StoreFacts.order_by_created_at_perm _))).
      apply filter_In. auto.
    - unfold Store.in_backlog in Hb. simpl in Hb.
      rewrite andb_false_r in Hb. discriminate. }
  unfold Store.fetch_unprocessed at 1. rewrite Hnone. reflexivity.
Qed.

(** X10: after a run that completed without any error, nothing is left
    to train: the backlog of the same owner, fetched again from the table
    the run left, is empty, so a second press of the button (its fetch
    succeeding) shows the "no new messages" text and stops, with no call
    to the remote service and no store update. *)
Theorem second_press_finds_nothing E r t h s owner :
  owner_of r = Some owner ->
  start_training E r t h = Completed s ->
  error_count s = 0%nat ->
  select_raises E (history s
                   ++ [EvUi UiNewLogArea;
                       EvUi (UiProgress 0 1 [Lit "Initializing training..."]);
                       EvUi (UiSpinner [Lit "Fetching unprocessed Slack messages for '";
                                        FStr owner; Lit "' from Supabase..."])]) = None ->
  Store.fetch_unprocessed owner (table s) = [] /\
  start_training E r (table s) (history s)
  = Stopped (table s)
            (history s
             ++ [EvUi UiNewLogArea;
                 EvUi (UiProgress 0 1 [Lit "Initializing training..."]);
                 EvUi (UiSpinner [Lit "Fetching unprocessed Slack messages for '";
                                  FStr owner; Lit "' from Supabase..."]);
                 EvStoreSelect (supabase_table_name E) owner;
                 EvUi (UiInfo (no_work_message owner));
                 EvUi UiEmptyProgress;
                 EvUi UiEmptyLogArea]).
Proof.
  intros Ho Hrun He Hsel.
  assert (Hempty : Store.fetch_unprocessed owner (table s) = []).
  { unfold start_training in Hrun. rewrite Ho in Hrun. cbv zeta in Hrun.
    destruct (select_raises E _); [discriminate|].
    destruct (Store.fetch_unprocessed owner t) as [|m rows] eqn:Hrows; [discriminate|].
    match type of Hrun with
    | context [train_loop E (uuid r) ?n ?s0 0 (m :: rows)] =>
        destruct (train_loop E (uuid r) n s0 0 (m :: rows)) as [sl|e sl] eqn:Hloop
    end; [|discriminate].
    inversion Hrun; subst; clear Hrun. simpl in He |- *.
    rewrite (train_loop_no_error_marks _ _ _ _ _ _ _ Hloop) by (simpl; lia).
    cbn [table]. rewrite <- Hrows. apply fetch_after_mark_all. }
  split; [exact Hempty|].
  unfold start_training. rewrite Ho. cbv zeta. rewrite Hsel, Hempty.
  rewrite <- !app_assoc. reflexivity.
Qed.

Lemma second_press_finds_nothing_witness :
  let E := Samples.all_ok in
  exists s,
    start_training E Samples.replica Samples.one_row [] = Completed s /\
    error_count s = 0%nat /\
    processed_count s = 1%nat /\
    Store.fetch_unprocessed "U1" (table s) = [] /\
    exists shown,
      start_training E Samples.replica (table s) (history s)
      = Stopped (table s) (history s ++ shown) /\
      filter is_http shown = [].
Proof.
  eexists.
  assert (Hrun : start_training Samples.all_ok Samples.replica Samples.one_row []
                 = Completed _)
    by (vm_compute; reflexivity).
  split; [exact Hrun|]. split; [reflexivity|]. split; [reflexivity|].
  destruct (second_press_finds_nothing
              Samples.all_ok Samples.replica Samples.one_row [] _ "U1"
              eq_refl Hrun eq_refl eq_refl)
    as [Hempty Hsecond].
  split; [exact Hempty|].
  eexists. split; [exact Hsecond|]. reflexivity.
Defined.

(** *** The processed flag and the success field *)

(** X21: no press of the training button ever resets a processed flag: a
    row whose flag was true before the press has it true afterwards,
    however the run ends.  The only update the handler sends sets the
    flag. *)
Theorem processed_flags_never_reset E r t h rid :
  Store.processed_flag t rid = Some true ->
  Store.processed_flag (final_table (start_training E r t h)) rid = Some true.
Proof.
  intros Hflag. unfold start_training.
  destruct (owner_of r) as [owner|]; [|exact Hflag].
  cbv zeta.
  destruct (select_raises E _); [exact Hflag|].
  destruct (Store.fetch_unprocessed owner t) as [|m rows]; [exact Hflag|].
  match goal with
  | |- context [train_loop E (uuid r) ?n ?s0 0 (m :: rows)] =>
      pose proof (train_loop_table E (uuid r) n (m :: rows) rid s0 0%nat) as (Hkeep & _ & _);
      destruct (train_loop E (uuid r) n s0 0 (m :: rows)) as [sl|e sl]
  end; simpl in *; auto.
Qed.

Lemma processed_flags_never_reset_witness :
  let t := Store.mark_processed 1 Samples.three_rows in
  Store.processed_flag t 1 = Some true /\
  Store.processed_flag
    (final_table (start_training Samples.all_ok Samples.replica t [])) 1 = Some true.
Proof.
  split; [reflexivity|].
  exact (processed_flags_never_reset
           Samples.all_ok Samples.replica
           (Store.mark_processed 1 Samples.three_rows) [] 1 eq_refl).
Defined.

(** X22: a create call or a fill call that comes back with an HTTP
    success whose JSON body is empty, or is an object without a true
    [success] field, is handled as a failed call: the row gets the error
    line of that call (showing the body) and one more error, nothing is
    added to the processed count, and the table is as it was, no store
    update being issued.  After a failed create the loop goes on with the
    next row; after a failed fill the iteration ends with the live log
    and the delay if the key of the live log is free, and with the
    exception of the live log area otherwise. *)
Theorem body_without_success_is_a_failure E replica_uuid total s i m j :
  lacks_success j = true ->
  (http_success (create_outcome E replica_uuid total s i m) = Some j ->
   exists s',
     train_body E replica_uuid total s i m = Next s' /\
     training_logs s' = training_logs s ++ [create_failed_line m (j, None)] /\
     error_count s' = S (error_count s) /\
     processed_count s' = processed_count s /\
     table s' = table s /\
     history s' = history s
                  ++ [EvUi (UiProgress (i + 1) total (progress_text i total m));
                      EvHttp (create_call E replica_uuid)]) /\
  (create_succeeds (create_outcome E replica_uuid total s i m) = true ->
   http_success (fill_outcome E replica_uuid total s i m) = Some j ->
   let kb := entry_id (create_outcome E replica_uuid total s i m) in
   let res := train_body E replica_uuid total s i m in
   let s' := state_of res in
   training_logs s' = training_logs s ++ [fill_failed_line m kb (j, None)] /\
   error_count s' = S (error_count s) /\
   processed_count s' = processed_count s /\
   table s' = table s /\
   if live_log_shown s
   then res = Uncaught (DuplicateElementKey (live_log_key replica_uuid)) s' /\
        history s' = history s
                     ++ [EvUi (UiProgress (i + 1) total (progress_text i total m));
                         EvHttp (create_call E replica_uuid);
                         EvHttp (fill_call E replica_uuid m kb)]
   else res = Next s' /\
        history s' = history s
                     ++ [EvUi (UiProgress (i + 1) total (progress_text i total m));
                         EvHttp (create_call E replica_uuid);
                         EvHttp (fill_call E replica_uuid m kb);
                         EvUi (UiTextArea "Training Log" (last_n 10 (training_logs s')));
                         EvSleep politeness_delay]).
Proof.
  intros Hl. split.
  - intros Hc. eexists. split; [exact (row_create_lacks_success _ _ _ _ _ _ j Hc Hl)|].
    simpl. rewrite <- app_assoc. auto.
  - intros Hc Hf kb res s'. subst s' res.
    rewrite (row_fill_lacks_success _ _ _ _ _ _ j Hc Hf Hl).
    end_of_row_cases_tac; simpl in Hkey; rewrite Hkey; simpl;
      rewrite <- !app_assoc; repeat split; reflexivity.
Qed.

Lemma body_without_success_is_a_failure_witness :
  let j := JObj [("message", JStr "queued")] in
  let s := Samples.fresh Samples.two_rows in
  lacks_success j = true /\
  (exists s',
     train_body Samples.no_success_field (Some "uuid-1") 2 s 0 Samples.row1 = Next s' /\
     training_logs s' = [create_failed_line Samples.row1 (j, None)] /\
     error_count s' = 1%nat /\ processed_count s' = 0%nat /\
     table s' = Samples.two_rows) /\
  (let res := train_body Samples.fill_no_success (Some "uuid-1") 2 s 0 Samples.row1 in
   let s' := state_of res in
   training_logs s' = [fill_failed_line Samples.row1 (JNum 7) (j, None)] /\
   error_count s' = 1%nat /\ processed_count s' = 0%nat /\
   table s' = Samples.two_rows /\
   res = Next s').
Proof.
  split; [reflexivity|]. split.
  - destruct (proj1 (body_without_success_is_a_failure
                       Samples.no_success_field (Some "uuid-1") 2
                       (Samples.fresh Samples.two_rows) 0 Samples.row1
                       (JObj [("message", JStr "queued")]) eq_refl) eq_refl)
      as (s' & H1 & H2 & H3 & H4 & H5 & _).
    exists s'. auto.
  - destruct (proj2 (body_without_success_is_a_failure
                       Samples.fill_no_success (Some "uuid-1") 2
                       (Samples.fresh Samples.two_rows) 0 Samples.row1
                       (JObj [("message", JStr "queued")]) eq_refl) eq_refl eq_refl)
      as (H1 & H2 & H3 & H4 & H5 & _).
    auto 6.
Defined.

End TrainingMore.

(** * Further properties of the remote client *)

Module ClientMore.
Import Client PageCalls.

(** X12: every call that leaves [make_sensay_request] goes to the fixed
    base URL followed by the endpoint, with a timeout of 30, the
    organization secret, the API version and the JSON content type in its
    headers, and the X-USER-ID header exactly when a non-empty user id was
    given.  A GET carries the query parameters and no body, a POST or PUT
    the JSON body and no parameters, a DELETE neither. *)
Theorem shape_of_every_call E h method endpoint json_data params user_id :
  Forall (fun e =>
            match e with
            | EvHttp c =>
                call_url c = Lit SENSAY_API_BASE_URL :: endpoint /\
                call_timeout c = 30 /\
                header "X-ORGANIZATION-SECRET" (call_headers c) = Some (sensay_org_secret E) /\
                header "X-API-Version" (call_headers c) = Some (sensay_api_version E) /\
                header "Content-Type" (call_headers c) = Some "application/json" /\
                header "X-USER-ID" (call_headers c)
                = match user_id with
                  | Some u => if (u =? "")%string then None else Some u
                  | None => None
                  end /\
                match call_verb c with
                | GET => call_params c = params /\ call_json c = None
                | POST | PUT => call_params c = None /\ call_json c = json_data
                | DELETE => call_params c = None /\ call_json c = None
                end
            | _ => False
            end)
         (snd (make_sensay_request E h method endpoint json_data params user_id)).
Proof.
  unfold make_sensay_request, try_block.
  destruct (verb_of (upper method)) as [v|]; [|constructor].
  cbv zeta.
  match goal with
  | |- context [send E h ?c0] => set (c := c0)
  end.
  assert (Hc : call_url c = Lit SENSAY_API_BASE_URL :: endpoint /\
               call_timeout c = 30 /\
               header "X-ORGANIZATION-SECRET" (call_headers c) = Some (sensay_org_secret E) /\
               header "X-API-Version" (call_headers c) = Some (sensay_api_version E) /\
               header "Content-Type" (call_headers c) = Some "application/json" /\
               header "X-USER-ID" (call_headers c)
               = match user_id with
                 | Some u => if (u =? "")%string then None else Some u
                 | None => None
                 end /\
               match call_verb c with
               | GET => call_params c = params /\ call_json c = None
               | POST | PUT => call_params c = None /\ call_json c = json_data
               | DELETE => call_params c = None /\ call_json c = None
               end).
  { subst c. destruct v; simpl; repeat split; try reflexivity;
      destruct user_id as [u|]; try reflexivity;
      destruct (u =? "")%string; reflexivity. }
  destruct (send E h c) as [msg|msg|r];
    [| |destruct (raises_for_status r); [|destruct (resp_json r)]];
    cbn [snd handle]; (apply Forall_cons; [exact Hc|apply Forall_nil]).
Qed.

(** With a supported verb: the one call made, and the reply by the answer
    it gets. *)
Lemma make_sensay_request_cases E h method endpoint json_data params user_id v :
  verb_of (upper method) = Some v ->
  let c := build_call v (Lit SENSAY_API_BASE_URL :: endpoint)
                      (make_headers (sensay_org_secret E) (sensay_api_version E) user_id)
                      json_data params in
  exists reply,
    make_sensay_request E h method endpoint json_data params user_id
    = (Returned reply, [EvHttp c]) /\
    Pages.not_found (snd reply) = is_404 (send E h c) /\
    match Training.http_success (send E h c) with
    | Some j => reply = (j, None)
    | None => exists e, reply = (JNull, Some e)
    end.
Proof.
  intros Hv c. unfold make_sensay_request, try_block. rewrite Hv. cbv zeta. fold c.
  destruct (send E h c) as [msg|msg|r]; simpl.
  - eexists. split; [reflexivity|]. split; [reflexivity|eauto].
  - eexists. split; [reflexivity|]. split; [reflexivity|eauto].
  - unfold raises_for_status.
    destruct ((400 <=? status_code r) && (status_code r <? 600)) eqn:Hr; simpl.
    + eexists. split; [reflexivity|]. split; [reflexivity|eauto].
    + assert (H404 : (status_code r =? 404) = false).
      { apply Z.eqb_neq. intros Heq. rewrite Heq in Hr. discriminate. }
      destruct (resp_json r); simpl; eexists;
        (split; [reflexivity|]); (split; [simpl; rewrite ?H404; reflexivity|eauto]).
Qed.

End ClientMore.

(** * Properties of the pages *)

Module PageFacts.
Import Pages PageCalls.

Lemma call_cases E method endpoint json_data params user_id p v :
  Client.verb_of (upper method) = Some v ->
  let c := Client.build_call v (Lit SENSAY_API_BASE_URL :: endpoint)
                             (Client.make_headers (sensay_org_secret E)
                                                  (sensay_api_version E) user_id)
                             json_data params in
  exists reply,
    call E method endpoint json_data params user_id p
    = (Returned reply, mkPage (calls p ++ [EvHttp c]) (screen p)) /\
    not_found (snd reply) = is_404 (send E (calls p) c) /\
    match Training.http_success (send E (calls p) c) with
    | Some j => reply = (j, None)
    | None => exists e, reply = (JNull, Some e)
    end.
Proof.
  intros Hv c. unfold call.
  destruct (ClientMore.make_sensay_request_cases
              E (calls p) method endpoint json_data params user_id v Hv)
    as (reply & Heq & H404 & Hreply).
  rewrite Heq. exists reply. auto.
Qed.

(** X13: the user check looks the user up and creates it only when the
    lookup answers 404 (then showing the notice first).  Any other answer
    to the lookup, success or failure alike, ends the check after that one
    call; the reply handed on is that of the creation when there is one
    and that of the lookup otherwise. *)
Theorem user_is_created_only_on_404 E uid notice p :
  let looked_up := send E (calls p) (get_user_call E uid) in
  exists reply,
    check_user E uid notice p
    = (Returned reply,
       mkPage (calls p
               ++ EvHttp (get_user_call E uid)
               :: (if is_404 looked_up then [EvHttp (create_user_call E uid)] else []))
              (screen p ++ (if is_404 looked_up then [notice] else []))) /\
    match Training.http_success (user_answer E uid (calls p)) with
    | Some j => reply = (j, None)
    | None => exists e, reply = (JNull, Some e)
    end.
Proof.
  intros looked_up. unfold check_user.
  destruct (call_cases E "GET" [Lit "/users/"; FStr uid] None None None p GET eq_refl)
    as (reply & Heq & H404 & Hreply).
  change (Client.build_call GET (Lit SENSAY_API_BASE_URL :: [Lit "/users/"; FStr uid])
                            (Client.make_headers (sensay_org_secret E)
                                                 (sensay_api_version E) None) None None)
    with (get_user_call E uid) in *.
  fold looked_up in H404, Hreply.
  rewrite Heq, H404. unfold user_answer. fold looked_up.
  destruct (is_404 looked_up).
  - destruct (call_cases E "POST" [Lit "/users"] (Some (create_user_payload uid))
                         None None
                         (show notice (mkPage (calls p ++ [EvHttp (get_user_call E uid)])
                                              (screen p)))
                         POST eq_refl)
      as (reply2 & Heq2 & _ & Hreply2).
    rewrite Heq2. exists reply2. simpl. rewrite <- app_assoc. split; [reflexivity|].
    exact Hreply2.
  - exists reply. rewrite app_nil_r. split; [reflexivity|exact Hreply].
Qed.

(** X14: the calls of the "Create Replica" form.  With one of the six
    required fields empty the handler shows an error and calls nothing.
    Otherwise it runs the user check for the owner id and then posts the
    replica, with the owner id, the form fields and [private: false],
    exactly when the answer that settled the user check came without
    error and with a JSON object; no call follows the replica call. *)
Theorem calls_of_create_replica E f p :
  let uid := slack_user_id_for_replica f in
  let out := outcome_of (submit_create E f p) in
  (all_filled f = false ->
   submit_create E f p
   = Finished (show (ShError [Lit "Please fill all fields for replica creation."]) p)) /\
  (all_filled f = true ->
   calls out
   = calls p
     ++ map EvHttp (user_calls E uid (calls p))
     ++ (if object_reply (user_answer E uid (calls p))
         then [EvHttp (replica_call E f)] else [])).
Proof.
  intros uid out. split; intros Hf; subst out; unfold submit_create; rewrite Hf; simpl negb;
    cbv iota; [reflexivity|].
  cbv zeta. fold uid.
  match goal with
  | |- context [check_user E uid ?n ?p0] =>
      destruct (user_is_created_only_on_404 E uid n p0) as (reply & Heq & Hreply);
      rewrite Heq
  end.
  change (calls (show (ShSpinner [Lit "Verifying/Creating Sensay user and then replica..."]) p))
    with (calls p) in *.
  assert (Hcalls : calls p
                   ++ EvHttp (get_user_call E uid)
                   :: (if is_404 (send E (calls p) (get_user_call E uid))
                       then [EvHttp (create_user_call E uid)] else [])
                   = calls p ++ map EvHttp (user_calls E uid (calls p))).
  { unfold user_calls. destruct (is_404 _); reflexivity. }
  rewrite Hcalls. unfold object_reply.
  destruct (Training.http_success (user_answer E uid (calls p))) as [j|].
  - subst reply.
    destruct j as [| | | | |fields]; simpl; rewrite ?app_nil_r; try reflexivity.
    match goal with
    | |- context [call E "POST" [Lit "/replicas"] ?j None None ?p2] =>
        destruct (call_cases E "POST" [Lit "/replicas"] j None None p2 POST eq_refl)
          as (reply2 & Heq2 & _ & _);
        rewrite Heq2
    end.
    destruct reply2 as [replica_data [err|]]; simpl; [rewrite <- app_assoc; reflexivity|].
    destruct (truthy replica_data); simpl; [|rewrite <- app_assoc; reflexivity].
    destruct (py_get replica_data "success") as [ok|]; simpl;
      [|rewrite <- app_assoc; reflexivity].
    destruct (py_get replica_data "uuid"); simpl; [|rewrite <- app_assoc; reflexivity].
    destruct (truthy ok); simpl; rewrite <- app_assoc; reflexivity.
  - destruct Hreply as [e ->]. simpl. rewrite app_nil_r. reflexivity.
Qed.

Lemma calls_of_create_replica_witness :
  submit_create Samples.all_ok PageSamples.form_without_slug PageSamples.blank
  = Finished (show (ShError [Lit "Please fill all fields for replica creation."])
                   PageSamples.blank) /\
  calls (outcome_of (submit_create MoreSamples.get_404 PageSamples.form PageSamples.blank))
  = [EvHttp (get_user_call MoreSamples.get_404 "U1");
     EvHttp (create_user_call MoreSamples.get_404 "U1");
     EvHttp (replica_call MoreSamples.get_404 PageSamples.form)] /\
  calls (outcome_of (submit_create Samples.all_500 PageSamples.form PageSamples.blank))
  = [EvHttp (get_user_call Samples.all_500 "U1")].
Proof.
  split; [exact (proj1 (calls_of_create_replica Samples.all_ok PageSamples.form_without_slug
                                                PageSamples.blank) eq_refl)|].
  split.
  - exact (proj2 (calls_of_create_replica MoreSamples.get_404 PageSamples.form
                                          PageSamples.blank) eq_refl).
  - exact (proj2 (calls_of_create_replica Samples.all_500 PageSamples.form
                                          PageSamples.blank) eq_refl).
Defined.

(** X15: the creation of a replica is reported as a success (with
    balloons) only when it happened: the form was complete, the replica
    call was the last call made, and the service answered it without error
    with an object whose [success] field is true. *)
Theorem success_is_shown_only_when_acknowledged E f p :
  let out := outcome_of (submit_create E f p) in
  ~ In ShBalloons (screen p) ->
  In ShBalloons (screen out) ->
  all_filled f = true /\
  exists h' j,
    calls out = h' ++ [EvHttp (replica_call E f)] /\
    Training.http_success (send E h' (replica_call E f)) = Some j /\
    Training.acknowledged j = true.
Proof.
  intros out Hold Hin. subst out. unfold submit_create in *.
  destruct (all_filled f); simpl negb in *; cbv iota in *.
  2:{ simpl in Hin. apply in_app_or in Hin. simpl in Hin.
      exfalso. intuition discriminate. }
  split; [reflexivity|].
  cbv zeta in *.
  match type of Hin with
  | context [check_user E ?uid ?n ?p0] =>
      destruct (user_is_created_only_on_404 E uid n p0) as (reply & Heq & _);
      rewrite Heq in *; clear Heq
  end.
  match type of Hin with
  | context [mkPage ?c ?sc] =>
      assert (Hscreen : ~ In ShBalloons sc);
      [|remember (mkPage c sc) as p1 eqn:Hp1;
        assert (Hp1s : ~ In ShBalloons (screen p1)) by (subst p1; exact Hscreen);
        clear Hp1 Hscreen]
  end.
  { intros H. repeat (apply in_app_or in H; destruct H as [H|H]); simpl in H;
      try contradiction.
    - intuition discriminate.
    - destruct (is_404 _); simpl in H; intuition discriminate. }
  destruct reply as [user_data [err|]].
  { exfalso. simpl in Hin. apply in_app_or in Hin. simpl in Hin. intuition discriminate. }
  cbv iota beta in Hin |- *.
  destruct (py_get user_data "id") as [shown_id|]; [|exfalso; simpl in Hin; auto].
  match type of Hin with
  | context [call E "POST" [Lit "/replicas"] ?j None None ?p2] =>
      destruct (call_cases E "POST" [Lit "/replicas"] j None None p2 POST eq_refl)
        as (reply2 & Heq2 & _ & Hreply2);
      rewrite Heq2 in *; clear Heq2
  end.
  destruct reply2 as [replica_data [err|]];
    cbv iota beta zeta in Hin |- *;
    [exfalso; simpl in Hin;
     repeat (apply in_app_or in Hin; destruct Hin as [Hin|Hin]);
     simpl in Hin; intuition discriminate|].
  destruct (truthy replica_data);
    [|exfalso; simpl in Hin;
      repeat (apply in_app_or in Hin; destruct Hin as [Hin|Hin]);
      simpl in Hin; intuition discriminate].
  destruct (py_get replica_data "success") as [ok|] eqn:Hok;
    [|exfalso; simpl in Hin;
      repeat (apply in_app_or in Hin; destruct Hin as [Hin|Hin]);
      simpl in Hin; intuition discriminate].
  destruct (py_get replica_data "uuid") as [new_uuid|];
    [|exfalso; simpl in Hin;
      repeat (apply in_app_or in Hin; destruct Hin as [Hin|Hin]);
      simpl in Hin; intuition discriminate].
  destruct (truthy ok) eqn:Htrue;
    [|exfalso; simpl in Hin;
      repeat (apply in_app_or in Hin; destruct Hin as [Hin|Hin]);
      simpl in Hin; intuition discriminate].
  simpl outcome_of. simpl calls.
  eexists. exists replica_data. split; [reflexivity|].
  simpl calls in Hreply2.
  match type of Hreply2 with
  | match Training.http_success ?o with _ => _ end =>
      destruct (Training.http_success o) as [j|] eqn:Hs
  end.
  - inversion Hreply2; subst j. split; [exact Hs|].
    unfold Training.acknowledged. rewrite Hok. exact Htrue.
  - destruct Hreply2 as [e He]. discriminate.
Qed.

Lemma success_is_shown_only_when_acknowledged_witness :
  let out := outcome_of (submit_create Samples.all_ok PageSamples.form PageSamples.blank) in
  ~ In ShBalloons (screen PageSamples.blank) /\
  In ShBalloons (screen out) /\
  exists h' j,
    calls out = h' ++ [EvHttp (replica_call Samples.all_ok PageSamples.form)] /\
    Training.http_success (send Samples.all_ok h' (replica_call Samples.all_ok PageSamples.form))
    = Some j /\
    Training.acknowledged j = true.
Proof.
  assert (Hold : ~ In ShBalloons (screen PageSamples.blank)) by (simpl; tauto).
  assert (Hin : In ShBalloons
                   (screen (outcome_of (submit_create Samples.all_ok PageSamples.form
                                                      PageSamples.blank)))).
  { vm_compute. tauto. }
  split; [exact Hold|]. split; [exact Hin|].
  exact (proj2 (success_is_shown_only_when_acknowledged
                  Samples.all_ok PageSamples.form PageSamples.blank Hold Hin)).
Defined.

(** X16: a refresh of the replica list makes one GET to /replicas, with
    the [ownerID] parameter exactly when the filter is not empty.  The
    cached list becomes the [items] array of the reply when the reply is
    an object with a true [success] field and an array under [items], and
    becomes empty in every other case in which the handler finishes, in
    particular after any network or HTTP error.  Only a reply that is a
    true value but not an object makes the handler raise, and then the old
    list stays. *)
Theorem refresh_replaces_the_list E owner_id_filter old p :
  let answered := send E (calls p) (list_call E owner_id_filter) in
  let res := refresh_replicas E owner_id_filter old p in
  calls (fst (outcome_of res)) = calls p ++ [EvHttp (list_call E owner_id_filter)] /\
  match Training.http_success answered with
  | None => exists p', res = Finished (p', [])
  | Some (JObj fields) =>
      exists p',
        res = Finished
                (p', if truthy (JObj fields) && truthy (assoc_get "success" fields)
                     then match assoc_get "items" fields with
                          | JArr items => items
                          | _ => []
                          end
                     else [])
  | Some j =>
      if truthy j
      then exists p', res = Interrupted (AttributeError "get") (p', old)
      else exists p', res = Finished (p', [])
  end.
Proof.
  intros answered res. subst res. unfold refresh_replicas. cbv zeta.
  match goal with
  | |- context [call E "GET" [Lit "/replicas"] None ?ps None ?p0] =>
      destruct (call_cases E "GET" [Lit "/replicas"] None ps None p0 GET eq_refl)
        as (reply & Heq & _ & Hreply);
      rewrite Heq
  end.
  change (Client.build_call GET (Lit SENSAY_API_BASE_URL :: [Lit "/replicas"])
            (Client.make_headers (sensay_org_secret E) (sensay_api_version E) None)
            None
            (Some (if nonempty owner_id_filter then [("ownerID", owner_id_filter)] else [])))
    with (list_call E owner_id_filter) in *.
  change (calls (show (ShSpinner [Lit "Fetching replicas from Sensay..."]) p))
    with (calls p) in *.
  fold answered in Hreply.
  destruct (Training.http_success answered) as [j|].
  - subst reply. cbv iota beta.
    destruct j as [|b|n|str|items|fields].
    + simpl. eauto.
    + destruct b; simpl; eauto.
    + simpl truthy. destruct (negb (n =? 0)); simpl; eauto.
    + simpl truthy. destruct (negb (str =? "")%string); simpl; eauto.
    + destruct items; simpl; eauto.
    + cbn [py_get].
      set (ok := assoc_get "success" fields).
      set (its := assoc_get "items" fields).
      set (tf := truthy (JObj fields)).
      clearbody ok its tf.
      destruct tf; cbn [andb]; [|simpl; eauto].
      destruct (truthy ok); [|simpl; eauto].
      destruct its as [| | | |items|]; try (simpl; eauto).
      destruct items; simpl; eauto.
  - destruct Hreply as [e ->]. simpl. eauto.
Qed.

Lemma key_eqb_eq a b : key_eqb a b = true <-> a = b.
Proof.
  destruct a as [x|], b as [y|]; simpl; try (split; [discriminate|discriminate]);
    try tauto.
  rewrite String.eqb_eq. split; [intros ->; reflexivity|intros H; inversion H; reflexivity].
Qed.

Lemma key_eqb_refl a : key_eqb a a = true.
Proof. apply key_eqb_eq. reflexivity. Qed.

Lemma append_to_present k m hs l :
  history_of k hs = Some l ->
  exists hs',
    append_to k m hs = Some hs' /\
    history_of k hs' = Some (l ++ [m]) /\
    (forall k', k' <> k -> history_of k' hs' = history_of k' hs).
Proof.
  induction hs as [|[k0 l0] hs IH]; simpl; [discriminate|].
  destruct (key_eqb k k0) eqn:Hk; intros H.
  - inversion H; subst l0. eexists. split; [reflexivity|].
    simpl. rewrite Hk. split; [reflexivity|].
    intros k' Hne. apply key_eqb_eq in Hk. subst k0.
    destruct (key_eqb k' k) eqn:Hk'; [|reflexivity].
    apply key_eqb_eq in Hk'. contradiction.
  - destruct (IH H) as (hs' & Ha & Hh & Ho). rewrite Ha. simpl.
    eexists. split; [reflexivity|]. simpl. rewrite Hk.
    split; [exact Hh|].
    intros k' Hne. destruct (key_eqb k' k0); [reflexivity|auto].
Qed.

Lemma history_of_new k v hs :
  history_of k hs = None ->
  history_of k (hs ++ [(k, v)]) = Some v /\
  (forall k', k' <> k -> history_of k' (hs ++ [(k, v)]) = history_of k' hs).
Proof.
  induction hs as [|[k0 l0] hs IH]; simpl.
  - intros _. rewrite key_eqb_refl. split; [reflexivity|].
    intros k' Hne. destruct (key_eqb k' k) eqn:Hk; [|reflexivity].
    apply key_eqb_eq in Hk. contradiction.
  - destruct (key_eqb k k0) eqn:Hk; [discriminate|].
    intros H. destruct (IH H) as [Hh Ho]. split; [exact Hh|].
    intros k' Hne. destruct (key_eqb k' k0); [reflexivity|auto].
Qed.

Lemma say_present k who text w s l :
  history_of k (chat_histories s) = Some l ->
  exists s',
    say k who text w s = Finished s' /\
    history_of k (chat_histories s') = Some (l ++ [mkChat who text]) /\
    (forall k', k' <> k ->
                history_of k' (chat_histories s') = history_of k' (chat_histories s)) /\
    page s' = show (ShChatMessage who w) (page s).
Proof.
  intros H. unfold say.
  destruct (append_to_present k (mkChat who text) _ _ H) as (hs' & Ha & Hh & Ho).
  rewrite Ha. eexists. split; [reflexivity|]. simpl. auto.
Qed.

Lemma open_chat_history tid r s :
  let k := Training.uuid (replica r) in
  history_of k (chat_histories (open_chat tid r s))
  = Some (match history_of k (chat_histories s) with
          | Some l => l
          | None => match greeting r with
                    | Some g => if nonempty g then [mkChat "assistant" [FStr g]] else []
                    | None => []
                    end
          end) /\
  (forall k', k' <> k ->
              history_of k' (chat_histories (open_chat tid r s))
              = history_of k' (chat_histories s)) /\
  calls (page (open_chat tid r s)) = calls (page s) /\
  selected_replica_for_chat_uuid (open_chat tid r s) = k.
Proof.
  intros k. unfold open_chat. fold k. cbv zeta. simpl.
  destruct (history_of k (chat_histories s)) as [l|] eqn:Hh.
  - rewrite Hh. auto.
  - destruct (history_of_new k (match greeting r with
                                | Some g => if nonempty g then [mkChat "assistant" [FStr g]] else []
                                | None => []
                                end) _ Hh) as [Hnew Hother].
    auto.
Qed.

Lemma answer_spec E tid r prompt s l :
  let k := Training.uuid (replica r) in
  let h := calls (page s) in
  let res := answer E tid r prompt s in
  history_of k (chat_histories s) = Some l ->
  calls (page (outcome_of res))
  = h ++ map EvHttp (user_calls E tid h)
      ++ (if no_error (user_answer E tid h)
          then [EvHttp (chat_call E tid k prompt)] else []) /\
  (forall k', k' <> k ->
              history_of k' (chat_histories (outcome_of res))
              = history_of k' (chat_histories s)) /\
  match res with
  | Finished s' =>
      exists text,
        history_of k (chat_histories s')
        = Some (l ++ [mkChat "user" [FStr prompt]; mkChat "assistant" text])
  | Interrupted e s' =>
      e = AttributeError "get" /\
      history_of k (chat_histories s') = Some (l ++ [mkChat "user" [FStr prompt]])
  end.
Proof.
  intros k h res Hl. subst res. unfold answer. fold k.
  destruct (say_present k "user" [FStr prompt] (ShMarkdown [FStr prompt]) s l Hl)
    as (s0 & Hsay & Hh0 & Ho0 & Hp0).
  rewrite Hsay. cbv zeta.
  match goal with
  | |- context [check_user E tid ?n ?p0] =>
      destruct (user_is_created_only_on_404 E tid n p0) as (reply & Heq & Hreply);
      rewrite Heq
  end.
  assert (Hc0 : calls (page (on_page (show (ShSpinner [Lit "🤖 Thinking..."])) s0)) = h)
    by (simpl; rewrite Hp0; reflexivity).
  rewrite Hc0 in *.
  assert (Hcalls : h ++ EvHttp (get_user_call E tid)
                     :: (if is_404 (send E h (get_user_call E tid))
                         then [EvHttp (create_user_call E tid)] else [])
                   = h ++ map EvHttp (user_calls E tid h)).
  { unfold user_calls. destruct (is_404 _); reflexivity. }
  rewrite Hcalls.
  set (p1 := mkPage (h ++ map EvHttp (user_calls E tid h)) _).
  set (s2 := on_page (fun _ => p1) _).
  assert (Hh2 : history_of k (chat_histories s2) = Some (l ++ [mkChat "user" [FStr prompt]]))
    by exact Hh0.
  assert (Ho2 : forall k', k' <> k ->
                           history_of k' (chat_histories s2) = history_of k' (chat_histories s))
    by exact Ho0.
  assert (Hc2 : calls (page s2) = h ++ map EvHttp (user_calls E tid h)) by reflexivity.
  clearbody s2. clear Hsay Hh0 Ho0 Hp0 Hc0 Heq.
  unfold no_error.
  destruct reply as [user_data [err|]]; cbv iota beta.
  - destruct (Training.http_success (user_answer E tid h)) as [j|];
      [discriminate Hreply|].
    match goal with
    | |- context [say k "assistant" ?t ?w s2] =>
        destruct (say_present k "assistant" t w s2 _ Hh2) as (s3 & Hsay3 & Hh3 & Ho3 & Hp3);
        rewrite Hsay3
    end.
    simpl outcome_of. rewrite Hp3. simpl calls. rewrite Hc2, app_nil_r.
    split; [reflexivity|]. split; [intros k' Hne; rewrite Ho3, Ho2; auto|].
    rewrite Hh3, <- app_assoc. eexists. reflexivity.
  - destruct (Training.http_success (user_answer E tid h)) as [j|];
      [|destruct Hreply as [e He]; discriminate He].
    match goal with
    | |- context [call E "POST" ?ep ?jd None ?u (page s2)] =>
        destruct (call_cases E "POST" ep jd None u (page s2) POST eq_refl)
          as (reply2 & Heq2 & _ & _);
        rewrite Heq2
    end.
    set (p2 := mkPage _ _).
    assert (Hp2 : calls p2 = (h ++ map EvHttp (user_calls E tid h))
                             ++ [EvHttp (chat_call E tid k prompt)])
      by (subst p2; simpl; rewrite Hc2; reflexivity).
    set (s3 := on_page (fun _ => p2) s2).
    assert (Hh3 : history_of k (chat_histories s3) = Some (l ++ [mkChat "user" [FStr prompt]]))
      by exact Hh2.
    assert (Ho3 : forall k', k' <> k ->
                             history_of k' (chat_histories s3)
                             = history_of k' (chat_histories s))
      by exact Ho2.
    assert (Hc3 : calls (page s3) = h ++ map EvHttp (user_calls E tid h)
                                      ++ [EvHttp (chat_call E tid k prompt)])
      by (change (calls (page s3)) with (calls p2);
          rewrite Hp2, <- app_assoc; reflexivity).
    clearbody s3. clear Heq2 Hp2.
    assert (Hsaid : forall t w,
               calls (page (outcome_of (say k "assistant" t w s3)))
               = h ++ map EvHttp (user_calls E tid h) ++ [EvHttp (chat_call E tid k prompt)] /\
               (forall k', k' <> k ->
                           history_of k' (chat_histories (outcome_of (say k "assistant" t w s3)))
                           = history_of k' (chat_histories s)) /\
               match say k "assistant" t w s3 with
               | Finished s' =>
                   exists text,
                     history_of k (chat_histories s')
                     = Some (l ++ [mkChat "user" [FStr prompt]; mkChat "assistant" text])
               | Interrupted e s' =>
                   e = AttributeError "get" /\
                   history_of k (chat_histories s') = Some (l ++ [mkChat "user" [FStr prompt]])
               end).
    { intros t w.
      destruct (say_present k "assistant" t w s3 _ Hh3) as (s4 & Hsay4 & Hh4 & Ho4 & Hp4).
      rewrite Hsay4. simpl outcome_of. rewrite Hp4. simpl calls.
      split; [exact Hc3|]. split; [intros k' Hne; rewrite Ho4, Ho3; auto|].
      rewrite Hh4, <- app_assoc. eexists. reflexivity. }
    destruct reply2 as [response_data [err|]]; cbv iota beta zeta; [apply Hsaid|].
    destruct (truthy response_data); [|apply Hsaid].
    destruct response_data as [| | | | |fields];
      try (simpl outcome_of; split; [exact Hc3|]; split; [exact Ho3|]; split;
           [reflexivity|exact Hh3]).
    destruct (truthy (assoc_get "success" fields)); apply Hsaid.
Qed.



Lemma open_chat_present tid r s l :
  history_of (Training.uuid (replica r)) (chat_histories s) = Some l ->
  chat_histories (open_chat tid r s) = chat_histories s.
Proof. intros H. unfold open_chat. simpl. rewrite H. reflexivity. Qed.

(** X18: opening the chat of a replica starts its history only when it
    has none, with the greeting as first assistant message when the
    greeting is a non-empty text and empty otherwise; an existing history
    is kept as it is, so the greeting is never added twice.  Opening makes
    no call, remembers the replica as the selection, leaves the other
    histories alone, and without a prompt the tab does nothing more. *)
Theorem opening_a_chat_keeps_its_history E tid r s :
  let k := Training.uuid (replica r) in
  let opened := open_chat tid r s in
  history_of k (chat_histories opened)
  = Some (match history_of k (chat_histories s) with
          | Some l => l
          | None => match greeting r with
                    | Some g => if nonempty g then [mkChat "assistant" [FStr g]] else []
                    | None => []
                    end
          end) /\
  (forall k', k' <> k ->
              history_of k' (chat_histories opened) = history_of k' (chat_histories s)) /\
  chat_histories (open_chat tid r opened) = chat_histories opened /\
  calls (page opened) = calls (page s) /\
  selected_replica_for_chat_uuid opened = k /\
  chat_tab E tid r None s = Finished opened /\
  chat_tab E tid r (Some "") s = Finished opened.
Proof.
  intros k opened.
  destruct (open_chat_history tid r s) as (Hopen & Hother & Hcalls & Hsel).
  fold k in Hopen, Hother, Hsel. fold opened in Hopen, Hother, Hcalls, Hsel.
  split; [exact Hopen|]. split; [exact Hother|].
  split; [|split; [exact Hcalls|split; [exact Hsel|split; reflexivity]]].
  exact (open_chat_present tid r opened _ Hopen).
Qed.

(** X19: the calls of a prompt.  The handler runs the user check for the
    test user and then, exactly when the answer that settled the check
    came without error, posts the prompt to the chat endpoint of the
    selected replica, with the test user id in the X-USER-ID header (when
    it is not empty); nothing is called after that. *)
Theorem calls_of_a_prompt E tid r prompt s :
  nonempty prompt = true ->
  let k := Training.uuid (replica r) in
  let h := calls (page s) in
  calls (page (outcome_of (chat_tab E tid r (Some prompt) s)))
  = h ++ map EvHttp (user_calls E tid h)
      ++ (if no_error (user_answer E tid h)
          then [EvHttp (chat_call E tid k prompt)] else []) /\
  header "X-USER-ID" (call_headers (chat_call E tid k prompt))
  = (if (tid =? "")%string then None else Some tid) /\
  call_json (chat_call E tid k prompt) = Some (JObj [("content", JStr prompt)]).
Proof.
  intros Hp k h. unfold chat_tab. rewrite Hp.
  destruct (open_chat_history tid r s) as (Hopen & _ & Hcalls & _).
  fold k in Hopen.
  destruct (answer_spec E tid r prompt (open_chat tid r s) _ Hopen) as (Hc & _ & _).
  rewrite Hcalls in Hc. fold k h in Hc.
  split; [exact Hc|]. split; [|reflexivity].
  unfold chat_call, Client.make_headers. simpl call_headers.
  destruct (tid =? "")%string; reflexivity.
Qed.

Lemma calls_of_a_prompt_witness :
  nonempty "hello" = true /\
  calls (page (outcome_of (chat_tab MoreSamples.offline "tester" PageSamples.expert
                                    (Some "hello") PageSamples.new_session)))
  = [EvHttp (get_user_call MoreSamples.offline "tester")] /\
  calls (page (outcome_of (chat_tab MoreSamples.get_404 "tester" PageSamples.expert
                                    (Some "hello") PageSamples.new_session)))
  = [EvHttp (get_user_call MoreSamples.get_404 "tester");
     EvHttp (create_user_call MoreSamples.get_404 "tester");
     EvHttp (chat_call MoreSamples.get_404 "tester" (Some "uuid-1") "hello")].
Proof.
  split; [reflexivity|]. split.
  - exact (proj1 (calls_of_a_prompt MoreSamples.offline "tester" PageSamples.expert "hello"
                                    PageSamples.new_session eq_refl)).
  - exact (proj1 (calls_of_a_prompt MoreSamples.get_404 "tester" PageSamples.expert "hello"
                                    PageSamples.new_session eq_refl)).
Defined.

Lemma index_of_spec x uuids k :
  index_of x uuids = Some k ->
  nth_error uuids k = Some (Some x) /\
  (k < List.length uuids)%nat /\
  (forall j, (j < k)%nat -> nth_error uuids j <> Some (Some x)).
Proof.
  revert k. induction uuids as [|u rest IH]; simpl; intros k H; [discriminate|].
  destruct (key_eqb u (Some x)) eqn:Hu.
  - inversion H; subst k. apply key_eqb_eq in Hu. subst u.
    split; [reflexivity|]. split; [lia|]. intros j Hj. lia.
  - destruct (index_of x rest) as [k'|]; [|discriminate].
    inversion H; subst k. destruct (IH k' eq_refl) as (Hn & Hlt & Hfirst).
    split; [exact Hn|]. split; [lia|].
    intros [|j] Hj; simpl.
    + intros Heq. inversion Heq; subst u. rewrite key_eqb_refl in Hu. discriminate.
    + apply Hfirst. lia.
Qed.

Lemma index_of_none x uuids :
  index_of x uuids = None -> ~ In (Some x) uuids.
Proof.
  induction uuids as [|u rest IH]; simpl; intros H; [tauto|].
  destruct (key_eqb u (Some x)) eqn:Hu; [discriminate|].
  destruct (index_of x rest); [discriminate|].
  intros [Heq|Hin]; [|exact (IH eq_refl Hin)].
  subst u. rewrite key_eqb_refl in Hu. discriminate.
Qed.

Lemma dict_set_new k v d :
  ~ In k (map fst d) -> dict_set k v d = d ++ [(k, v)].
Proof.
  induction d as [|[k' v'] d IH]; simpl; intros Hn; [reflexivity|].
  destruct (String.eqb_spec k k'); [exfalso; apply Hn; auto|].
  rewrite IH; [reflexivity|]. intros Hin. apply Hn. auto.
Qed.

Lemma replica_options_distinct replicas :
  forall d,
    NoDup (map fst d ++ map display_name replicas) ->
    fold_left (fun d' r => dict_set (display_name r) r d') replicas d
    = d ++ map (fun r => (display_name r, r)) replicas.
Proof.
  induction replicas as [|r replicas IH]; intros d Hnd; simpl.
  - rewrite app_nil_r. reflexivity.
  - rewrite dict_set_new.
    + rewrite IH.
      * rewrite <- app_assoc. reflexivity.
      * rewrite map_app. simpl. rewrite <- app_assoc. simpl. exact Hnd.
    + simpl in Hnd. apply NoDup_remove_2 in Hnd.
      intros Hin. apply Hnd. apply in_or_app. auto.
Qed.

(** X20: the default option of the chat selectbox.  The index computed
    from the remembered uuid is 0 when nothing is remembered; when no
    replica of the list has the remembered uuid it is 0 as well and the
    remembered uuid is forgotten; otherwise it is one more than the
    position of the first replica with that uuid, so never beyond the
    list.  When the display names of the list are pairwise distinct, the
    option at that index is the display name of that replica. *)
Theorem default_chat_selection replicas selected :
  let idx := fst (current_selection_idx replicas selected) in
  let kept := snd (current_selection_idx replicas selected) in
  (idx <= List.length replicas)%nat /\
  (selected = None \/ selected = Some "" -> idx = 0%nat /\ kept = selected) /\
  (forall x, selected = Some x -> x <> "" ->
             ~ In (Some x) (map (fun r => Training.uuid (replica r)) replicas) ->
             idx = 0%nat /\ kept = None) /\
  (forall k, idx = S k ->
             kept = selected /\
             exists r,
               nth_error replicas k = Some r /\
               Training.uuid (replica r) = selected /\
               (forall j r', (j < k)%nat -> nth_error replicas j = Some r' ->
                             Training.uuid (replica r') <> selected) /\
               (NoDup (map display_name replicas) ->
                nth_error (selectbox_options replicas) idx = Some (display_name r))).
Proof.
  intros idx kept. subst idx kept. unfold current_selection_idx.
  destruct selected as [x|]; simpl.
  2:{ split; [lia|]. split; [auto|]. split; [discriminate|]. discriminate. }
  unfold nonempty. destruct (String.eqb_spec x ""); simpl.
  { subst x. split; [lia|]. split; [auto|].
    split; [intros y Hy Hne; inversion Hy; subst; contradiction|discriminate]. }
  destruct (index_of x (map (fun r => Training.uuid (replica r)) replicas)) as [k|] eqn:Hi;
    simpl.
  - destruct (index_of_spec _ _ _ Hi) as (Hn & Hlt & Hfirst).
    rewrite length_map in Hlt.
    split; [lia|].
    split; [intros [H|H]; [discriminate|inversion H; subst; contradiction]|].
    split.
    { intros y Hy _ Hnot. inversion Hy; subst y. exfalso. apply Hnot.
      eapply nth_error_In. exact Hn. }
    intros k0 Hk0. assert (k0 = k) by lia. subst k0.
    split; [reflexivity|].
    rewrite nth_error_map in Hn.
    destruct (nth_error replicas k) as [r|] eqn:Hr; [|discriminate].
    simpl in Hn. inversion Hn as [Hu].
    exists r. split; [reflexivity|]. split; [reflexivity|].
    split.
    + intros j r' Hj Hr' Heq. apply (Hfirst j Hj).
      rewrite nth_error_map, Hr'. simpl. rewrite Heq, Hu. reflexivity.
    + intros Hnd. replace (k + 1)%nat with (S k) by lia.
      unfold selectbox_options, replica_options. simpl nth_error.
      rewrite (replica_options_distinct replicas []) by exact Hnd.
      simpl. rewrite map_map. simpl. rewrite nth_error_map, Hr. reflexivity.
  - split; [lia|].
    split; [intros [H|H]; [discriminate|inversion H; subst; contradiction]|].
    split; [auto|discriminate].
Qed.

End PageFacts.
